(** * PotMatch: a potentiometer guessing game for an Arduino board

    A shallow embedding of [src/PotMatch.ino] and the properties of its
    non-blocking event loop.

    The sketch keeps all of its state in global variables.  They are gathered
    here, under their own names, in one [State] record that every function
    takes and returns.  The record is split along the comment blocks of the
    sketch (game, pot, button, sound) plus one block for the hardware the
    sketch drives (clock, LEDs, buzzer, LCD).

    Integer model.
    - [unsigned long] values (all time stamps) are 32-bit: they are integers
      in [0, 2^32) and [+] and [-] on them wrap, see [uadd] and [usub].
    - [int] values are integers; every [int] of the sketch stays far from the
      limits of even a 16-bit [int] (readings are below 1024, levels and
      tries are at most 9999), except the click counter, which would need
      more than thirty thousand presses without a 700 ms pause to overflow.
      Signed overflow is undefined in C++ and is not modelled.

    Environment model.
    - [millis()] reads the field [clock].  Time passes between two iterations
      of [loop] (the input [in_dt]) and inside [delay]; the rest of an
      iteration is taken to run within one millisecond.
    - [digitalRead], [analogRead] and [random] are inputs of the iteration. *)

From Stdlib Require Import ZArith List String Bool Lia DecimalString.
Import ListNotations.
Local Open Scope string_scope.
Local Open Scope Z_scope.

(** String concatenation, the [+] of the Arduino [String] class. *)
Infix "+++" := String.append (right associativity, at level 60).

(** ** Constants *)

Definition HIGH : Z := 1.
Definition LOW : Z := 0.

Definition POT_STABLE_MS : Z := 500.
Definition IDLE_TIMEOUT_MS : Z := 36000.
Definition CLICK_WINDOW_MS : Z := 700.
Definition LONG_PRESS_MS : Z := 800.
Definition WIN_DISPLAY_MS : Z := 5000.

Definition winNotes : list Z := [1047; 1319; 1568; 2093].
Definition winDur : list Z := [160; 160; 200; 340].
Definition winCount : Z := Z.of_nat (List.length winNotes).

(** Array read [a[i]]; the sketch only reads inside the bounds. *)
Definition at_ (a : list Z) (i : Z) : Z := nth (Z.to_nat i) a 0.

(** ** 32-bit unsigned arithmetic *)

Definition ULONG : Z := 2 ^ 32.
Definition uadd (a b : Z) : Z := (a + b) mod ULONG.
Definition usub (a b : Z) : Z := (a - b) mod ULONG.

(** ** Arduino helpers *)

(** The [constrain(amt, low, high)] macro. *)
Definition constrain (amt low high : Z) : Z :=
  if amt <? low then low else if amt >? high then high else amt.

(** [String(n)]: the decimal text of an integer. *)
Definition String_of (n : Z) : string := NilZero.string_of_int (Z.to_int n).

(** ** Level table *)

Record LevelConfig : Type := mkLevel {
  timerMs : Z;
  winWindow : Z;
  triesAllowed : Z
}.

(** [lvl] after [initLevels]; entry 0 of the global array is never assigned
    and keeps its zero initialisation. *)
Definition lvl (L : Z) : LevelConfig :=
  match L with
  | 1 => mkLevel 0 60 0
  | 2 => mkLevel 20000 42 0
  | 3 => mkLevel 15000 36 0
  | 4 => mkLevel 15000 16 5
  | 5 => mkLevel 13000 16 3
  | _ => mkLevel 0 0 0
  end.

(** ** State *)

Set Primitive Projections.

(** Screen, progression and the running round. [currentScreen]:
    0 = welcome, 1 = levelSelect, 2 = inGame, 3 = winAnim, 4 = sleep. *)
Record Game : Type := mkGame {
  selectedLevel : Z;
  unlockedLevel : Z;
  currentScreen : Z;
  lastActivity : Z;
  roundTarget : Z;
  levelStartedAt : Z;
  triesLeft : Z
}.

(** Potentiometer stability detection. *)
Record Pot : Type := mkPot {
  lastPotRaw : Z;
  potChangedAt : Z;
  potStable : bool;
  stableValue : Z
}.

(** Button debouncing and click counting. *)
Record Btn : Type := mkBtn {
  btnState : Z;
  btnLast : Z;
  btnChangedAt : Z;
  btnDownAt : Z;
  clickCount : Z;
  lastClickTime : Z
}.

(** Tone, win melody and win animation; [lastBlink] and [blinkState] are the
    static locals of [checkMelody]. *)
Record Snd : Type := mkSnd {
  toneEndAt : Z;
  toneOnFreq : Z;
  melodyIndex : Z;
  melodyNoteEnd : Z;
  melodyPlaying : bool;
  winAnimEnd : Z;
  winAnimActive : bool;
  lastBlink : Z;
  blinkState : bool
}.

(** The hardware: the millisecond clock, the six LEDs, the frequency on the
    buzzer pin (0 when silent), and the LCD with the two cached lines.
    [lcdFrames] lists the redraws sent to the LCD, latest first. *)
Record Hw : Type := mkHw {
  clock : Z;
  leds : list bool;
  buzzer : Z;
  lcdOn : bool;
  lcdLine0 : string;
  lcdLine1 : string;
  lcdFrames : list (string * string)
}.

Record State : Type := mkState {
  game : Game;
  pot : Pot;
  btn : Btn;
  snd_ : Snd;
  hw : Hw
}.

Definition upd_game (f : Game -> Game) (s : State) : State :=
  mkState (f (game s)) (pot s) (btn s) (snd_ s) (hw s).
Unset Primitive Projections.

Coercion game : State >-> Game.
Coercion pot : State >-> Pot.
Coercion btn : State >-> Btn.
Coercion snd_ : State >-> Snd.
Coercion hw : State >-> Hw.

(** Assignment to one global: [set_x v s] is [s] after [x = v]. *)

Definition upd_pot (f : Pot -> Pot) (s : State) : State :=
  mkState (game s) (f (pot s)) (btn s) (snd_ s) (hw s).
Definition upd_btn (f : Btn -> Btn) (s : State) : State :=
  mkState (game s) (pot s) (f (btn s)) (snd_ s) (hw s).
Definition upd_snd (f : Snd -> Snd) (s : State) : State :=
  mkState (game s) (pot s) (btn s) (f (snd_ s)) (hw s).
Definition upd_hw (f : Hw -> Hw) (s : State) : State :=
  mkState (game s) (pot s) (btn s) (snd_ s) (f (hw s)).

Definition set_selectedLevel (v : Z) : State -> State :=
  upd_game (fun x => mkGame v (unlockedLevel x) (currentScreen x) (lastActivity x) (roundTarget x) (levelStartedAt x) (triesLeft x)).
Definition set_unlockedLevel (v : Z) : State -> State :=
  upd_game (fun x => mkGame (selectedLevel x) v (currentScreen x) (lastActivity x) (roundTarget x) (levelStartedAt x) (triesLeft x)).
Definition set_currentScreen (v : Z) : State -> State :=
  upd_game (fun x => mkGame (selectedLevel x) (unlockedLevel x) v (lastActivity x) (roundTarget x) (levelStartedAt x) (triesLeft x)).
Definition set_lastActivity (v : Z) : State -> State :=
  upd_game (fun x => mkGame (selectedLevel x) (unlockedLevel x) (currentScreen x) v (roundTarget x) (levelStartedAt x) (triesLeft x)).
Definition set_roundTarget (v : Z) : State -> State :=
  upd_game (fun x => mkGame (selectedLevel x) (unlockedLevel x) (currentScreen x) (lastActivity x) v (levelStartedAt x) (triesLeft x)).
Definition set_levelStartedAt (v : Z) : State -> State :=
  upd_game (fun x => mkGame (selectedLevel x) (unlockedLevel x) (currentScreen x) (lastActivity x) (roundTarget x) v (triesLeft x)).
Definition set_triesLeft (v : Z) : State -> State :=
  upd_game (fun x => mkGame (selectedLevel x) (unlockedLevel x) (currentScreen x) (lastActivity x) (roundTarget x) (levelStartedAt x) v).

Definition set_lastPotRaw (v : Z) : State -> State :=
  upd_pot (fun x => mkPot v (potChangedAt x) (potStable x) (stableValue x)).
Definition set_potChangedAt (v : Z) : State -> State :=
  upd_pot (fun x => mkPot (lastPotRaw x) v (potStable x) (stableValue x)).
Definition set_potStable (v : bool) : State -> State :=
  upd_pot (fun x => mkPot (lastPotRaw x) (potChangedAt x) v (stableValue x)).
Definition set_stableValue (v : Z) : State -> State :=
  upd_pot (fun x => mkPot (lastPotRaw x) (potChangedAt x) (potStable x) v).

Definition set_btnState (v : Z) : State -> State :=
  upd_btn (fun x => mkBtn v (btnLast x) (btnChangedAt x) (btnDownAt x) (clickCount x) (lastClickTime x)).
Definition set_btnLast (v : Z) : State -> State :=
  upd_btn (fun x => mkBtn (btnState x) v (btnChangedAt x) (btnDownAt x) (clickCount x) (lastClickTime x)).
Definition set_btnChangedAt (v : Z) : State -> State :=
  upd_btn (fun x => mkBtn (btnState x) (btnLast x) v (btnDownAt x) (clickCount x) (lastClickTime x)).
Definition set_btnDownAt (v : Z) : State -> State :=
  upd_btn (fun x => mkBtn (btnState x) (btnLast x) (btnChangedAt x) v (clickCount x) (lastClickTime x)).
Definition set_clickCount (v : Z) : State -> State :=
  upd_btn (fun x => mkBtn (btnState x) (btnLast x) (btnChangedAt x) (btnDownAt x) v (lastClickTime x)).
Definition set_lastClickTime (v : Z) : State -> State :=
  upd_btn (fun x => mkBtn (btnState x) (btnLast x) (btnChangedAt x) (btnDownAt x) (clickCount x) v).

Definition set_toneEndAt (v : Z) : State -> State :=
  upd_snd (fun x => mkSnd v (toneOnFreq x) (melodyIndex x) (melodyNoteEnd x) (melodyPlaying x) (winAnimEnd x) (winAnimActive x) (lastBlink x) (blinkState x)).
Definition set_toneOnFreq (v : Z) : State -> State :=
  upd_snd (fun x => mkSnd (toneEndAt x) v (melodyIndex x) (melodyNoteEnd x) (melodyPlaying x) (winAnimEnd x) (winAnimActive x) (lastBlink x) (blinkState x)).
Definition set_melodyIndex (v : Z) : State -> State :=
  upd_snd (fun x => mkSnd (toneEndAt x) (toneOnFreq x) v (melodyNoteEnd x) (melodyPlaying x) (winAnimEnd x) (winAnimActive x) (lastBlink x) (blinkState x)).
Definition set_melodyNoteEnd (v : Z) : State -> State :=
  upd_snd (fun x => mkSnd (toneEndAt x) (toneOnFreq x) (melodyIndex x) v (melodyPlaying x) (winAnimEnd x) (winAnimActive x) (lastBlink x) (blinkState x)).
Definition set_melodyPlaying (v : bool) : State -> State :=
  upd_snd (fun x => mkSnd (toneEndAt x) (toneOnFreq x) (melodyIndex x) (melodyNoteEnd x) v (winAnimEnd x) (winAnimActive x) (lastBlink x) (blinkState x)).
Definition set_winAnimEnd (v : Z) : State -> State :=
  upd_snd (fun x => mkSnd (toneEndAt x) (toneOnFreq x) (melodyIndex x) (melodyNoteEnd x) (melodyPlaying x) v (winAnimActive x) (lastBlink x) (blinkState x)).
Definition set_winAnimActive (v : bool) : State -> State :=
  upd_snd (fun x => mkSnd (toneEndAt x) (toneOnFreq x) (melodyIndex x) (melodyNoteEnd x) (melodyPlaying x) (winAnimEnd x) v (lastBlink x) (blinkState x)).
Definition set_lastBlink (v : Z) : State -> State :=
  upd_snd (fun x => mkSnd (toneEndAt x) (toneOnFreq x) (melodyIndex x) (melodyNoteEnd x) (melodyPlaying x) (winAnimEnd x) (winAnimActive x) v (blinkState x)).
Definition set_blinkState (v : bool) : State -> State :=
  upd_snd (fun x => mkSnd (toneEndAt x) (toneOnFreq x) (melodyIndex x) (melodyNoteEnd x) (melodyPlaying x) (winAnimEnd x) (winAnimActive x) (lastBlink x) v).

Definition set_clock (v : Z) : State -> State :=
  upd_hw (fun x => mkHw v (leds x) (buzzer x) (lcdOn x) (lcdLine0 x) (lcdLine1 x) (lcdFrames x)).
Definition set_leds (v : list bool) : State -> State :=
  upd_hw (fun x => mkHw (clock x) v (buzzer x) (lcdOn x) (lcdLine0 x) (lcdLine1 x) (lcdFrames x)).
Definition set_buzzer (v : Z) : State -> State :=
  upd_hw (fun x => mkHw (clock x) (leds x) v (lcdOn x) (lcdLine0 x) (lcdLine1 x) (lcdFrames x)).
Definition set_lcdOn (v : bool) : State -> State :=
  upd_hw (fun x => mkHw (clock x) (leds x) (buzzer x) v (lcdLine0 x) (lcdLine1 x) (lcdFrames x)).
Definition set_lcdLine0 (v : string) : State -> State :=
  upd_hw (fun x => mkHw (clock x) (leds x) (buzzer x) (lcdOn x) v (lcdLine1 x) (lcdFrames x)).
Definition set_lcdLine1 (v : string) : State -> State :=
  upd_hw (fun x => mkHw (clock x) (leds x) (buzzer x) (lcdOn x) (lcdLine0 x) v (lcdFrames x)).
Definition set_lcdFrames (v : list (string * string)) : State -> State :=
  upd_hw (fun x => mkHw (clock x) (leds x) (buzzer x) (lcdOn x) (lcdLine0 x) (lcdLine1 x) v).

(** ** Hardware access *)

Definition millis (s : State) : Z := clock s.

(** [delay(ms)]: the only place where time passes inside an iteration. *)
Definition delay (ms : Z) (s : State) : State := set_clock (uadd (clock s) ms) s.

Fixpoint list_set {A : Type} (i : nat) (v : A) (l : list A) : list A :=
  match l, i with
  | [], _ => []
  | _ :: t, O => v :: t
  | h :: t, S j => h :: list_set j v t
  end.

(** [digitalWrite(LED_PINS[i], v)]. *)
Definition ledWrite (i : nat) (v : bool) (s : State) : State :=
  set_leds (list_set i v (leds s)) s.

(** [for (int i=0;i<6;i++) digitalWrite(LED_PINS[i], v);] *)
Definition allLeds (v : bool) (s : State) : State :=
  fold_left (fun s i => ledWrite i v s) (seq 0 6) s.

(** [tone(tonePin, freq)] and [noTone(tonePin)]. *)
Definition tone (freq : Z) (s : State) : State := set_buzzer freq s.
Definition noTone (s : State) : State := set_buzzer 0 s.

(** ** The sketch *)

(** Redraws only when one of the two lines differs from the cached pair. *)
Definition lcdPrintIfChanged (l0 l1 : string) (s : State) : State :=
  if negb (String.eqb l0 (lcdLine0 s)) || negb (String.eqb l1 (lcdLine1 s)) then
    let s := set_lcdFrames ((l0, l1) :: lcdFrames s) s in
    let s := set_lcdLine0 l0 s in
    set_lcdLine1 l1 s
  else s.

Definition startToneNB (freq dur : Z) (s : State) : State :=
  if freq <=? 0 then s
  else
    let s := tone freq s in
    let s := set_toneOnFreq freq s in
    set_toneEndAt (uadd (millis s) dur) s.

Definition checkToneNB (s : State) : State :=
  if negb (toneEndAt s =? 0) && (toneEndAt s <=? millis s) then
    let s := noTone s in
    let s := set_toneEndAt 0 s in
    set_toneOnFreq 0 s
  else s.

Definition triggerLoseTone (state : Z) (s : State) : State :=
  match state with
  | 0 => startToneNB 160 250 s
  | 1 => startToneNB 220 200 s
  | 2 => startToneNB 300 150 s
  | 3 => startToneNB 600 120 s
  | 4 => startToneNB 800 100 s
  | _ => startToneNB 200 120 s
  end.

(** [random(20, 1003)] is the input [rnd]. *)
Definition pickNewTarget (rnd : Z) (s : State) : State := set_roundTarget rnd s.

Definition stopToWelcome (s : State) : State :=
  let s := set_currentScreen 0 s in
  let s := lcdPrintIfChanged "Play PotMatch :)" "Press to select" s in
  set_lastActivity (millis s) s.

Definition startLevel (L rnd : Z) (s : State) : State :=
  let s := set_selectedLevel (constrain L 1 5) s in
  let s := pickNewTarget rnd s in
  let s := set_levelStartedAt (millis s) s in
  let s :=
    if 0 <? triesAllowed (lvl (selectedLevel s))
    then set_triesLeft (triesAllowed (lvl (selectedLevel s))) s
    else set_triesLeft 9999 s in
  let s := set_currentScreen 2 s in
  let l0 := "Level " +++ String_of (selectedLevel s) in
  let l1 :=
    if 0 <? timerMs (lvl (selectedLevel s))
    then "Timer:" +++ String_of (timerMs (lvl (selectedLevel s)) / 1000) +++ "s"
    else "Find the value" in
  let s := lcdPrintIfChanged l0 l1 s in
  let s := set_lastActivity (millis s) s in
  let s := set_potStable false s in
  allLeds false s.

Definition diffToState (diff winW : Z) : Z :=
  if diff <=? winW then 5
  else if diff <=? winW * 2 then 4
  else if diff <=? winW * 4 then 3
  else if diff <=? winW * 8 then 2
  else if diff <=? winW * 15 then 1
  else 0.

Definition setLEDsForState (state : Z) (s : State) : State :=
  let s := allLeds false s in
  match state with
  | 0 => ledWrite 2 true (ledWrite 1 true (ledWrite 0 true s))
  | 1 => ledWrite 1 true (ledWrite 0 true s)
  | 2 => ledWrite 1 true s
  | 3 => ledWrite 3 true s
  | 4 => ledWrite 4 true (ledWrite 3 true s)
  | 5 => ledWrite 5 true (ledWrite 4 true (ledWrite 3 true s))
  | _ => s
  end.

Definition stateMsg (state : Z) : string :=
  match state with
  | 0 => "Way off, try harder!"
  | 1 => "Still far, >-<!"
  | 2 => "Getting closer :D"
  | 3 => "Close!!!!"
  | 4 => "Just a little! YAY"
  | 5 => "Correct! YAY YAY YAYYY"
  | _ => "??"
  end.

Definition acceptStablePot (value : Z) (s : State) : State :=
  let diff := Z.abs (value - roundTarget s) in
  let state := diffToState diff (winWindow (lvl (selectedLevel s))) in
  let s := setLEDsForState state s in
  let msg := stateMsg state in
  let l0 := "L" +++ String_of (selectedLevel s) +++ " " in
  let l0 :=
    if 0 <? timerMs (lvl (selectedLevel s)) then
      let remain :=
        usub (timerMs (lvl (selectedLevel s))) (usub (millis s) (levelStartedAt s)) in
      l0 +++ String_of (uadd remain 500 / 1000) +++ "s "
    else l0 in
  let l1 := if state <? 5 then msg +++ " D:" +++ String_of diff else msg +++ " Unlocked" in
  let s := lcdPrintIfChanged l0 l1 s in
  if state <? 5 then
    let s := triggerLoseTone state s in
    if 0 <? triesAllowed (lvl (selectedLevel s)) then
      let s := set_triesLeft (triesLeft s - 1) s in
      if triesLeft s <=? 0 then
        let s := lcdPrintIfChanged "No tries left" "Returning..." s in
        let s := triggerLoseTone 0 s in
        let s := delay 700 s in
        stopToWelcome s
      else s
    else s
  else
    let s := set_winAnimActive true s in
    let s := set_winAnimEnd (uadd (millis s) WIN_DISPLAY_MS) s in
    let s := set_melodyPlaying true s in
    let s := set_melodyIndex 0 s in
    let s := startToneNB (at_ winNotes 0) (at_ winDur 0) s in
    let s := set_melodyNoteEnd (uadd (millis s) (at_ winDur 0)) s in
    set_lastActivity (millis s) s.

(** [raw] is the value of [analogRead(PIN_POT)]. *)
Definition updatePot (raw : Z) (s : State) : State :=
  let now := millis s in
  let s :=
    if 3 <? Z.abs (raw - lastPotRaw s) then
      let s := set_potChangedAt now s in
      let s := set_potStable false s in
      set_lastPotRaw raw s
    else s in
  if negb (potStable s) && (POT_STABLE_MS <=? usub now (potChangedAt s)) then
    let s := set_potStable true s in
    let s := set_stableValue (lastPotRaw s) s in
    let s := set_lastActivity now s in
    if currentScreen s =? 2 then acceptStablePot (stableValue s) s else s
  else s.

Definition checkMelody (s : State) : State :=
  if negb (melodyPlaying s) then s
  else
    let now := millis s in
    let s :=
      if 120 <=? usub now (lastBlink s) then
        let s := set_lastBlink now s in
        let s := set_blinkState (negb (blinkState s)) s in
        allLeds (blinkState s) s
      else s in
    if melodyNoteEnd s <=? now then
      let s := set_melodyIndex (melodyIndex s + 1) s in
      if winCount <=? melodyIndex s then
        if winAnimActive s && (millis s <? winAnimEnd s) then
          let s := set_melodyIndex 0 s in
          let s := startToneNB (at_ winNotes (melodyIndex s)) (at_ winDur (melodyIndex s)) s in
          set_melodyNoteEnd (uadd now (at_ winDur (melodyIndex s))) s
        else
          let s := set_melodyPlaying false s in
          noTone s
      else
        let s := startToneNB (at_ winNotes (melodyIndex s)) (at_ winDur (melodyIndex s)) s in
        set_melodyNoteEnd (uadd now (at_ winDur (melodyIndex s))) s
    else s.

Definition goToSleep (s : State) : State :=
  let s := set_lcdOn false s in
  set_currentScreen 4 s.

Definition wakeFromSleep (s : State) : State :=
  let s := set_lcdOn true s in
  let s := set_currentScreen 0 s in
  let s := lcdPrintIfChanged "Play PotMatch :)" "Press to select" s in
  set_lastActivity (millis s) s.

Definition idleCheck (s : State) : State :=
  if (IDLE_TIMEOUT_MS <=? usub (millis s) (lastActivity s)) && negb (currentScreen s =? 4)
  then goToSleep s
  else s.

(** [handleButton], first half (the debounce and the press and release
    edges, up to the comment "handle click window expiration").  [r] is the
    value of [digitalRead(PIN_BTN)], [now] the value of [millis()] read on
    entry.  The flag tells whether the function returned from inside the
    wake-up branch. *)
Definition handleButton_edges (now r rnd : Z) (s : State) : State * bool :=
  let s :=
    if negb (r =? btnLast s) then
      let s := set_btnChangedAt now s in
      set_btnLast r s
    else s in
  if 20 <? usub now (btnChangedAt s) then
    if negb (r =? btnState s) then
      let s := set_btnState r s in
      if btnState s =? LOW then
        let s := set_btnDownAt now s in
        if currentScreen s =? 4 then (wakeFromSleep s, true)
        else if (currentScreen s =? 0) || (currentScreen s =? 1) then
          let s := set_clickCount (clickCount s + 1) s in
          let s := set_lastClickTime now s in
          (lcdPrintIfChanged "Selecting..." ("Clicks:" +++ String_of (clickCount s)) s, false)
        else (s, false)
      else
        let pressDur := usub now (btnDownAt s) in
        if LONG_PRESS_MS <=? pressDur then
          if currentScreen s =? 1 then
            if selectedLevel s <=? unlockedLevel s
            then (startLevel (selectedLevel s) rnd s, false)
            else (lcdPrintIfChanged "Level locked" "Long press denied" s, false)
          else if currentScreen s =? 0 then
            if 6000 <=? usub now (lastActivity s) then (stopToWelcome s, false)
            else (s, false)
          else (s, false)
        else (s, false)
    else (s, false)
  else (s, false).

(** [handleButton], second half: the click window expiration. *)
Definition handleButton_window (now : Z) (s : State) : State :=
  if ((currentScreen s =? 0) || (currentScreen s =? 1))
     && (0 <? clickCount s) && (CLICK_WINDOW_MS <? usub now (lastClickTime s)) then
    let choice := clickCount s in
    let choice := if choice <? 1 then 1 else choice in
    let choice := if 5 <? choice then 5 else choice in
    let s := set_selectedLevel choice s in
    let s := set_currentScreen 1 s in
    let l1 :=
      if selectedLevel s <=? unlockedLevel s then "Long press to enter"
      else "Level locked" in
    let s := lcdPrintIfChanged ("Select Level: " +++ String_of (selectedLevel s)) l1 s in
    let s := set_clickCount 0 s in
    set_lastActivity now s
  else s.

Definition handleButton (r rnd : Z) (s : State) : State :=
  let now := millis s in
  let (s, returned) := handleButton_edges now r rnd s in
  if returned then s else handleButton_window now s.

(** [loop], the in-game timer block; [now] was read at the top of [loop]. *)
Definition loop_timer (now : Z) (s : State) : State :=
  if currentScreen s =? 2 then
    let elapsed := usub now (levelStartedAt s) in
    let tm := timerMs (lvl (selectedLevel s)) in
    if (0 <? tm) && (tm <=? elapsed) then
      let s := lcdPrintIfChanged "Time up!" "Returning..." s in
      let s := triggerLoseTone 0 s in
      let s := delay 700 s in
      stopToWelcome s
    else
      let remain := if 0 <? tm then usub tm elapsed / 1000 else 0 in
      let l0 := "L" +++ String_of (selectedLevel s) +++ " " in
      let l0 := if 0 <? tm then l0 +++ String_of remain +++ "s " else l0 +++ "    " in
      let l0 := l0 +++ "Tr:" +++ String_of (Z.min (triesLeft s) 99) in
      lcdPrintIfChanged l0 (lcdLine1 s) s
  else s.

(** [loop], the win animation block. *)
Definition loop_winCheck (s : State) : State :=
  if winAnimActive s && (winAnimEnd s <=? millis s) then
    let s := set_winAnimActive false s in
    let s := set_melodyPlaying false s in
    let s := noTone s in
    let s :=
      if (selectedLevel s =? unlockedLevel s) && (unlockedLevel s <? 5)
      then set_unlockedLevel (unlockedLevel s + 1) s
      else s in
    stopToWelcome s
  else s.

(** What one iteration of [loop] reads from the outside: the milliseconds
    elapsed since the previous iteration read the clock, the button pin, the
    potentiometer, and the number [random(20, 1003)] returns if it is
    called. *)
Record Input : Type := mkInput {
  in_dt : Z;
  in_btn : Z;
  in_pot : Z;
  in_rnd : Z
}.

(** Between two iterations of [loop] the clock advances by [dt] ms. *)
Definition atPoll (dt : Z) (s : State) : State := set_clock (uadd (clock s) dt) s.

Definition loop (i : Input) (s : State) : State :=
  let s := atPoll (in_dt i) s in
  let now := millis s in
  let s := handleButton (in_btn i) (in_rnd i) s in
  let s := updatePot (in_pot i) s in
  let s := checkToneNB s in
  let s := checkMelody s in
  let s := idleCheck s in
  let s := loop_timer now s in
  loop_winCheck s.

(** The globals as initialised, at power-on. *)
Definition boot : State :=
  mkState
    (mkGame 1 1 0 0 0 0 0)
    (mkPot 0 0 false 0)
    (mkBtn HIGH HIGH 0 0 0 0)
    (mkSnd 0 0 0 0 false 0 false 0 false)
    (mkHw 0 [false; false; false; false; false; false] 0 true "" "" []).

Definition setup (rnd : Z) (s : State) : State :=
  let s := pickNewTarget rnd s in
  let s := lcdPrintIfChanged "Play PotMatch :)" "Press to select" s in
  set_lastActivity (millis s) s.

(** The sketch run on a list of inputs, one per iteration of [loop]. *)
Definition run (inputs : list Input) (s : State) : State :=
  fold_left (fun s i => loop i s) inputs s.

(** A batch of accepted stable readings, in order. *)
Definition acceptAll (vs : list Z) (s : State) : State :=
  fold_left (fun s v => acceptStablePot v s) vs s.

(** ** Vocabulary of the statements

    Names for the tests the sketch makes, and input sequences for the
    examples. *)

(** The band [acceptStablePot] computes for a reading. *)
Definition bandOf (value : Z) (s : State) : Z :=
  diffToState (Z.abs (value - roundTarget s)) (winWindow (lvl (selectedLevel s))).

(** The guard of the branch of [acceptStablePot] that prints "No tries left"
    and returns to the welcome screen. *)
Definition loseByTries (value : Z) (s : State) : bool :=
  (bandOf value s <? 5) && (0 <? triesAllowed (lvl (selectedLevel s)))
  && (triesLeft s - 1 <=? 0).

(** Button events, as [handleButton] recognises them on a reading [r] of the
    pin: the reading has been the same for more than 20 ms and differs from
    the debounced state; it is a press when it is [LOW], a release
    otherwise. *)
Definition edgeConfirmed (r : Z) (s : State) : Prop :=
  btnLast s = r /\ 20 < usub (millis s) (btnChangedAt s) /\ r <> btnState s.

Definition pressConfirmed (r : Z) (s : State) : Prop :=
  edgeConfirmed r s /\ r = LOW.

Definition releaseConfirmed (r : Z) (s : State) : Prop :=
  edgeConfirmed r s /\ r <> LOW.

(** The hold duration [handleButton] computes at a release. *)
Definition pressDur (s : State) : Z := usub (millis s) (btnDownAt s).

(** The test of the click window expiration, on the state the button edges
    left. *)
Definition windowExpired (now : Z) (s : State) : bool :=
  ((currentScreen s =? 0) || (currentScreen s =? 1))
  && (0 <? clickCount s) && (CLICK_WINDOW_MS <? usub now (lastClickTime s)).

(** The click count [n] has been resolved in [s']: level [n] clamped to
    [1..5] is selected on the level-select screen, the count is cleared, the
    activity time is [now], and the expiry test is off until a new press is
    counted. *)
Definition resolvedTo (n now : Z) (s' : State) : Prop :=
  selectedLevel s' = Z.min 5 (Z.max 1 n) /\
  currentScreen s' = 1 /\
  clickCount s' = 0 /\
  lastActivity s' = now /\
  (forall t, handleButton_window t s' = s').

(** The two lines of the locked message. *)
Definition lockedFrame : string * string := ("Level locked", "Long press denied").

(** The screens a stage can leave behind: the one it found, or one of
    welcome, level-select, in-game, sleep. *)
Definition screenStep (before after : Z) : Prop :=
  after = before \/ after = 0 \/ after = 1 \/ after = 2 \/ after = 4.

(** Input sequences.  Every poll carries the position [pot_] of the
    potentiometer and the number [rnd] the random generator would return. *)

(** One click of the button, as four polls: the pin goes low, the press is
    confirmed 21 ms later, the pin goes high after 30 ms, the release is
    confirmed 21 ms later. *)
Definition click (pot_ rnd : Z) : list Input :=
  [mkInput 10 LOW pot_ rnd; mkInput 21 LOW pot_ rnd;
   mkInput 30 HIGH pot_ rnd; mkInput 21 HIGH pot_ rnd].

Fixpoint clicks (n : nat) (pot_ rnd : Z) : list Input :=
  match n with
  | O => []
  | S k => (click pot_ rnd ++ clicks k pot_ rnd)%list
  end.

(** [n] clicks, then 700 ms of silence: level [n] is selected. *)
Definition choose (n : nat) (pot_ rnd : Z) : list Input :=
  (clicks n pot_ rnd ++ [mkInput 700 HIGH pot_ rnd])%list.

(** A press held for [350 + 360 + 100 + 21] ms: the press is confirmed, the
    pin is polled low twice, then goes high; the release is confirmed by the
    next poll, 21 ms later (not part of the list). *)
Definition hold (pot_ rnd : Z) : list Input :=
  [mkInput 10 LOW pot_ rnd; mkInput 21 LOW pot_ rnd;
   mkInput 350 LOW pot_ rnd; mkInput 360 LOW pot_ rnd; mkInput 100 HIGH pot_ rnd].

(** A release confirmed 800 ms after the press with no poll between 700 and
    800 ms: the polls after the press come every 100 ms up to 600 ms, the pin
    is seen high at 679 ms, and the next poll, 121 ms later (not part of the
    list), confirms the release. *)
Definition sparseHold (pot_ rnd : Z) : list Input :=
  [mkInput 10 LOW pot_ rnd; mkInput 21 LOW pot_ rnd;
   mkInput 100 LOW pot_ rnd; mkInput 100 LOW pot_ rnd; mkInput 100 LOW pot_ rnd;
   mkInput 100 LOW pot_ rnd; mkInput 100 LOW pot_ rnd; mkInput 100 LOW pot_ rnd;
   mkInput 79 HIGH pot_ rnd].

(** A round on level 1 won on entry: the button is held from the welcome
    screen, which selects level 1 after 700 ms and starts it at the release;
    the target drawn is the position of the potentiometer. *)
Definition winOnEntry : list Input :=
  (hold 512 512 ++ [mkInput 21 HIGH 512 512])%list.

(** Level 1 entered from the welcome screen with a target away from the
    potentiometer.  Level 1 has no timer, so the round lasts until the
    device falls asleep. *)
Definition enterLevel1 : list Input :=
  (hold 512 300 ++ [mkInput 21 HIGH 512 300])%list.

(** Level 1 is won on entry and level 2 unlocked; level 2 (timer 20 s) is
    entered with the target at 300 and the potentiometer at 512, the
    potentiometer is moved to 300 after 18 s, and the reading is accepted one
    second later, 19 s into the round: the last poll of the list wins the
    round. *)
Definition winLevel2Late : list Input :=
  (winOnEntry ++ [mkInput 5000 HIGH 512 300] ++ click 512 300 ++ hold 512 300
   ++ [mkInput 21 HIGH 512 300; mkInput 18000 HIGH 300 300; mkInput 1000 HIGH 300 300])%list.

(** ** Dense polling *)

(** [n] consecutive polls, [dt] ms apart, with the same readings. *)
Definition pollsEvery (n : nat) (dt btn_ pot_ rnd : Z) : list Input :=
  repeat (mkInput dt btn_ pot_ rnd) n.

(** The polls of a run come less than 100 ms apart: the margin between the
    click window and the long-press threshold. *)
Definition densePolls (inputs : list Input) : bool :=
  forallb (fun i => (0 <=? in_dt i) && (in_dt i <? LONG_PRESS_MS - CLICK_WINDOW_MS)) inputs.

(** [millis()] does not wrap during the run from [s]: every iteration
    starts at least 1400 ms, the two blocking pauses of an iteration, before
    the clock reaches 2^32. *)
Fixpoint beforeWrap (inputs : list Input) (s : State) : bool :=
  match inputs with
  | [] => true
  | i :: rest => (clock s + in_dt i + 1400 <? ULONG) && beforeWrap rest (loop i s)
  end.

(** The times the button code records are in order: the last counted press
    is not later than the last press, which is not later than the clock. *)
Definition clicksOrdered (s : State) : Prop :=
  0 <= lastClickTime s <= btnDownAt s /\ btnDownAt s <= clock s /\ 0 <= clickCount s.

(** On the level-select screen a pending click is at most 700 ms old. *)
Definition clicksFresh (s : State) : Prop :=
  currentScreen s = 1 ->
  clickCount s = 0 \/ clock s - lastClickTime s <= CLICK_WINDOW_MS.

(** The button held for 900 ms and released, and one click of 50 ms, polled
    every 10 ms. *)
Definition holdDense (pot_ rnd : Z) : list Input :=
  (pollsEvery 90 10 LOW pot_ rnd ++ pollsEvery 4 10 HIGH pot_ rnd)%list.

Definition clickDense (pot_ rnd : Z) : list Input :=
  (pollsEvery 5 10 LOW pot_ rnd ++ pollsEvery 5 10 HIGH pot_ rnd)%list.

(** A run polled every 10 ms.  Level 1 is won on entry and level 2 unlocked
    when its win window ends; level 2 (the frontier, timer 20 s) is selected
    with a click and a held press and entered, with the target at 300 and
    the potentiometer at 512; after 18 s the potentiometer is moved to 300,
    and the reading is accepted 500 ms later: the round on level 2 is won
    before the end of the list. *)
Definition winLevel2Dense : list Input :=
  (holdDense 512 512 ++ pollsEvery 500 10 HIGH 512 300
   ++ clickDense 512 300 ++ holdDense 512 300
   ++ pollsEvery 1800 10 HIGH 512 300 ++ pollsEvery 100 10 HIGH 300 300)%list.

(** What follows inside the win window of that round, polled every 10 ms:
    the player waits a second, clicks once, and waits until 10 ms before the
    end of the window. *)
Definition clickInWinWindow : list Input :=
  (pollsEvery 100 10 HIGH 300 300 ++ pollsEvery 5 10 LOW 300 300
   ++ pollsEvery 275 10 HIGH 300 300)%list.

(** What a stage of [loop] after [handleButton] can do to the button
    variables, the clock and the level-select screen: it keeps the button
    variables, it blocks for 700 ms or not at all, and it neither enters the
    level-select screen nor blocks on it. *)
Definition afterButton (s s' : State) : Prop :=
  btn s' = btn s /\
  (clock s' = clock s \/ clock s' = uadd (clock s) 700) /\
  (currentScreen s' = 1 -> currentScreen s = 1 /\ clock s' = clock s).

(** ** Vocabulary of the further properties *)

(** No two consecutive redraws of the LCD carry the same two lines. *)
Fixpoint noRepeat (frames : list (string * string)) : Prop :=
  match frames with
  | a :: ((b :: _) as rest) => a <> b /\ noRepeat rest
  | _ => True
  end.

(** The cached lines [l0], [l1] are the latest redraw of the history
    [frames] (or both empty when nothing was ever drawn), and the history has
    no repeated redraw. *)
Definition lcdOkP (l0 l1 : string) (frames : list (string * string)) : Prop :=
  match frames with
  | [] => l0 = "" /\ l1 = ""
  | f :: _ => f = (l0, l1)
  end /\ noRepeat frames.

Definition lcdOk (s : State) : Prop := lcdOkP (lcdLine0 s) (lcdLine1 s) (lcdFrames s).





(** The number of LEDs that are on. *)
Definition litCount (l : list bool) : nat := List.length (filter (fun b => b) l).

(** The values the sketch keeps its variables within. *)
Definition gameSane (s : State) : Prop :=
  1 <= selectedLevel s <= 5 /\
  1 <= unlockedLevel s <= 5 /\
  (currentScreen s = 0 \/ currentScreen s = 1 \/ currentScreen s = 2 \/ currentScreen s = 4) /\
  0 <= triesLeft s /\
  (currentScreen s = 2 -> 1 <= triesLeft s).

Definition melodySane (s : State) : Prop :=
  0 <= melodyIndex s <= 4 /\ (melodyPlaying s = true -> melodyIndex s <= 3).

(** Level 1 is won on entry and level 2 unlocked; level 2 (timer 20 s) is
    then selected and entered, with the target at 300 and the potentiometer
    at 512. *)
Definition enterLevel2 : list Input :=
  (winOnEntry ++ [mkInput 5000 HIGH 512 300] ++ click 512 300 ++ hold 512 300
   ++ [mkInput 21 HIGH 512 300])%list.

(** ** What the helpers leave untouched

    The LCD, LED and tone helpers only write the hardware block (and, for the
    tone, the two tone variables).  The lemmas are collected in the rewrite
    base [frame]. *)

Ltac split_if :=
  match goal with
  | |- context [if ?c then _ else _] => destruct c eqn:?
  | |- context [match ?c with _ => _ end] => destruct c eqn:?
  end.

Lemma lcdPrintIfChanged_frame l0 l1 s :
  let s' := lcdPrintIfChanged l0 l1 s in
  game s' = game s /\ pot s' = pot s /\ btn s' = btn s /\ snd_ s' = snd_ s /\
  clock s' = clock s /\ leds s' = leds s /\ buzzer s' = buzzer s /\ lcdOn s' = lcdOn s.
Proof. unfold lcdPrintIfChanged; simpl; split_if; simpl; repeat split. Qed.

Lemma lcdPrintIfChanged_game l0 l1 s : game (lcdPrintIfChanged l0 l1 s) = game s.
Proof. apply (lcdPrintIfChanged_frame l0 l1 s). Qed.
Lemma lcdPrintIfChanged_pot l0 l1 s : pot (lcdPrintIfChanged l0 l1 s) = pot s.
Proof. apply (lcdPrintIfChanged_frame l0 l1 s). Qed.
Lemma lcdPrintIfChanged_btn l0 l1 s : btn (lcdPrintIfChanged l0 l1 s) = btn s.
Proof. apply (lcdPrintIfChanged_frame l0 l1 s). Qed.
Lemma lcdPrintIfChanged_snd l0 l1 s : snd_ (lcdPrintIfChanged l0 l1 s) = snd_ s.
Proof. apply (lcdPrintIfChanged_frame l0 l1 s). Qed.
Lemma lcdPrintIfChanged_clock l0 l1 s : clock (lcdPrintIfChanged l0 l1 s) = clock s.
Proof. apply (lcdPrintIfChanged_frame l0 l1 s). Qed.
Lemma lcdPrintIfChanged_lcdOn l0 l1 s : lcdOn (lcdPrintIfChanged l0 l1 s) = lcdOn s.
Proof. apply (lcdPrintIfChanged_frame l0 l1 s). Qed.

(** After the call the cache holds the two lines, whether or not the LCD was
    redrawn. *)
Lemma lcdPrintIfChanged_lines l0 l1 s :
  lcdLine0 (lcdPrintIfChanged l0 l1 s) = l0 /\ lcdLine1 (lcdPrintIfChanged l0 l1 s) = l1.
Proof.
  unfold lcdPrintIfChanged.
  destruct (String.eqb_spec l0 (lcdLine0 s)), (String.eqb_spec l1 (lcdLine1 s));
    simpl; auto.
Qed.

(** A call either redraws the LCD with the two lines or finds them on it. *)
Lemma lcdPrintIfChanged_frames l0 l1 s :
  lcdFrames (lcdPrintIfChanged l0 l1 s) = (l0, l1) :: lcdFrames s \/
  (lcdFrames (lcdPrintIfChanged l0 l1 s) = lcdFrames s /\
   lcdLine0 s = l0 /\ lcdLine1 s = l1).
Proof.
  unfold lcdPrintIfChanged.
  destruct (String.eqb_spec l0 (lcdLine0 s)), (String.eqb_spec l1 (lcdLine1 s));
    simpl; auto.
Qed.

Lemma allLeds_frame v s :
  let s' := allLeds v s in
  game s' = game s /\ pot s' = pot s /\ btn s' = btn s /\ snd_ s' = snd_ s /\
  clock s' = clock s /\ buzzer s' = buzzer s /\ lcdOn s' = lcdOn s /\
  lcdLine0 s' = lcdLine0 s /\ lcdLine1 s' = lcdLine1 s /\ lcdFrames s' = lcdFrames s.
Proof. unfold allLeds; simpl; repeat split. Qed.

Lemma allLeds_game v s : game (allLeds v s) = game s.
Proof. apply (allLeds_frame v s). Qed.
Lemma allLeds_pot v s : pot (allLeds v s) = pot s.
Proof. apply (allLeds_frame v s). Qed.
Lemma allLeds_btn v s : btn (allLeds v s) = btn s.
Proof. apply (allLeds_frame v s). Qed.
Lemma allLeds_snd v s : snd_ (allLeds v s) = snd_ s.
Proof. apply (allLeds_frame v s). Qed.
Lemma allLeds_clock v s : clock (allLeds v s) = clock s.
Proof. apply (allLeds_frame v s). Qed.
Lemma allLeds_lcdOn v s : lcdOn (allLeds v s) = lcdOn s.
Proof. apply (allLeds_frame v s). Qed.
Lemma allLeds_lcdLine0 v s : lcdLine0 (allLeds v s) = lcdLine0 s.
Proof. apply (allLeds_frame v s). Qed.
Lemma allLeds_lcdLine1 v s : lcdLine1 (allLeds v s) = lcdLine1 s.
Proof. apply (allLeds_frame v s). Qed.
Lemma allLeds_lcdFrames v s : lcdFrames (allLeds v s) = lcdFrames s.
Proof. apply (allLeds_frame v s). Qed.

Lemma setLEDsForState_frame st s :
  let s' := setLEDsForState st s in
  game s' = game s /\ pot s' = pot s /\ btn s' = btn s /\ snd_ s' = snd_ s /\
  clock s' = clock s /\ buzzer s' = buzzer s /\ lcdOn s' = lcdOn s /\
  lcdLine0 s' = lcdLine0 s /\ lcdLine1 s' = lcdLine1 s /\ lcdFrames s' = lcdFrames s.
Proof.
  unfold setLEDsForState; simpl.
  repeat split_if; simpl; repeat split.
Qed.

Lemma setLEDsForState_game st s : game (setLEDsForState st s) = game s.
Proof. apply (setLEDsForState_frame st s). Qed.
Lemma setLEDsForState_pot st s : pot (setLEDsForState st s) = pot s.
Proof. apply (setLEDsForState_frame st s). Qed.
Lemma setLEDsForState_btn st s : btn (setLEDsForState st s) = btn s.
Proof. apply (setLEDsForState_frame st s). Qed.
Lemma setLEDsForState_snd st s : snd_ (setLEDsForState st s) = snd_ s.
Proof. apply (setLEDsForState_frame st s). Qed.
Lemma setLEDsForState_clock st s : clock (setLEDsForState st s) = clock s.
Proof. apply (setLEDsForState_frame st s). Qed.
Lemma setLEDsForState_lcdOn st s : lcdOn (setLEDsForState st s) = lcdOn s.
Proof. apply (setLEDsForState_frame st s). Qed.

Lemma startToneNB_frame f d s :
  let s' := startToneNB f d s in
  game s' = game s /\ pot s' = pot s /\ btn s' = btn s /\
  clock s' = clock s /\ lcdOn s' = lcdOn s /\
  lcdLine0 s' = lcdLine0 s /\ lcdLine1 s' = lcdLine1 s /\ lcdFrames s' = lcdFrames s /\
  melodyIndex s' = melodyIndex s /\ melodyNoteEnd s' = melodyNoteEnd s /\
  melodyPlaying s' = melodyPlaying s /\ winAnimEnd s' = winAnimEnd s /\
  winAnimActive s' = winAnimActive s.
Proof. unfold startToneNB; simpl; split_if; simpl; repeat split. Qed.

Lemma startToneNB_game f d s : game (startToneNB f d s) = game s.
Proof. apply (startToneNB_frame f d s). Qed.
Lemma startToneNB_pot f d s : pot (startToneNB f d s) = pot s.
Proof. apply (startToneNB_frame f d s). Qed.
Lemma startToneNB_btn f d s : btn (startToneNB f d s) = btn s.
Proof. apply (startToneNB_frame f d s). Qed.
Lemma startToneNB_clock f d s : clock (startToneNB f d s) = clock s.
Proof. apply (startToneNB_frame f d s). Qed.
Lemma startToneNB_lcdOn f d s : lcdOn (startToneNB f d s) = lcdOn s.
Proof. apply (startToneNB_frame f d s). Qed.
Lemma startToneNB_lcdLine0 f d s : lcdLine0 (startToneNB f d s) = lcdLine0 s.
Proof. apply (startToneNB_frame f d s). Qed.
Lemma startToneNB_lcdLine1 f d s : lcdLine1 (startToneNB f d s) = lcdLine1 s.
Proof. apply (startToneNB_frame f d s). Qed.
Lemma startToneNB_lcdFrames f d s : lcdFrames (startToneNB f d s) = lcdFrames s.
Proof. apply (startToneNB_frame f d s). Qed.
Lemma startToneNB_winAnimActive f d s : winAnimActive (startToneNB f d s) = winAnimActive s.
Proof. apply (startToneNB_frame f d s). Qed.
Lemma startToneNB_winAnimEnd f d s : winAnimEnd (startToneNB f d s) = winAnimEnd s.
Proof. apply (startToneNB_frame f d s). Qed.
Lemma startToneNB_melodyPlaying f d s : melodyPlaying (startToneNB f d s) = melodyPlaying s.
Proof. apply (startToneNB_frame f d s). Qed.

Lemma triggerLoseTone_is_startToneNB st s :
  exists f d, triggerLoseTone st s = startToneNB f d s.
Proof. unfold triggerLoseTone; repeat split_if; eauto. Qed.

Lemma triggerLoseTone_game st s : game (triggerLoseTone st s) = game s.
Proof. destruct (triggerLoseTone_is_startToneNB st s) as (f & d & ->). apply startToneNB_game. Qed.
Lemma triggerLoseTone_pot st s : pot (triggerLoseTone st s) = pot s.
Proof. destruct (triggerLoseTone_is_startToneNB st s) as (f & d & ->). apply startToneNB_pot. Qed.
Lemma triggerLoseTone_btn st s : btn (triggerLoseTone st s) = btn s.
Proof. destruct (triggerLoseTone_is_startToneNB st s) as (f & d & ->). apply startToneNB_btn. Qed.
Lemma triggerLoseTone_clock st s : clock (triggerLoseTone st s) = clock s.
Proof. destruct (triggerLoseTone_is_startToneNB st s) as (f & d & ->). apply startToneNB_clock. Qed.
Lemma triggerLoseTone_lcdOn st s : lcdOn (triggerLoseTone st s) = lcdOn s.
Proof. destruct (triggerLoseTone_is_startToneNB st s) as (f & d & ->). apply startToneNB_lcdOn. Qed.
Lemma triggerLoseTone_winAnimActive st s :
  winAnimActive (triggerLoseTone st s) = winAnimActive s.
Proof.
  destruct (triggerLoseTone_is_startToneNB st s) as (f & d & ->).
  apply startToneNB_winAnimActive.
Qed.
Lemma triggerLoseTone_winAnimEnd st s : winAnimEnd (triggerLoseTone st s) = winAnimEnd s.
Proof.
  destruct (triggerLoseTone_is_startToneNB st s) as (f & d & ->).
  apply startToneNB_winAnimEnd.
Qed.

Create Rewrite HintDb frame.

#[global] Hint Rewrite
  lcdPrintIfChanged_game lcdPrintIfChanged_pot lcdPrintIfChanged_btn lcdPrintIfChanged_snd
  lcdPrintIfChanged_clock lcdPrintIfChanged_lcdOn
  allLeds_game allLeds_pot allLeds_btn allLeds_snd allLeds_clock allLeds_lcdOn
  allLeds_lcdLine0 allLeds_lcdLine1 allLeds_lcdFrames
  setLEDsForState_game setLEDsForState_pot setLEDsForState_btn setLEDsForState_snd
  setLEDsForState_clock setLEDsForState_lcdOn
  startToneNB_game startToneNB_pot startToneNB_btn startToneNB_clock startToneNB_lcdOn
  startToneNB_lcdLine0 startToneNB_lcdLine1 startToneNB_lcdFrames
  startToneNB_winAnimActive startToneNB_winAnimEnd startToneNB_melodyPlaying
  triggerLoseTone_game triggerLoseTone_pot triggerLoseTone_btn triggerLoseTone_clock
  triggerLoseTone_lcdOn triggerLoseTone_winAnimActive triggerLoseTone_winAnimEnd
  : frame.

Arguments lcdPrintIfChanged : simpl never.
Arguments allLeds : simpl never.
Arguments setLEDsForState : simpl never.
Arguments startToneNB : simpl never.
Arguments triggerLoseTone : simpl never.

(** Normalise the state reads of the goal: reads of assigned fields are
    computed, reads through the helpers are rewritten with [frame]. *)
Ltac state_cbn :=
  cbn [game pot btn snd_ hw
       selectedLevel unlockedLevel currentScreen lastActivity roundTarget levelStartedAt
       triesLeft lastPotRaw potChangedAt potStable stableValue
       btnState btnLast btnChangedAt btnDownAt clickCount lastClickTime
       toneEndAt toneOnFreq melodyIndex melodyNoteEnd melodyPlaying winAnimEnd
       winAnimActive lastBlink blinkState
       clock leds buzzer lcdOn lcdLine0 lcdLine1 lcdFrames
       upd_game upd_pot upd_btn upd_snd upd_hw
       set_selectedLevel set_unlockedLevel set_currentScreen set_lastActivity
       set_roundTarget set_levelStartedAt set_triesLeft
       set_lastPotRaw set_potChangedAt set_potStable set_stableValue
       set_btnState set_btnLast set_btnChangedAt set_btnDownAt set_clickCount
       set_lastClickTime
       set_toneEndAt set_toneOnFreq set_melodyIndex set_melodyNoteEnd set_melodyPlaying
       set_winAnimEnd set_winAnimActive set_lastBlink set_blinkState
       set_clock set_leds set_buzzer set_lcdOn set_lcdLine0 set_lcdLine1 set_lcdFrames
       tone noTone fst snd].

Ltac state_simpl := repeat (progress (state_cbn; autorewrite with frame)).

(** ** Closeness bands *)

(** C4.  The band of a difference is fixed by the first of the thresholds
    [w], [2w], [4w], [8w], [15w] that it does not exceed: band 5 up to [w],
    band 4 in [(w, 2w]], band 3 in [(2w, 4w]], band 2 in [(4w, 8w]], band 1
    in [(8w, 15w]] and band 0 above.  A difference of exactly [w] is band 5,
    and [w + 1] is band 4 as soon as [w + 1 <= 2w].  For the five levels the
    window is positive, so the thresholds increase strictly. *)
Theorem diffToState_bands (diff w : Z) :
  0 <= diff ->
  (diffToState diff w = 5 <-> diff <= w) /\
  (diffToState diff w = 4 <-> w < diff <= w * 2) /\
  (diffToState diff w = 3 <-> w * 2 < diff <= w * 4) /\
  (diffToState diff w = 2 <-> w * 4 < diff <= w * 8) /\
  (diffToState diff w = 1 <-> w * 8 < diff <= w * 15) /\
  (diffToState diff w = 0 <-> w * 15 < diff) /\
  diffToState w w = 5 /\
  (w + 1 <= w * 2 -> diffToState (w + 1) w = 4) /\
  (forall L, 1 <= L <= 5 ->
     let wl := winWindow (lvl L) in
     0 < wl /\ wl < wl * 2 < wl * 4 /\ wl * 4 < wl * 8 < wl * 15).
Proof.
  intros Hd. unfold diffToState.
  repeat match goal with
         | |- context [?a <=? ?b] => destruct (Z.leb_spec a b)
         end;
    repeat split; intros; try lia;
    match goal with
    | H : 1 <= ?L <= 5 |- _ =>
        assert (L = 1 \/ L = 2 \/ L = 3 \/ L = 4 \/ L = 5) as Hl by lia;
        destruct Hl as [-> | [-> | [-> | [-> | ->]]]]; simpl; lia
    end.
Qed.

Lemma diffToState_bands_witness :
  0 <= 17 /\ diffToState 16 16 = 5 /\ diffToState 17 16 = 4.
Proof.
  assert (0 <= 17) as H by lia.
  destruct (diffToState_bands 17 16 H) as (_ & _ & _ & _ & _ & _ & H5 & Hb & _).
  split; [exact H | split; [exact H5 | apply Hb; lia]].
Defined.

(** ** Accepting a stable reading *)

(** The game block after [acceptStablePot], case by case. *)
Lemma acceptStablePot_game value s :
  game (acceptStablePot value s) =
    if bandOf value s <? 5 then
      if 0 <? triesAllowed (lvl (selectedLevel s)) then
        if triesLeft s - 1 <=? 0 then
          mkGame (selectedLevel s) (unlockedLevel s) 0 (uadd (clock s) 700)
                 (roundTarget s) (levelStartedAt s) (triesLeft s - 1)
        else
          mkGame (selectedLevel s) (unlockedLevel s) (currentScreen s) (lastActivity s)
                 (roundTarget s) (levelStartedAt s) (triesLeft s - 1)
      else game s
    else
      mkGame (selectedLevel s) (unlockedLevel s) (currentScreen s) (clock s)
             (roundTarget s) (levelStartedAt s) (triesLeft s).
Proof.
  unfold acceptStablePot, bandOf, stopToWelcome, delay, millis.
  state_simpl.
  repeat split_if; state_simpl; try reflexivity.
Qed.

Lemma diffToState_range diff w : 0 <= diffToState diff w <= 5.
Proof. unfold diffToState; repeat split_if; lia. Qed.

Lemma startLevel_game L rnd s :
  game (startLevel L rnd s) =
    mkGame (constrain L 1 5) (unlockedLevel s) 2 (clock s) rnd (clock s)
           (if 0 <? triesAllowed (lvl (constrain L 1 5))
            then triesAllowed (lvl (constrain L 1 5)) else 9999).
Proof.
  unfold startLevel, pickNewTarget, millis. state_simpl.
  split_if; state_simpl; reflexivity.
Qed.

Lemma startLevel_pot L rnd s :
  pot (startLevel L rnd s) = mkPot (lastPotRaw s) (potChangedAt s) false (stableValue s).
Proof.
  unfold startLevel, pickNewTarget, millis. state_simpl.
  split_if; state_simpl; reflexivity.
Qed.

Lemma startLevel_btn L rnd s : btn (startLevel L rnd s) = btn s.
Proof.
  unfold startLevel, pickNewTarget, millis. state_simpl.
  split_if; state_simpl; reflexivity.
Qed.

Lemma startLevel_clock L rnd s : clock (startLevel L rnd s) = clock s.
Proof.
  unfold startLevel, pickNewTarget, millis. state_simpl.
  split_if; state_simpl; reflexivity.
Qed.

(** A miss on a level with a tries budget costs one try, and ends the round
    exactly when that was the last one. *)
Lemma acceptStablePot_miss (value : Z) (s : State) :
  bandOf value s <> 5 ->
  0 < triesAllowed (lvl (selectedLevel s)) ->
  let s' := acceptStablePot value s in
  selectedLevel s' = selectedLevel s /\ roundTarget s' = roundTarget s /\
  triesLeft s' = triesLeft s - 1 /\
  currentScreen s' = (if triesLeft s - 1 <=? 0 then 0 else currentScreen s).
Proof.
  intros Hb Ht s'. subst s'. rewrite acceptStablePot_game.
  pose proof (diffToState_range (Z.abs (value - roundTarget s))
                (winWindow (lvl (selectedLevel s)))) as Hr.
  fold (bandOf value s) in Hr.
  destruct (Z.ltb_spec (bandOf value s) 5); [ | lia].
  destruct (Z.ltb_spec 0 (triesAllowed (lvl (selectedLevel s)))); [ | lia].
  destruct (Z.leb_spec (triesLeft s - 1) 0); simpl; auto.
Qed.

(** With no tries budget a reading of any band leaves the try counter and
    the screen as they are. *)
Lemma acceptStablePot_unlimited (value : Z) (s : State) :
  triesAllowed (lvl (selectedLevel s)) = 0 ->
  let s' := acceptStablePot value s in
  selectedLevel s' = selectedLevel s /\ triesLeft s' = triesLeft s /\
  currentScreen s' = currentScreen s /\ loseByTries value s = false.
Proof.
  intros Ht s'. subst s'. rewrite acceptStablePot_game.
  unfold loseByTries. rewrite Ht. simpl.
  rewrite andb_false_r. simpl.
  destruct (bandOf value s <? 5); simpl; auto.
Qed.

(** C10.  Levels 1 to 3 are the levels without a tries budget.  A round on
    such a level starts with the counter at 9999; no accepted reading, of any
    band, changes the counter or takes the branch that ends the round for
    lack of tries, so after any number of accepted readings the counter is
    still 9999 and the screen still the game screen. *)
Theorem unlimited_levels_never_lose_by_tries (L rnd : Z) (s : State) (vs : list Z) :
  triesAllowed (lvl (constrain L 1 5)) = 0 ->
  let s1 := startLevel L rnd s in
  (1 <= selectedLevel s1 <= 3) /\
  triesLeft s1 = 9999 /\
  triesLeft (acceptAll vs s1) = 9999 /\
  currentScreen (acceptAll vs s1) = 2 /\
  (forall pre v post, vs = (pre ++ v :: post)%list ->
     loseByTries v (acceptAll pre s1) = false /\
     triesLeft (acceptStablePot v (acceptAll pre s1)) = triesLeft (acceptAll pre s1)).
Proof.
  intros H0 s1.
  assert (Hinv : forall ws (t : State),
             triesAllowed (lvl (selectedLevel t)) = 0 ->
             selectedLevel (acceptAll ws t) = selectedLevel t /\
             triesLeft (acceptAll ws t) = triesLeft t /\
             currentScreen (acceptAll ws t) = currentScreen t).
  { induction ws as [ | w ws IH]; intros t Ht; simpl; auto.
    destruct (acceptStablePot_unlimited w t Ht) as (Hs & Hl & Hc & _).
    destruct (IH (acceptStablePot w t)) as (Hs' & Hl' & Hc'); [rewrite Hs; exact Ht | ].
    unfold acceptAll in *. rewrite Hs', Hl', Hc'. auto. }
  assert (Hg : game s1 = mkGame (constrain L 1 5) (unlockedLevel s) 2 (clock s) rnd
                          (clock s) 9999).
  { subst s1. rewrite startLevel_game, H0. reflexivity. }
  assert (Hsel : triesAllowed (lvl (selectedLevel s1)) = 0) by (rewrite Hg; exact H0).
  split.
  { rewrite Hg; simpl. revert H0. unfold constrain.
    destruct (Z.ltb_spec L 1); [simpl; lia | ].
    destruct (Z.gtb_spec L 5); [simpl; lia | ].
    assert (L = 1 \/ L = 2 \/ L = 3 \/ L = 4 \/ L = 5) as Hl by lia.
    destruct Hl as [-> | [-> | [-> | [-> | ->]]]]; simpl; lia. }
  destruct (Hinv vs s1 Hsel) as (_ & Hl & Hc).
  rewrite Hl, Hc, Hg. simpl. repeat split; auto.
  - destruct (Hinv pre s1 Hsel) as (Hs' & _ & _).
    apply acceptStablePot_unlimited. rewrite Hs'. exact Hsel.
  - destruct (Hinv pre s1 Hsel) as (Hs' & _ & _).
    apply acceptStablePot_unlimited. rewrite Hs'. exact Hsel.
Qed.

Lemma unlimited_levels_never_lose_by_tries_witness :
  triesAllowed (lvl (constrain 2 1 5)) = 0 /\
  triesLeft (acceptAll [0; 1023; 0; 1023; 0; 1023; 0] (startLevel 2 500 (setup 300 boot)))
  = 9999 /\
  currentScreen
    (acceptAll [0; 1023; 0; 1023; 0; 1023; 0] (startLevel 2 500 (setup 300 boot))) = 2.
Proof.
  assert (triesAllowed (lvl (constrain 2 1 5)) = 0) as H by reflexivity.
  destruct (unlimited_levels_never_lose_by_tries 2 500 (setup 300 boot)
              [0; 1023; 0; 1023; 0; 1023; 0] H) as (_ & _ & Hl & Hc & _).
  split; [exact H | split; [exact Hl | exact Hc]].
Defined.

(** C5.  A round on level 4 starts with five tries.  After each of the first
    four accepted readings that miss, the screen is still the game screen
    (with one try less each time); the fifth miss returns to the welcome
    screen. *)
Theorem level4_loses_on_fifth_miss (rnd : Z) (s : State) (vs : list Z) :
  List.length vs = 5%nat ->
  Forall (fun v => diffToState (Z.abs (v - rnd)) (winWindow (lvl 4)) <> 5) vs ->
  let s1 := startLevel 4 rnd s in
  triesAllowed (lvl (selectedLevel s1)) = 5 /\
  triesLeft s1 = 5 /\ currentScreen s1 = 2 /\
  (forall k, (1 <= k <= 4)%nat ->
     currentScreen (acceptAll (firstn k vs) s1) = 2 /\
     triesLeft (acceptAll (firstn k vs) s1) = 5 - Z.of_nat k) /\
  currentScreen (acceptAll vs s1) = 0 /\
  loseByTries (nth 4 vs 0) (acceptAll (firstn 4 vs) s1) = true.
Proof.
  intros Hlen Hall s1.
  assert (Hg : game s1 = mkGame 4 (unlockedLevel s) 2 (clock s) rnd (clock s) 5).
  { subst s1. rewrite startLevel_game. reflexivity. }
  clearbody s1.
  (* one miss, from a state of this round with [n] tries left *)
  assert (Hstep : forall (t : State) v n,
             selectedLevel t = 4 -> roundTarget t = rnd -> triesLeft t = n ->
             diffToState (Z.abs (v - rnd)) (winWindow (lvl 4)) <> 5 ->
             let t' := acceptStablePot v t in
             selectedLevel t' = 4 /\ roundTarget t' = rnd /\ triesLeft t' = n - 1 /\
             currentScreen t' = (if n - 1 <=? 0 then 0 else currentScreen t)).
  { intros t v n Hs Hr Hn Hv t'.
    destruct (acceptStablePot_miss v t) as (E1 & E2 & E3 & E4).
    - unfold bandOf. rewrite Hs, Hr. exact Hv.
    - rewrite Hs. simpl. lia.
    - subst t'. rewrite E1, E2, E3, E4, Hs, Hr, Hn. auto. }
  destruct vs as [ | v1 [ | v2 [ | v3 [ | v4 [ | v5 [ | ? ?]]]]]]; try discriminate Hlen.
  inversion Hall as [ | ? ? M1 Hall1]; subst.
  inversion Hall1 as [ | ? ? M2 Hall2]; subst.
  inversion Hall2 as [ | ? ? M3 Hall3]; subst.
  inversion Hall3 as [ | ? ? M4 Hall4]; subst.
  inversion Hall4 as [ | ? ? M5 _]; subst.
  assert (G1 := Hstep s1 v1 5 ltac:(rewrite Hg; reflexivity) ltac:(rewrite Hg; reflexivity)
                  ltac:(rewrite Hg; reflexivity) M1).
  cbv zeta in G1. destruct G1 as (A1 & B1 & C1 & D1).
  assert (G2 := Hstep _ v2 _ A1 B1 C1 M2).
  cbv zeta in G2. destruct G2 as (A2 & B2 & C2 & D2).
  assert (G3 := Hstep _ v3 _ A2 B2 C2 M3).
  cbv zeta in G3. destruct G3 as (A3 & B3 & C3 & D3).
  assert (G4 := Hstep _ v4 _ A3 B3 C3 M4).
  cbv zeta in G4. destruct G4 as (A4 & B4 & C4 & D4).
  assert (G5 := Hstep _ v5 _ A4 B4 C4 M5).
  cbv zeta in G5. destruct G5 as (A5 & B5 & C5 & D5).
  simpl in D1, D2, D3, D4, D5.
  rewrite Hg in D1; simpl in D1. rewrite D1 in D2. rewrite D2 in D3. rewrite D3 in D4.
  rewrite Hg. simpl.
  split; [reflexivity | split; [reflexivity | split; [reflexivity | ]]].
  split; [ | split].
  - intros k Hk.
    assert (k = 1 \/ k = 2 \/ k = 3 \/ k = 4)%nat as Hc by lia.
    destruct Hc as [-> | [-> | [-> | ->]]]; simpl; split; try assumption; lia.
  - exact D5.
  - unfold loseByTries, bandOf. rewrite A4, B4, C4. simpl.
    pose proof (diffToState_range (Z.abs (v5 - rnd)) 16) as Hr.
    simpl in M5.
    destruct (Z.ltb_spec (diffToState (Z.abs (v5 - rnd)) 16) 5); [reflexivity | lia].
Qed.

Lemma level4_loses_on_fifth_miss_witness :
  List.length [0; 1000; 0; 1000; 0] = 5%nat /\
  currentScreen (acceptAll [0; 1000; 0; 1000] (startLevel 4 500 (setup 300 boot))) = 2 /\
  currentScreen (acceptAll [0; 1000; 0; 1000; 0] (startLevel 4 500 (setup 300 boot))) = 0.
Proof.
  assert (List.length [0; 1000; 0; 1000; 0] = 5%nat) as Hl by reflexivity.
  assert (Forall (fun v => diffToState (Z.abs (v - 500)) (winWindow (lvl 4)) <> 5)
            [0; 1000; 0; 1000; 0]) as Hm
    by (repeat constructor; vm_compute; discriminate).
  destruct (level4_loses_on_fifth_miss 500 (setup 300 boot) [0; 1000; 0; 1000; 0] Hl Hm)
    as (_ & _ & _ & Hk & H5 & _).
  split; [exact Hl | split; [ | exact H5]].
  apply (Hk 4%nat). lia.
Defined.

(** ** Screen changes *)

Lemma stopToWelcome_game s :
  game (stopToWelcome s) =
    mkGame (selectedLevel s) (unlockedLevel s) 0 (clock s) (roundTarget s)
           (levelStartedAt s) (triesLeft s).
Proof. unfold stopToWelcome, millis. state_simpl. reflexivity. Qed.

Lemma stopToWelcome_frame s :
  let s' := stopToWelcome s in
  pot s' = pot s /\ btn s' = btn s /\ snd_ s' = snd_ s /\ clock s' = clock s /\
  lcdOn s' = lcdOn s.
Proof. unfold stopToWelcome, millis. state_simpl. repeat split. Qed.

Lemma stopToWelcome_pot s : pot (stopToWelcome s) = pot s.
Proof. apply (stopToWelcome_frame s). Qed.
Lemma stopToWelcome_btn s : btn (stopToWelcome s) = btn s.
Proof. apply (stopToWelcome_frame s). Qed.
Lemma stopToWelcome_snd s : snd_ (stopToWelcome s) = snd_ s.
Proof. apply (stopToWelcome_frame s). Qed.
Lemma stopToWelcome_clock s : clock (stopToWelcome s) = clock s.
Proof. apply (stopToWelcome_frame s). Qed.
Lemma stopToWelcome_lcdOn s : lcdOn (stopToWelcome s) = lcdOn s.
Proof. apply (stopToWelcome_frame s). Qed.

Lemma wakeFromSleep_game s :
  game (wakeFromSleep s) =
    mkGame (selectedLevel s) (unlockedLevel s) 0 (clock s) (roundTarget s)
           (levelStartedAt s) (triesLeft s).
Proof. unfold wakeFromSleep, millis. state_simpl. reflexivity. Qed.

Lemma wakeFromSleep_frame s :
  let s' := wakeFromSleep s in
  pot s' = pot s /\ btn s' = btn s /\ snd_ s' = snd_ s /\ clock s' = clock s /\
  lcdOn s' = true /\
  lcdLine0 s' = "Play PotMatch :)" /\ lcdLine1 s' = "Press to select".
Proof.
  unfold wakeFromSleep, millis. state_simpl.
  repeat split; apply lcdPrintIfChanged_lines.
Qed.

Lemma wakeFromSleep_pot s : pot (wakeFromSleep s) = pot s.
Proof. apply (wakeFromSleep_frame s). Qed.
Lemma wakeFromSleep_btn s : btn (wakeFromSleep s) = btn s.
Proof. apply (wakeFromSleep_frame s). Qed.
Lemma wakeFromSleep_snd s : snd_ (wakeFromSleep s) = snd_ s.
Proof. apply (wakeFromSleep_frame s). Qed.
Lemma wakeFromSleep_clock s : clock (wakeFromSleep s) = clock s.
Proof. apply (wakeFromSleep_frame s). Qed.
Lemma wakeFromSleep_lcdOn s : lcdOn (wakeFromSleep s) = true.
Proof. apply (wakeFromSleep_frame s). Qed.

Lemma startLevel_snd L rnd s : snd_ (startLevel L rnd s) = snd_ s.
Proof.
  unfold startLevel, pickNewTarget, millis. state_simpl.
  split_if; state_simpl; reflexivity.
Qed.

Lemma startLevel_lcdOn L rnd s : lcdOn (startLevel L rnd s) = lcdOn s.
Proof.
  unfold startLevel, pickNewTarget, millis. state_simpl.
  split_if; state_simpl; reflexivity.
Qed.

Lemma acceptStablePot_frame value s :
  pot (acceptStablePot value s) = pot s /\ btn (acceptStablePot value s) = btn s /\
  lcdOn (acceptStablePot value s) = lcdOn s.
Proof.
  unfold acceptStablePot, stopToWelcome, delay, millis. state_simpl.
  repeat split_if; state_simpl; repeat split.
Qed.

Lemma acceptStablePot_pot value s : pot (acceptStablePot value s) = pot s.
Proof. apply acceptStablePot_frame. Qed.
Lemma acceptStablePot_btn value s : btn (acceptStablePot value s) = btn s.
Proof. apply acceptStablePot_frame. Qed.
Lemma acceptStablePot_lcdOn value s : lcdOn (acceptStablePot value s) = lcdOn s.
Proof. apply acceptStablePot_frame. Qed.

#[global] Hint Rewrite
  stopToWelcome_game stopToWelcome_pot stopToWelcome_btn stopToWelcome_snd
  stopToWelcome_clock stopToWelcome_lcdOn
  wakeFromSleep_game wakeFromSleep_pot wakeFromSleep_btn wakeFromSleep_snd
  wakeFromSleep_clock wakeFromSleep_lcdOn
  startLevel_game startLevel_pot startLevel_btn startLevel_snd startLevel_clock
  startLevel_lcdOn
  acceptStablePot_game acceptStablePot_pot acceptStablePot_btn acceptStablePot_lcdOn
  : frame.

Arguments stopToWelcome : simpl never.
Arguments wakeFromSleep : simpl never.
Arguments startLevel : simpl never.
Arguments acceptStablePot : simpl never.

(** Settle the integer tests of the goal that the hypotheses decide. *)
Ltac ztest :=
  repeat match goal with
    | |- context [?a =? ?b] =>
        first [ rewrite (proj2 (Z.eqb_eq a b)) by lia
              | rewrite (proj2 (Z.eqb_neq a b)) by lia ]
    | |- context [?a <? ?b] =>
        first [ rewrite (proj2 (Z.ltb_lt a b)) by lia
              | rewrite (proj2 (Z.ltb_ge a b)) by lia ]
    | |- context [?a <=? ?b] =>
        first [ rewrite (proj2 (Z.leb_le a b)) by lia
              | rewrite (proj2 (Z.leb_gt a b)) by lia ]
    end;
  cbn [negb andb orb].

(** The first half of [handleButton] at a confirmed release. *)
Lemma handleButton_edges_release r rnd s :
  releaseConfirmed r s ->
  handleButton_edges (millis s) r rnd s =
    let s1 := set_btnState r s in
    if LONG_PRESS_MS <=? pressDur s then
      if currentScreen s =? 1 then
        if selectedLevel s <=? unlockedLevel s
        then (startLevel (selectedLevel s) rnd s1, false)
        else (lcdPrintIfChanged "Level locked" "Long press denied" s1, false)
      else if currentScreen s =? 0 then
        if 6000 <=? usub (millis s) (lastActivity s) then (stopToWelcome s1, false)
        else (s1, false)
      else (s1, false)
    else (s1, false).
Proof.
  unfold releaseConfirmed, edgeConfirmed, LOW. intros ((Hl & Hd & Hs) & Hr).
  unfold handleButton_edges, pressDur, millis, LOW in *. cbv zeta.
  ztest. state_simpl. ztest. state_simpl. ztest. reflexivity.
Qed.

(** The first half of [handleButton] at a confirmed press. *)
Lemma handleButton_edges_press r rnd s :
  pressConfirmed r s ->
  handleButton_edges (millis s) r rnd s =
    let s1 := set_btnDownAt (millis s) (set_btnState r s) in
    if currentScreen s =? 4 then (wakeFromSleep s1, true)
    else if (currentScreen s =? 0) || (currentScreen s =? 1) then
      let s2 := set_lastClickTime (millis s) (set_clickCount (clickCount s + 1) s1) in
      (lcdPrintIfChanged "Selecting..." ("Clicks:" +++ String_of (clickCount s + 1)) s2,
       false)
    else (s1, false).
Proof.
  unfold pressConfirmed, edgeConfirmed, LOW. intros ((Hl & Hd & Hs) & Hr).
  unfold handleButton_edges, millis, LOW in *. cbv zeta.
  ztest. state_simpl. ztest. state_simpl. ztest. reflexivity.
Qed.

(** Without a confirmed edge the first half only tracks the raw pin. *)
Lemma handleButton_edges_quiet r rnd s :
  ~ edgeConfirmed r s ->
  exists s1, handleButton_edges (millis s) r rnd s = (s1, false) /\
             game s1 = game s /\ pot s1 = pot s /\ snd_ s1 = snd_ s /\ hw s1 = hw s /\
             clickCount s1 = clickCount s /\ lastClickTime s1 = lastClickTime s /\
             btnState s1 = btnState s /\ btnDownAt s1 = btnDownAt s.
Proof.
  intros Hn. unfold handleButton_edges, edgeConfirmed, millis in *. cbv zeta.
  destruct (Z.eqb_spec r (btnLast s)) as [E | E]; cbn [negb].
  - destruct (Z.ltb_spec 20 (usub (clock s) (btnChangedAt s))).
    + destruct (Z.eqb_spec r (btnState s)); cbn [negb].
      * exists s; repeat split.
      * exfalso; apply Hn; auto.
    + exists s; repeat split.
  - state_simpl.
    assert (usub (clock s) (clock s) = 0) as ->
        by (unfold usub; rewrite Z.sub_diag; reflexivity).
    cbn [Z.ltb Z.compare]. eexists; split; [reflexivity | ]. repeat split.
Qed.

Lemma handleButton_window_fires now s :
  windowExpired now s = true ->
  let s' := handleButton_window now s in
  game s' = mkGame (Z.min 5 (Z.max 1 (clickCount s))) (unlockedLevel s) 1 now
                   (roundTarget s) (levelStartedAt s) (triesLeft s) /\
  btn s' = mkBtn (btnState s) (btnLast s) (btnChangedAt s) (btnDownAt s) 0
                 (lastClickTime s) /\
  pot s' = pot s /\ snd_ s' = snd_ s /\ clock s' = clock s /\ lcdOn s' = lcdOn s /\
  lcdLine0 s' = "Select Level: " +++ String_of (Z.min 5 (Z.max 1 (clickCount s))) /\
  lcdLine1 s' = (if Z.min 5 (Z.max 1 (clickCount s)) <=? unlockedLevel s
                 then "Long press to enter" else "Level locked") /\
  exists pre, lcdFrames s' = (pre ++ lcdFrames s)%list.
Proof.
  unfold windowExpired, handleButton_window. intros ->. cbv zeta.
  assert (Hc : (if 5 <? (if clickCount s <? 1 then 1 else clickCount s) then 5
                else if clickCount s <? 1 then 1 else clickCount s)
               = Z.min 5 (Z.max 1 (clickCount s))).
  { destruct (Z.ltb_spec (clickCount s) 1);
      [ | destruct (Z.ltb_spec 5 (clickCount s))]; simpl; lia. }
  rewrite Hc. state_simpl.
  repeat split; try apply lcdPrintIfChanged_lines.
  match goal with
  | |- context [lcdPrintIfChanged ?a ?b ?x] =>
      destruct (lcdPrintIfChanged_frames a b x) as [E | (E & _)]
  end.
  - exists [(("Select Level: " +++ String_of (Z.min 5 (Z.max 1 (clickCount s)))),
             (if Z.min 5 (Z.max 1 (clickCount s)) <=? unlockedLevel s
              then "Long press to enter" else "Level locked"))].
    etransitivity; [exact E | ]. state_simpl. reflexivity.
  - exists []. etransitivity; [exact E | ]. state_simpl. reflexivity.
Qed.

Lemma handleButton_window_idle now s :
  windowExpired now s = false -> handleButton_window now s = s.
Proof. unfold windowExpired, handleButton_window. intros ->. reflexivity. Qed.

Lemma handleButton_unfold r rnd s :
  handleButton r rnd s =
    (if snd (handleButton_edges (millis s) r rnd s)
     then fst (handleButton_edges (millis s) r rnd s)
     else handleButton_window (millis s) (fst (handleButton_edges (millis s) r rnd s))).
Proof.
  unfold handleButton.
  destruct (handleButton_edges (millis s) r rnd s) as [m b]. reflexivity.
Qed.

(** ** Click counting *)

Lemma handleButton_window_resolves now (s : State) :
  currentScreen s = 0 \/ currentScreen s = 1 ->
  0 <= clickCount s -> clickCount s <> 0 ->
  CLICK_WINDOW_MS < usub now (lastClickTime s) ->
  resolvedTo (clickCount s) now (handleButton_window now s).
Proof.
  intros Hscr H0 Hn Hw.
  assert (He : windowExpired now s = true).
  { unfold windowExpired.
    rewrite (proj2 (Z.ltb_lt 0 (clickCount s))) by lia.
    rewrite (proj2 (Z.ltb_lt _ _) Hw).
    destruct Hscr as [-> | ->]; reflexivity. }
  destruct (handleButton_window_fires now s He) as (Hg & Hb & _).
  unfold resolvedTo. rewrite Hg, Hb. cbn [selectedLevel currentScreen lastActivity clickCount].
  repeat split.
  intros t. apply handleButton_window_idle.
  unfold windowExpired. rewrite Hb. cbn [clickCount].
  rewrite andb_false_r. reflexivity.
Qed.

(** C8.  On the welcome or level-select screen, a positive click count whose
    last counted press is more than 700 ms old is resolved by the expiry test
    that ends every call of [handleButton]: the selected level becomes the
    count clamped to [1..5], the screen becomes level-select, the count
    becomes zero, and the test stays off afterwards, so the count is resolved
    once.  The test reads the state as the button edges of the same call left
    it (first part); in particular it fires in a call that sees no button
    edge at all (second part). *)
Theorem click_window_resolves_clamped :
  (forall r rnd (s m : State),
     handleButton_edges (millis s) r rnd s = (m, false) ->
     currentScreen m = 0 \/ currentScreen m = 1 ->
     0 <= clickCount m -> clickCount m <> 0 ->
     CLICK_WINDOW_MS < usub (millis s) (lastClickTime m) ->
     resolvedTo (clickCount m) (millis s) (handleButton r rnd s)) /\
  (forall r rnd (s : State),
     ~ edgeConfirmed r s ->
     currentScreen s = 0 \/ currentScreen s = 1 ->
     0 <= clickCount s -> clickCount s <> 0 ->
     CLICK_WINDOW_MS < usub (millis s) (lastClickTime s) ->
     resolvedTo (clickCount s) (millis s) (handleButton r rnd s)).
Proof.
  assert (H1 : forall r rnd (s m : State),
             handleButton_edges (millis s) r rnd s = (m, false) ->
             currentScreen m = 0 \/ currentScreen m = 1 ->
             0 <= clickCount m -> clickCount m <> 0 ->
             CLICK_WINDOW_MS < usub (millis s) (lastClickTime m) ->
             resolvedTo (clickCount m) (millis s) (handleButton r rnd s)).
  { intros r rnd s m He Hscr H0 Hn Hw.
    rewrite handleButton_unfold, He. cbn [fst snd].
    apply handleButton_window_resolves; assumption. }
  split; [exact H1 | ].
  intros r rnd s Hq Hscr H0 Hn Hw.
  destruct (handleButton_edges_quiet r rnd s Hq)
    as (m & He & Hg & _ & _ & _ & Hc & Ht & _).
  rewrite <- Hc. apply (H1 r rnd s m He).
  - rewrite Hg. exact Hscr.
  - rewrite Hc. exact H0.
  - rewrite Hc. exact Hn.
  - rewrite Ht. exact Hw.
Qed.

Lemma click_window_resolves_clamped_witness :
  let s3 := atPoll 700 (run (clicks 3 512 300) (setup 300 boot)) in
  let s7 := atPoll 700 (run (clicks 7 512 300) (setup 300 boot)) in
  (clickCount s3 = 3 /\ CLICK_WINDOW_MS < usub (millis s3) (lastClickTime s3) /\
   selectedLevel (handleButton HIGH 300 s3) = 3 /\
   currentScreen (handleButton HIGH 300 s3) = 1 /\
   clickCount (handleButton HIGH 300 s3) = 0) /\
  (clickCount s7 = 7 /\ CLICK_WINDOW_MS < usub (millis s7) (lastClickTime s7) /\
   selectedLevel (handleButton HIGH 300 s7) = 5 /\
   currentScreen (handleButton HIGH 300 s7) = 1 /\
   clickCount (handleButton HIGH 300 s7) = 0).
Proof.
  intros s3 s7.
  destruct click_window_resolves_clamped as (_ & Hq).
  assert (Q3 : ~ edgeConfirmed HIGH s3)
    by (intros (_ & _ & Hne); apply Hne; vm_compute; reflexivity).
  assert (Q7 : ~ edgeConfirmed HIGH s7)
    by (intros (_ & _ & Hne); apply Hne; vm_compute; reflexivity).
  assert (C3 : clickCount s3 = 3) by (vm_compute; reflexivity).
  assert (C7 : clickCount s7 = 7) by (vm_compute; reflexivity).
  assert (W3 : CLICK_WINDOW_MS < usub (millis s3) (lastClickTime s3))
    by (vm_compute; reflexivity).
  assert (W7 : CLICK_WINDOW_MS < usub (millis s7) (lastClickTime s7))
    by (vm_compute; reflexivity).
  destruct (Hq HIGH 300 s3 Q3) as (A3 & B3 & D3 & _);
    [left; vm_compute; reflexivity | rewrite C3; lia | rewrite C3; lia | exact W3 | ].
  destruct (Hq HIGH 300 s7 Q7) as (A7 & B7 & D7 & _);
    [left; vm_compute; reflexivity | rewrite C7; lia | rewrite C7; lia | exact W7 | ].
  rewrite C3 in A3. rewrite C7 in A7.
  repeat split; assumption.
Defined.

(** ** Long press *)

(** [handleButton] at a confirmed release that lasted at least 800 ms, on
    the level-select screen with an unlocked level selected: the level is
    started, and the click window is not examined. *)
Lemma handleButton_long_press_enters r rnd (s : State) :
  releaseConfirmed r s -> LONG_PRESS_MS <= pressDur s ->
  currentScreen s = 1 -> selectedLevel s <= unlockedLevel s ->
  handleButton r rnd s = startLevel (selectedLevel s) rnd (set_btnState r s).
Proof.
  intros Hr Hd Hscr Hsel.
  rewrite handleButton_unfold, (handleButton_edges_release r rnd s Hr). cbv zeta.
  ztest. cbn [fst snd].
  apply handleButton_window_idle.
  unfold windowExpired. state_simpl. reflexivity.
Qed.

(** The same release with a locked level selected: the locked message is
    sent to the LCD, then the click window is examined. *)
Lemma handleButton_long_press_locked r rnd (s : State) :
  releaseConfirmed r s -> LONG_PRESS_MS <= pressDur s ->
  currentScreen s = 1 -> unlockedLevel s < selectedLevel s ->
  handleButton r rnd s =
    handleButton_window (millis s)
      (lcdPrintIfChanged "Level locked" "Long press denied" (set_btnState r s)).
Proof.
  intros Hr Hd Hscr Hsel.
  rewrite handleButton_unfold, (handleButton_edges_release r rnd s Hr). cbv zeta.
  ztest. reflexivity.
Qed.

(** C7.  On the level-select screen a long press (a confirmed release after
    at least 800 ms) starts the game if and only if the selected level is at
    most the unlocked level, and the level then played is unlocked.  With a
    locked level selected the screen stays level-select and the locked
    message is put on the LCD by this call (or is already on it); it is what
    the LCD shows after the call when no click is pending. *)
Theorem long_press_enters_only_unlocked (r rnd : Z) (s : State) :
  currentScreen s = 1 ->
  releaseConfirmed r s -> LONG_PRESS_MS <= pressDur s ->
  1 <= unlockedLevel s ->
  let s' := handleButton r rnd s in
  (currentScreen s' = 2 <-> selectedLevel s <= unlockedLevel s) /\
  (currentScreen s' = 2 ->
     selectedLevel s' <= unlockedLevel s' /\ unlockedLevel s' = unlockedLevel s) /\
  (unlockedLevel s < selectedLevel s ->
     currentScreen s' = 1 /\
     (exists pre, lcdFrames s' = (pre ++ lcdFrames s)%list /\
                  (In lockedFrame pre \/ (lcdLine0 s, lcdLine1 s) = lockedFrame)) /\
     (clickCount s = 0 ->
        lcdLine0 s' = "Level locked" /\ lcdLine1 s' = "Long press denied")).
Proof.
  intros Hscr Hr Hd Hu s'.
  destruct (Z.le_gt_cases (selectedLevel s) (unlockedLevel s)) as [Hle | Hgt].
  - (* unlocked: the level is entered *)
    assert (E : s' = startLevel (selectedLevel s) rnd (set_btnState r s))
      by (apply handleButton_long_press_enters; assumption).
    assert (G : game s' =
                mkGame (constrain (selectedLevel s) 1 5) (unlockedLevel s) 2 (clock s) rnd
                       (clock s)
                       (if 0 <? triesAllowed (lvl (constrain (selectedLevel s) 1 5))
                        then triesAllowed (lvl (constrain (selectedLevel s) 1 5))
                        else 9999)).
    { rewrite E, startLevel_game. reflexivity. }
    clearbody s'. rewrite G. cbn [currentScreen selectedLevel unlockedLevel].
    split; [tauto | ]. split; [ | lia].
    intros _. split; [ | reflexivity].
    unfold constrain.
    destruct (Z.ltb_spec (selectedLevel s) 1); [lia | ].
    destruct (Z.gtb_spec (selectedLevel s) 5); lia.
  - (* locked: message, then the click window *)
    assert (E : s' = handleButton_window (millis s)
                       (lcdPrintIfChanged "Level locked" "Long press denied"
                          (set_btnState r s)))
      by (apply handleButton_long_press_locked; assumption).
    set (m := lcdPrintIfChanged "Level locked" "Long press denied" (set_btnState r s))
      in E.
    assert (Gm : game m = game s) by (subst m; state_simpl; reflexivity).
    assert (Bm : clickCount m = clickCount s) by (subst m; state_simpl; reflexivity).
    assert (Fm : exists pre, lcdFrames m = (pre ++ lcdFrames s)%list /\
                             (In lockedFrame pre \/
                              (lcdLine0 s, lcdLine1 s) = lockedFrame)).
    { subst m.
      destruct (lcdPrintIfChanged_frames "Level locked" "Long press denied"
                  (set_btnState r s)) as [F | (F & L0 & L1)].
      - exists [lockedFrame]. split; [exact F | left; left; reflexivity].
      - exists []. split; [exact F | right].
        cbn [set_btnState upd_btn hw lcdLine0 lcdLine1] in L0, L1.
        unfold lockedFrame. rewrite L0, L1. reflexivity. }
    assert (Lm : lcdLine0 m = "Level locked" /\ lcdLine1 m = "Long press denied")
      by (subst m; apply lcdPrintIfChanged_lines).
    clearbody m s'. subst s'.
    destruct (windowExpired (millis s) m) eqn:We.
    + destruct (handleButton_window_fires (millis s) m We)
        as (G & _ & _ & _ & _ & _ & _ & _ & (pre2 & F2)).
      rewrite G. cbn [currentScreen].
      split; [split; [discriminate | lia] | ]. split; [discriminate | ].
      intros _. split; [reflexivity | ]. split.
      * destruct Fm as (pre & F & Hin). exists (pre2 ++ pre)%list.
        rewrite F2, F, app_assoc. split; [reflexivity | ].
        destruct Hin as [Hin | Hin]; [left; apply in_or_app; right; exact Hin | right; exact Hin].
      * intros Hc0. exfalso. unfold windowExpired in We. rewrite Bm, Hc0 in We.
        cbn [Z.ltb Z.compare] in We. rewrite andb_false_r in We. discriminate.
    + rewrite (handleButton_window_idle (millis s) m We), Gm, Hscr.
      split; [split; [discriminate | lia] | ]. split; [discriminate | ].
      intros _. split; [reflexivity | ]. split; [exact Fm | intros _; exact Lm].
Qed.

Lemma long_press_enters_only_unlocked_witness :
  let sL := atPoll 21 (run (clicks 2 512 300 ++ hold 512 300) (setup 300 boot)) in
  let sU := atPoll 21 (run (hold 512 300) (setup 300 boot)) in
  (currentScreen sL = 1 /\ selectedLevel sL = 3 /\ unlockedLevel sL = 1 /\
   LONG_PRESS_MS <= pressDur sL /\
   currentScreen (handleButton HIGH 300 sL) = 1 /\
   lcdLine0 (handleButton HIGH 300 sL) = "Level locked" /\
   lcdLine1 (handleButton HIGH 300 sL) = "Long press denied") /\
  (currentScreen sU = 1 /\ selectedLevel sU = 1 /\ unlockedLevel sU = 1 /\
   LONG_PRESS_MS <= pressDur sU /\
   currentScreen (handleButton HIGH 300 sU) = 2).
Proof.
  intros sL sU.
  assert (RL : releaseConfirmed HIGH sL)
    by (repeat split; vm_compute; congruence).
  assert (RU : releaseConfirmed HIGH sU)
    by (repeat split; vm_compute; congruence).
  assert (DL : LONG_PRESS_MS <= pressDur sL) by (vm_compute; discriminate).
  assert (DU : LONG_PRESS_MS <= pressDur sU) by (vm_compute; discriminate).
  assert (SL : currentScreen sL = 1) by (vm_compute; reflexivity).
  assert (SU : currentScreen sU = 1) by (vm_compute; reflexivity).
  assert (UL : 1 <= unlockedLevel sL) by (vm_compute; discriminate).
  assert (UU : 1 <= unlockedLevel sU) by (vm_compute; discriminate).
  destruct (long_press_enters_only_unlocked HIGH 300 sL SL RL DL UL) as (_ & _ & HL).
  destruct (long_press_enters_only_unlocked HIGH 300 sU SU RU DU UU) as (HU & _).
  destruct HL as (HL1 & _ & HL3); [vm_compute; reflexivity | ].
  destruct HL3 as (HL3 & HL4); [vm_compute; reflexivity | ].
  split.
  - split; [exact SL | ].
    split; [vm_compute; reflexivity | ]. split; [vm_compute; reflexivity | ].
    split; [exact DL | ]. split; [exact HL1 | ]. split; [exact HL3 | exact HL4].
  - split; [exact SU | ].
    split; [vm_compute; reflexivity | ]. split; [vm_compute; reflexivity | ].
    split; [exact DU | ]. apply HU. vm_compute. discriminate.
Defined.

(** The long-press branch of [handleButton] does not write the click count;
    the count is only cleared by the expiry of the click window.  At a
    confirmed release after at least 800 ms:
    - the first half of [handleButton] leaves the count as it was;
    - if the long press enters a level, the call ends without examining the
      click window and the count keeps its value;
    - if the call ends on the welcome or level-select screen (long press on
      the welcome screen, or on a locked level) and the last counted press is
      more than 700 ms old, the expiry test of the same call clears it. *)
Lemma handleButton_long_release_clicks (r rnd : Z) (s : State) :
  releaseConfirmed r s -> LONG_PRESS_MS <= pressDur s -> 0 <= clickCount s ->
  let s' := handleButton r rnd s in
  clickCount (fst (handleButton_edges (millis s) r rnd s)) = clickCount s /\
  (currentScreen s = 1 -> selectedLevel s <= unlockedLevel s ->
     currentScreen s' = 2 /\ clickCount s' = clickCount s) /\
  (currentScreen s = 0 \/ (currentScreen s = 1 /\ unlockedLevel s < selectedLevel s) ->
     CLICK_WINDOW_MS < usub (millis s) (lastClickTime s) ->
     clickCount s' = 0).
Proof.
  intros Hr Hd H0 s'.
  pose proof (handleButton_edges_release r rnd s Hr) as He. cbv zeta in He.
  rewrite (proj2 (Z.leb_le _ _) Hd) in He.
  split; [ | split].
  - rewrite He. repeat split_if; state_simpl; reflexivity.
  - intros Hscr Hsel. subst s'.
    rewrite (handleButton_long_press_enters r rnd s Hr Hd Hscr Hsel).
    state_simpl. split; reflexivity.
  - intros Hscr Hw. subst s'. rewrite handleButton_unfold, He.
    set (m := fst (if currentScreen s =? 1 then _ else _)).
    assert (Hm : (currentScreen m = 0 \/ currentScreen m = 1) /\
                 clickCount m = clickCount s /\ lastClickTime m = lastClickTime s /\
                 snd (if currentScreen s =? 1
                      then if selectedLevel s <=? unlockedLevel s
                           then (startLevel (selectedLevel s) rnd (set_btnState r s), false)
                           else (lcdPrintIfChanged "Level locked" "Long press denied"
                                   (set_btnState r s), false)
                      else if currentScreen s =? 0
                           then if 6000 <=? usub (millis s) (lastActivity s)
                                then (stopToWelcome (set_btnState r s), false)
                                else (set_btnState r s, false)
                           else (set_btnState r s, false)) = false).
    { subst m. destruct Hscr as [Hscr | (Hscr & Hsel)]; rewrite Hscr; ztest.
      - destruct (6000 <=? usub (millis s) (lastActivity s)); state_simpl; auto.
      - state_simpl. auto. }
    destruct Hm as (Hscr' & Hc & Ht & ->).
    destruct (Z.eq_dec (clickCount s) 0) as [Hz | Hnz].
    + destruct (windowExpired (millis s) m) eqn:We.
      * destruct (handleButton_window_fires (millis s) m We) as (_ & Hb & _).
        rewrite Hb. reflexivity.
      * rewrite (handleButton_window_idle _ _ We), Hc. exact Hz.
    + apply (handleButton_window_resolves (millis s) m); try assumption.
      * rewrite Hc; exact H0.
      * rewrite Hc; exact Hnz.
      * rewrite Ht; exact Hw.
Qed.

(** When the level is entered the count is only zero because an earlier
    poll resolved it.  In a run whose polls skip the whole interval between
    700 and 800 ms after the press (one click selects level 1, the button is
    pressed again, and the first poll that comes more than 700 ms after that
    press is the one that confirms the release, 800 ms after it), the long
    press starts level 1 with the click count still 1. *)
Lemma sparse_polls_keep_click_count :
  let trace := (choose 1 512 300 ++ sparseHold 512 300)%list in
  let s := atPoll 121 (run trace (setup 300 boot)) in
  releaseConfirmed HIGH s /\ pressDur s = 800 /\
  currentScreen s = 1 /\ selectedLevel s = 1 /\ unlockedLevel s = 1 /\
  currentScreen (handleButton HIGH 300 s) = 2 /\
  clickCount (handleButton HIGH 300 s) = 1 /\
  clickCount (handleButton HIGH 300 s) <> 0 /\
  clickCount (run (trace ++ [mkInput 121 HIGH 512 300])%list (setup 300 boot)) = 1.
Proof.
  intros trace s.
  split; [repeat split; vm_compute; congruence | ].
  repeat split; try (vm_compute; reflexivity).
  vm_compute. discriminate.
Qed.

(** ** The stages of [loop] *)

Lemma screenStep_refl a : screenStep a a.
Proof. left; reflexivity. Qed.

Lemma screenStep_trans a b c : screenStep a b -> screenStep b c -> screenStep a c.
Proof. unfold screenStep. intuition congruence. Qed.

Lemma handleButton_window_stage now (s : State) :
  let s' := handleButton_window now s in
  unlockedLevel s' = unlockedLevel s /\ clock s' = clock s /\
  screenStep (currentScreen s) (currentScreen s').
Proof.
  destruct (windowExpired now s) eqn:We.
  - destruct (handleButton_window_fires now s We) as (G & _ & _ & _ & C & _).
    cbv zeta. rewrite G, C. cbn [unlockedLevel currentScreen].
    unfold screenStep. auto 10.
  - cbv zeta. rewrite (handleButton_window_idle now s We).
    auto using screenStep_refl.
Qed.

Lemma handleButton_edges_stage now r rnd (s : State) :
  let s' := fst (handleButton_edges now r rnd s) in
  unlockedLevel s' = unlockedLevel s /\ clock s' = clock s /\
  screenStep (currentScreen s) (currentScreen s').
Proof.
  unfold handleButton_edges, screenStep. cbv zeta.
  repeat split_if; state_simpl; auto 10.
Qed.

Lemma handleButton_stage r rnd (s : State) :
  let s' := handleButton r rnd s in
  unlockedLevel s' = unlockedLevel s /\ clock s' = clock s /\
  screenStep (currentScreen s) (currentScreen s').
Proof.
  cbv zeta. rewrite handleButton_unfold.
  destruct (handleButton_edges_stage (millis s) r rnd s) as (U & C & S).
  destruct (snd (handleButton_edges (millis s) r rnd s)); [auto | ].
  destruct (handleButton_window_stage (millis s)
              (fst (handleButton_edges (millis s) r rnd s))) as (U' & C' & S').
  rewrite U', C'. eauto using screenStep_trans.
Qed.

Lemma acceptStablePot_stage value (s : State) :
  let s' := acceptStablePot value s in
  unlockedLevel s' = unlockedLevel s /\
  screenStep (currentScreen s) (currentScreen s').
Proof.
  cbv zeta. rewrite acceptStablePot_game. unfold screenStep.
  repeat split_if; cbn [unlockedLevel currentScreen]; auto 10.
Qed.

Lemma updatePot_stage raw (s : State) :
  let s' := updatePot raw s in
  unlockedLevel s' = unlockedLevel s /\
  screenStep (currentScreen s) (currentScreen s').
Proof.
  unfold updatePot, millis, screenStep. cbv zeta.
  repeat (first [split_if | progress state_simpl]); auto 10.
Qed.

(** Outside the game screen [updatePot] accepts nothing: it may only refresh
    the activity time. *)
Lemma updatePot_not_inGame raw (s : State) :
  currentScreen s <> 2 ->
  let s' := updatePot raw s in
  selectedLevel s' = selectedLevel s /\ unlockedLevel s' = unlockedLevel s /\
  currentScreen s' = currentScreen s /\
  (lastActivity s' = lastActivity s \/ lastActivity s' = clock s) /\
  clock s' = clock s /\ snd_ s' = snd_ s.
Proof.
  intros Hs. apply Z.eqb_neq in Hs. unfold updatePot, millis. cbv zeta.
  destruct (3 <? Z.abs (raw - lastPotRaw s)); state_simpl;
    (split_if; state_simpl; [rewrite Hs | ]; auto 10).
Qed.

Lemma checkToneNB_stage (s : State) :
  game (checkToneNB s) = game s /\ clock (checkToneNB s) = clock s /\
  winAnimActive (checkToneNB s) = winAnimActive s /\
  winAnimEnd (checkToneNB s) = winAnimEnd s.
Proof. unfold checkToneNB. split_if; state_simpl; auto. Qed.

Lemma checkMelody_stage (s : State) :
  game (checkMelody s) = game s /\ clock (checkMelody s) = clock s.
Proof.
  unfold checkMelody, millis. cbv zeta.
  repeat split_if; state_simpl; auto.
Qed.

Lemma idleCheck_stage (s : State) :
  let s' := idleCheck s in
  unlockedLevel s' = unlockedLevel s /\ clock s' = clock s /\
  screenStep (currentScreen s) (currentScreen s').
Proof.
  unfold idleCheck, goToSleep, screenStep. cbv zeta.
  split_if; state_simpl; auto 10.
Qed.

Lemma loop_timer_stage now (s : State) :
  let s' := loop_timer now s in
  unlockedLevel s' = unlockedLevel s /\
  screenStep (currentScreen s) (currentScreen s').
Proof.
  unfold loop_timer, delay, screenStep. cbv zeta.
  repeat split_if; state_simpl; auto 10.
Qed.

(** The game block after the win animation block of [loop]. *)
Lemma loop_winCheck_game (s : State) :
  game (loop_winCheck s) =
    if winAnimActive s && (winAnimEnd s <=? millis s) then
      mkGame (selectedLevel s)
             (if (selectedLevel s =? unlockedLevel s) && (unlockedLevel s <? 5)
              then unlockedLevel s + 1 else unlockedLevel s)
             0 (clock s) (roundTarget s) (levelStartedAt s) (triesLeft s)
    else game s.
Proof.
  unfold loop_winCheck. cbv zeta. state_simpl.
  repeat split_if; state_simpl; reflexivity.
Qed.

Lemma loop_winCheck_stage (s : State) :
  let s' := loop_winCheck s in
  (unlockedLevel s' = unlockedLevel s \/
   (unlockedLevel s' = unlockedLevel s + 1 /\ unlockedLevel s < 5)) /\
  screenStep (currentScreen s) (currentScreen s').
Proof.
  cbv zeta. rewrite loop_winCheck_game. unfold screenStep.
  destruct (winAnimActive s && (winAnimEnd s <=? millis s)); [ | auto].
  cbn [unlockedLevel currentScreen].
  destruct (Z.eqb_spec (selectedLevel s) (unlockedLevel s));
    destruct (Z.ltb_spec (unlockedLevel s) 5); cbn [andb]; auto 10.
Qed.

(** One iteration of [loop], stage by stage. *)
Lemma loop_unfold i s :
  loop i s =
    loop_winCheck
      (loop_timer (millis (atPoll (in_dt i) s))
         (idleCheck
            (checkMelody
               (checkToneNB
                  (updatePot (in_pot i)
                     (handleButton (in_btn i) (in_rnd i) (atPoll (in_dt i) s))))))).
Proof. reflexivity. Qed.

Lemma atPoll_frame dt (s : State) :
  game (atPoll dt s) = game s /\ pot (atPoll dt s) = pot s /\
  btn (atPoll dt s) = btn s /\ snd_ (atPoll dt s) = snd_ s.
Proof. unfold atPoll. state_simpl. auto. Qed.

(** An iteration leaves the unlocked level as it is or adds one to it, the
    latter only below 5; and it never produces a screen number other than
    the one it found or 0, 1, 2, 4. *)
Lemma loop_stage i (s : State) :
  (unlockedLevel (loop i s) = unlockedLevel s \/
   (unlockedLevel (loop i s) = unlockedLevel s + 1 /\ unlockedLevel s < 5)) /\
  screenStep (currentScreen s) (currentScreen (loop i s)).
Proof.
  rewrite loop_unfold.
  set (s0 := atPoll (in_dt i) s).
  set (s1 := handleButton (in_btn i) (in_rnd i) s0).
  set (s2 := updatePot (in_pot i) s1).
  set (s3 := checkToneNB s2).
  set (s4 := checkMelody s3).
  set (s5 := idleCheck s4).
  set (s6 := loop_timer (millis s0) s5).
  assert (G0 : game s0 = game s) by apply atPoll_frame.
  destruct (handleButton_stage (in_btn i) (in_rnd i) s0) as (U1 & _ & S1).
  destruct (updatePot_stage (in_pot i) s1) as (U2 & S2).
  destruct (checkToneNB_stage s2) as (G3 & _).
  destruct (checkMelody_stage s3) as (G4 & _).
  destruct (idleCheck_stage s4) as (U5 & _ & S5).
  destruct (loop_timer_stage (millis s0) s5) as (U6 & S6).
  destruct (loop_winCheck_stage s6) as (U7 & S7).
  fold s1 in U1, S1. fold s2 in U2, S2. fold s3 in G3. fold s4 in G4.
  fold s5 in U5, S5. fold s6 in U6, S6.
  assert (U : unlockedLevel s6 = unlockedLevel s)
    by (rewrite U6, U5, G4, G3, U2, U1, G0; reflexivity).
  assert (S : screenStep (currentScreen s) (currentScreen s6)).
  { rewrite G0 in S1. rewrite G4, G3 in S5.
    eauto using screenStep_trans. }
  clearbody s0 s1 s2 s3 s4 s5 s6.
  split.
  - rewrite <- U. exact U7.
  - eauto using screenStep_trans.
Qed.

Lemma setup_game rnd :
  game (setup rnd boot) = mkGame 1 1 0 0 rnd 0 0.
Proof. unfold setup, pickNewTarget, millis. state_simpl. reflexivity. Qed.

Lemma fold_left_cons {A B : Type} (f : A -> B -> A) (x : B) (l : list B) (a : A) :
  fold_left f (x :: l) a = fold_left f l (f a x).
Proof. reflexivity. Qed.

Lemma run_cons i inputs s : run (i :: inputs) s = run inputs (loop i s).
Proof. exact (fold_left_cons (fun s i => loop i s) i inputs s). Qed.

Lemma run_app inputs1 inputs2 s :
  run (inputs1 ++ inputs2)%list s = run inputs2 (run inputs1 s).
Proof. unfold run. apply fold_left_app. Qed.

(** From power-on the unlocked level stays within [1..5], whatever the
    inputs. *)
Lemma run_unlockedLevel inputs rnd :
  1 <= unlockedLevel (run inputs (setup rnd boot)) <= 5.
Proof.
  assert (H : forall (s : State), 1 <= unlockedLevel s <= 5 ->
                                  1 <= unlockedLevel (run inputs s) <= 5).
  { induction inputs as [ | i inputs IH]; intros s Hs; [exact Hs | ].
    rewrite run_cons. apply IH.
    destruct (loop_stage i s) as ([E | (E & Hlt)] & _); lia. }
  apply H. rewrite setup_game. cbn [unlockedLevel]. lia.
Qed.

(** ** Level unlocking *)

(** X19.  When the win animation window has elapsed, the win block of
    [loop] adds one to the unlocked level if and only if the level selected
    at that moment equals the unlocked level and that level is below 5;
    otherwise the unlocked level is unchanged.  The block returns to the
    welcome screen.  No iteration of [loop] takes the unlocked level
    above 5. *)
Theorem win_block_unlocks_on_selected_level (s : State) :
  winAnimActive s = true -> winAnimEnd s <= millis s ->
  let s' := loop_winCheck s in
  (unlockedLevel s' = unlockedLevel s + 1 <->
     selectedLevel s = unlockedLevel s /\ unlockedLevel s < 5) /\
  (unlockedLevel s' = unlockedLevel s <->
     ~ (selectedLevel s = unlockedLevel s /\ unlockedLevel s < 5)) /\
  (selectedLevel s < unlockedLevel s \/ unlockedLevel s = 5 ->
     unlockedLevel s' = unlockedLevel s) /\
  currentScreen s' = 0 /\ winAnimActive s' = false /\
  (forall i (t : State), unlockedLevel t <= 5 -> unlockedLevel (loop i t) <= 5) /\
  (forall inputs rnd, 1 <= unlockedLevel (run inputs (setup rnd boot)) <= 5).
Proof.
  intros Ha He s'.
  assert (G : game s' =
              mkGame (selectedLevel s)
                (if (selectedLevel s =? unlockedLevel s) && (unlockedLevel s <? 5)
                 then unlockedLevel s + 1 else unlockedLevel s)
                0 (clock s) (roundTarget s) (levelStartedAt s) (triesLeft s)).
  { subst s'. rewrite loop_winCheck_game, Ha.
    rewrite (proj2 (Z.leb_le _ _) He). reflexivity. }
  assert (W : winAnimActive s' = false).
  { subst s'. unfold loop_winCheck. rewrite Ha, (proj2 (Z.leb_le _ _) He).
    cbn [andb]. cbv zeta. state_simpl. split_if; state_simpl; reflexivity. }
  clearbody s'. rewrite G. cbn [unlockedLevel currentScreen].
  destruct (Z.eqb_spec (selectedLevel s) (unlockedLevel s));
    destruct (Z.ltb_spec (unlockedLevel s) 5); cbn [andb];
    (repeat split; try lia; try assumption; try tauto;
     try (intros; exfalso; lia)).
  all: try (intros i t Ht; destruct (loop_stage i t) as ([E | (E & Hlt)] & _); lia).
  all: try (intros; apply run_unlockedLevel).
Qed.

Lemma win_block_unlocks_on_selected_level_witness :
  let s := atPoll 5000 (run winOnEntry (setup 300 boot)) in
  winAnimActive s = true /\ winAnimEnd s <= millis s /\
  selectedLevel s = 1 /\ unlockedLevel s = 1 /\
  unlockedLevel (loop_winCheck s) = 2.
Proof.
  intros s.
  assert (Ha : winAnimActive s = true) by (vm_compute; reflexivity).
  assert (He : winAnimEnd s <= millis s) by (vm_compute; discriminate).
  destruct (win_block_unlocks_on_selected_level s Ha He) as (Hu & _).
  split; [exact Ha | ]. split; [exact He | ].
  split; [vm_compute; reflexivity | ]. split; [vm_compute; reflexivity | ].
  change 2 with (1 + 1). replace 1 with (unlockedLevel s) at 1 by (vm_compute; reflexivity).
  apply Hu. split; vm_compute; reflexivity.
Defined.

(** ** Idle and sleep *)

Lemma usub_diag a : usub a a = 0.
Proof. unfold usub. rewrite Z.sub_diag. reflexivity. Qed.

Lemma idleCheck_awake (s : State) :
  usub (millis s) (lastActivity s) < IDLE_TIMEOUT_MS -> idleCheck s = s.
Proof.
  intros H. unfold idleCheck.
  rewrite (proj2 (Z.leb_gt _ _) H). reflexivity.
Qed.

Lemma handleButton_wakes r rnd (s : State) :
  currentScreen s = 4 -> pressConfirmed r s ->
  handleButton r rnd s = wakeFromSleep (set_btnDownAt (millis s) (set_btnState r s)).
Proof.
  intros Hscr Hp.
  rewrite handleButton_unfold, (handleButton_edges_press r rnd s Hp). cbv zeta.
  rewrite Hscr. reflexivity.
Qed.

(** C9.  On any screen but sleep, [idleCheck] puts the device to sleep, with
    the LCD text hidden, once 36000 ms have passed since the last activity.
    In the sleep state a confirmed press always leads to the welcome screen,
    with the LCD on and showing the welcome text: this holds for the call of
    [handleButton] and for the whole iteration of [loop] around it, whatever
    else the state holds (the level, target and tries of a round that was
    running are no longer in play, the screen being the welcome screen). *)
Theorem idle_sleeps_press_wakes :
  (forall s : State,
     currentScreen s <> 4 -> IDLE_TIMEOUT_MS <= usub (millis s) (lastActivity s) ->
     currentScreen (idleCheck s) = 4 /\ lcdOn (idleCheck s) = false) /\
  (forall r rnd (s : State),
     currentScreen s = 4 -> pressConfirmed r s ->
     let s' := handleButton r rnd s in
     currentScreen s' = 0 /\ lcdOn s' = true /\ lastActivity s' = millis s /\
     lcdLine0 s' = "Play PotMatch :)" /\ lcdLine1 s' = "Press to select") /\
  (forall i (s : State),
     currentScreen s = 4 -> pressConfirmed (in_btn i) (atPoll (in_dt i) s) ->
     currentScreen (loop i s) = 0).
Proof.
  split; [ | split].
  - intros s Hscr Hidle. unfold idleCheck, goToSleep.
    rewrite (proj2 (Z.leb_le _ _) Hidle), (proj2 (Z.eqb_neq _ _) Hscr).
    cbn [andb negb]. state_simpl. split; reflexivity.
  - intros r rnd s Hscr Hp s'. subst s'. rewrite (handleButton_wakes r rnd s Hscr Hp).
    destruct (wakeFromSleep_frame (set_btnDownAt (millis s) (set_btnState r s)))
      as (_ & _ & _ & _ & Hon & L0 & L1).
    cbv zeta in Hon, L0, L1. rewrite Hon, L0, L1. state_simpl. unfold millis. auto.
  - intros i s Hscr Hp. rewrite loop_unfold.
    set (s0 := atPoll (in_dt i) s) in *.
    assert (Hscr0 : currentScreen s0 = 4)
      by (subst s0; rewrite (proj1 (atPoll_frame _ _)); exact Hscr).
    set (s1 := handleButton (in_btn i) (in_rnd i) s0).
    assert (G1 : game s1 = mkGame (selectedLevel s0) (unlockedLevel s0) 0 (clock s0)
                             (roundTarget s0) (levelStartedAt s0) (triesLeft s0)).
    { subst s1. rewrite (handleButton_wakes _ _ s0 Hscr0 Hp). state_simpl. reflexivity. }
    assert (C1 : clock s1 = clock s0) by apply handleButton_stage.
    clearbody s1.
    destruct (updatePot_not_inGame (in_pot i) s1) as (_ & _ & S2 & A2 & C2 & _);
      [rewrite G1; discriminate | ].
    set (s2 := updatePot (in_pot i) s1) in *.
    rewrite G1 in S2, A2. cbn [currentScreen lastActivity] in S2, A2.
    rewrite C1 in A2, C2.
    assert (A2' : lastActivity s2 = clock s0) by (destruct A2; assumption).
    clearbody s2.
    destruct (checkToneNB_stage s2) as (G3 & C3 & _).
    set (s3 := checkToneNB s2) in *. clearbody s3.
    destruct (checkMelody_stage s3) as (G4 & C4).
    set (s4 := checkMelody s3) in *. clearbody s4.
    assert (S4 : currentScreen s4 = 0) by (rewrite G4, G3; exact S2).
    assert (I4 : idleCheck s4 = s4).
    { apply idleCheck_awake. unfold millis.
      rewrite C4, C3, C2, G4, G3, A2', usub_diag. reflexivity. }
    rewrite I4.
    assert (T4 : loop_timer (millis s0) s4 = s4).
    { unfold loop_timer. rewrite S4. reflexivity. }
    rewrite T4, loop_winCheck_game.
    destruct (winAnimActive s4 && (winAnimEnd s4 <=? millis s4)); [reflexivity | exact S4].
Qed.

Lemma idle_sleeps_press_wakes_witness :
  let idle := atPoll 36000 (run enterLevel1 (setup 300 boot)) in
  let asleep :=
    atPoll 21 (run (enterLevel1 ++ [mkInput 36000 HIGH 512 300; mkInput 10 LOW 512 300])
                 (setup 300 boot)) in
  (currentScreen idle = 2 /\ currentScreen (idleCheck idle) = 4 /\
   lcdOn (idleCheck idle) = false) /\
  (currentScreen asleep = 4 /\ pressConfirmed LOW asleep /\
   currentScreen (handleButton LOW 300 asleep) = 0 /\
   lcdOn (handleButton LOW 300 asleep) = true) /\
  currentScreen
    (run (enterLevel1 ++ [mkInput 36000 HIGH 512 300; mkInput 10 LOW 512 300;
                          mkInput 21 LOW 512 300]) (setup 300 boot)) = 0.
Proof.
  intros idle asleep.
  destruct idle_sleeps_press_wakes as (Hsleep & Hwake & Hloop).
  assert (P : pressConfirmed LOW asleep) by (repeat split; vm_compute; congruence).
  assert (S : currentScreen asleep = 4) by (vm_compute; reflexivity).
  split; [ | split].
  - split; [vm_compute; reflexivity | ].
    apply Hsleep; vm_compute; discriminate.
  - split; [exact S | ]. split; [exact P | ].
    destruct (Hwake LOW 300 asleep S P) as (H0 & H1 & _). split; assumption.
  - rewrite run_app. rewrite run_cons. rewrite run_cons. rewrite run_cons.
    apply (Hloop (mkInput 21 LOW 512 300)
             (loop (mkInput 10 LOW 512 300)
                (loop (mkInput 36000 HIGH 512 300) (run enterLevel1 (setup 300 boot))))).
    + vm_compute. reflexivity.
    + repeat split; vm_compute; congruence.
Defined.

(** ** The win animation and the screen *)

(** The win branch of [acceptStablePot] opens the win window and leaves
    [currentScreen] as it is. *)
Lemma acceptStablePot_win value (s : State) :
  bandOf value s = 5 ->
  let s' := acceptStablePot value s in
  currentScreen s' = currentScreen s /\ winAnimActive s' = true /\
  winAnimEnd s' = uadd (millis s) WIN_DISPLAY_MS.
Proof.
  intros Hb. cbv zeta. split.
  - rewrite acceptStablePot_game, Hb. reflexivity.
  - unfold acceptStablePot. fold (bandOf value s). rewrite Hb.
    cbv zeta. change (5 <? 5) with false. cbv iota.
    unfold millis. state_simpl. split; reflexivity.
Qed.

(** No iteration of [loop] produces the screen number 3: from power-on the
    screen is never the win animation screen. *)
Lemma run_never_winAnim inputs rnd :
  currentScreen (run inputs (setup rnd boot)) <> 3.
Proof.
  assert (H : forall (s : State), currentScreen s <> 3 ->
                                  currentScreen (run inputs s) <> 3).
  { induction inputs as [ | i inputs IH]; intros s Hs; [exact Hs | ].
    rewrite run_cons. apply IH.
    destruct (loop_stage i s) as (_ & [E | [E | [E | [E | E]]]]); rewrite E;
      [exact Hs | discriminate ..]. }
  apply H. rewrite setup_game. discriminate.
Qed.

(** C1 (the code departs from it).  Level 1 is entered with the target at
    the position of the potentiometer, and the reading is accepted with band
    5.  The win window is opened for 5000 ms, but the screen is still the
    game screen (2), not the win animation screen (3), both right after the
    win and one second later, inside the win window. *)
Theorem win_leaves_game_screen :
  let s := run winOnEntry (setup 300 boot) in
  let later := run [mkInput 1000 HIGH 512 512] s in
  bandOf 512 s = 5 /\
  lcdLine1 s = "Correct! YAY YAY YAYYY Unlocked" /\
  winAnimActive s = true /\ winAnimEnd s = uadd (millis s) WIN_DISPLAY_MS /\
  currentScreen s = 2 /\
  winAnimActive later = true /\ millis later < winAnimEnd later /\
  currentScreen later = 2.
Proof.
  intros s later. repeat split; vm_compute; reflexivity.
Qed.

(** With the screen still the game screen, the timer of the round keeps
    running inside the win window: level 2 is won 19 s into the round, and
    one second later the round is lost on time, "Time up!" is printed and the
    welcome screen comes back while the win window is still open. *)
Lemma time_up_inside_win_window :
  let won := run winLevel2Late (setup 300 boot) in
  let later := run [mkInput 1000 HIGH 300 300] won in
  (selectedLevel won = 2 /\ lcdLine1 won = "Correct! YAY YAY YAYYY Unlocked" /\
   winAnimActive won = true /\ currentScreen won = 2) /\
  (winAnimActive later = true /\ millis later < winAnimEnd later /\
   currentScreen later = 0 /\
   firstn 2 (lcdFrames later) =
     [("Play PotMatch :)", "Press to select"); ("Time up!", "Returning...")]).
Proof.
  intros won later. repeat split; vm_compute; reflexivity.
Qed.

(** ** Level entry and the stable reading *)

(** [startLevel] clears [potStable] and leaves [potChangedAt] alone; when
    the potentiometer has been quiet for 500 ms, the next [updatePot]
    accepts its old position at once. *)
Lemma updatePot_after_startLevel L rnd raw (s : State) :
  Z.abs (raw - lastPotRaw s) <= 3 ->
  POT_STABLE_MS <= usub (millis s) (potChangedAt s) ->
  updatePot raw (startLevel L rnd s) =
    acceptStablePot (lastPotRaw s)
      (set_lastActivity (millis s)
         (set_stableValue (lastPotRaw s) (set_potStable true (startLevel L rnd s)))).
Proof.
  intros Hq Hs. unfold updatePot, millis in *. cbv zeta. state_simpl.
  rewrite (proj2 (Z.ltb_ge _ _) Hq). state_simpl.
  rewrite (proj2 (Z.leb_le _ _) Hs). cbn [negb andb]. state_simpl.
  reflexivity.
Qed.

(** C2 (the code departs from it).  The potentiometer rests at 512 from the
    first poll on.  When the long press enters level 1, the reading has been
    stable for more than 500 ms; [startLevel] clears [potStable], and the
    [updatePot] of the same iteration accepts 512 again, 0 ms after the
    level was entered and with no change of the reading.  On level 4 the
    same reading costs the first of the five tries. *)
Theorem level_entry_accepts_stale_reading :
  let s := atPoll 21 (run (hold 512 300) (setup 300 boot)) in
  let entered := handleButton HIGH 300 s in
  let polled := updatePot 512 entered in
  let entered4 := startLevel 4 300 s in
  (potStable s = true /\ stableValue s = 512 /\ lastPotRaw s = 512 /\
   POT_STABLE_MS <= usub (millis s) (potChangedAt s)) /\
  (currentScreen entered = 2 /\ potStable entered = false /\
   potChangedAt entered = potChangedAt s /\
   lcdLine0 entered = "Level 1" /\ lcdLine1 entered = "Find the value") /\
  (potStable polled = true /\ stableValue polled = 512 /\
   millis polled = levelStartedAt polled /\
   lcdLine1 polled = "Close!!!! D:212" /\
   leds polled = [false; false; false; true; false; false]) /\
  (triesLeft entered4 = 5 /\ triesLeft (updatePot 512 entered4) = 4).
Proof.
  intros s entered polled entered4.
  repeat split; vm_compute; solve [reflexivity | discriminate].
Qed.

(** * Further properties of the sketch *)

(** ** Closeness bands, continued *)

(** X1.  Coming closer to the target never lowers the band, and neither does
    a wider win window: [diffToState] is antitone in the difference and
    monotone in the window (for differences that are not negative).  The band
    of a reading only depends on its distance to the target, not on the
    side. *)
Theorem diffToState_monotone :
  (forall d1 d2 w, d1 <= d2 -> 0 <= w -> diffToState d2 w <= diffToState d1 w) /\
  (forall d w1 w2, 0 <= d -> w1 <= w2 -> diffToState d w1 <= diffToState d w2) /\
  (forall d (s : State),
     bandOf (roundTarget s + d) s = bandOf (roundTarget s - d) s).
Proof.
  split; [ | split].
  - intros d1 d2 w Hd Hw. unfold diffToState.
    repeat match goal with
           | |- context [?a <=? ?b] => destruct (Z.leb_spec a b)
           end; lia.
  - intros d w1 w2 Hd Hw. unfold diffToState.
    repeat match goal with
           | |- context [?a <=? ?b] => destruct (Z.leb_spec a b)
           end; lia.
  - intros d s. unfold bandOf.
    replace (roundTarget s + d - roundTarget s) with d by lia.
    replace (roundTarget s - d - roundTarget s) with (- d) by lia.
    rewrite Z.abs_opp. reflexivity.
Qed.

Lemma diffToState_monotone_witness :
  3 <= 40 /\ 0 <= 16 /\ diffToState 40 16 <= diffToState 3 16 /\
  diffToState 40 16 <= diffToState 40 60.
Proof.
  destruct diffToState_monotone as (Hd & Hw & _).
  assert (H1 : 3 <= 40) by lia. assert (H2 : 0 <= 16) by lia.
  split; [exact H1 | ]. split; [exact H2 | ].
  split; [apply Hd; assumption | apply Hw; lia].
Defined.
(** ** The display cache *)

Lemma setLEDsForState_lcdLine0 st s : lcdLine0 (setLEDsForState st s) = lcdLine0 s.
Proof. apply (setLEDsForState_frame st s). Qed.
Lemma setLEDsForState_lcdLine1 st s : lcdLine1 (setLEDsForState st s) = lcdLine1 s.
Proof. apply (setLEDsForState_frame st s). Qed.
Lemma setLEDsForState_lcdFrames st s : lcdFrames (setLEDsForState st s) = lcdFrames s.
Proof. apply (setLEDsForState_frame st s). Qed.

Lemma triggerLoseTone_lcdLine0 st s : lcdLine0 (triggerLoseTone st s) = lcdLine0 s.
Proof.
  destruct (triggerLoseTone_is_startToneNB st s) as (f & d & ->). apply startToneNB_lcdLine0.
Qed.
Lemma triggerLoseTone_lcdLine1 st s : lcdLine1 (triggerLoseTone st s) = lcdLine1 s.
Proof.
  destruct (triggerLoseTone_is_startToneNB st s) as (f & d & ->). apply startToneNB_lcdLine1.
Qed.
Lemma triggerLoseTone_lcdFrames st s : lcdFrames (triggerLoseTone st s) = lcdFrames s.
Proof.
  destruct (triggerLoseTone_is_startToneNB st s) as (f & d & ->). apply startToneNB_lcdFrames.
Qed.

Create Rewrite HintDb lcdframe.

#[global] Hint Rewrite
  setLEDsForState_lcdLine0 setLEDsForState_lcdLine1 setLEDsForState_lcdFrames
  triggerLoseTone_lcdLine0 triggerLoseTone_lcdLine1 triggerLoseTone_lcdFrames
  : lcdframe.

Lemma lcdOk_same (s s' : State) :
  lcdLine0 s' = lcdLine0 s -> lcdLine1 s' = lcdLine1 s -> lcdFrames s' = lcdFrames s ->
  lcdOk s -> lcdOk s'.
Proof. unfold lcdOk. intros -> -> ->. auto. Qed.

Lemma lcdOk_print l0 l1 (s : State) : lcdOk s -> lcdOk (lcdPrintIfChanged l0 l1 s).
Proof.
  unfold lcdOk, lcdOkP, lcdPrintIfChanged. intros (Hc & Hn).
  destruct (String.eqb_spec l0 (lcdLine0 s)) as [E0 | E0];
    destruct (String.eqb_spec l1 (lcdLine1 s)) as [E1 | E1];
    cbn [negb orb]; [auto | | | ]; state_cbn;
    (split; [reflexivity | ]);
    (destruct (lcdFrames s) as [ | f fs]; [exact I | ]);
    (split; [ | exact Hn]); rewrite Hc; congruence.
Qed.

(** Peel one assignment or LED or tone helper off the state of the goal. *)
Ltac lcd_peel :=
  match goal with
  | |- lcdOk (?g ?x) =>
      lazymatch type of x with State => idtac end;
      apply (lcdOk_same x (g x));
      [ solve [state_cbn; autorewrite with frame lcdframe; state_cbn; reflexivity] ..
      | ]
  end.

(** Split on the test that decides the state of the goal. *)
Ltac lcd_if :=
  match goal with
  | |- lcdOk (if ?c then _ else _) => destruct c eqn:?
  | |- lcdOk (match ?c with _ => _ end) => destruct c eqn:?
  end.

(** The steps that need no search: the hypothesis itself, and a print. *)
Ltac lcd_base :=
  match goal with
  | H : lcdOk ?s |- lcdOk ?s => exact H
  | |- lcdOk (lcdPrintIfChanged _ _ _) => apply lcdOk_print
  end.

Ltac lcd_ok := repeat first [ lcd_base | lcd_if | lcd_peel ].

Lemma lcdOk_stopToWelcome (s : State) : lcdOk s -> lcdOk (stopToWelcome s).
Proof. intros H. unfold stopToWelcome, millis. cbv zeta. lcd_ok. Qed.

Lemma lcdOk_wakeFromSleep (s : State) : lcdOk s -> lcdOk (wakeFromSleep s).
Proof. intros H. unfold wakeFromSleep, millis. cbv zeta. lcd_ok. Qed.

Lemma lcdOk_startLevel L rnd (s : State) : lcdOk s -> lcdOk (startLevel L rnd s).
Proof. intros H. unfold startLevel, pickNewTarget, millis. cbv zeta. lcd_ok. Qed.

Ltac lcd_call :=
  match goal with
  | |- lcdOk (stopToWelcome _) => apply lcdOk_stopToWelcome
  | |- lcdOk (wakeFromSleep _) => apply lcdOk_wakeFromSleep
  | |- lcdOk (startLevel _ _ _) => apply lcdOk_startLevel
  end.

Ltac lcd_calls := repeat first [ lcd_base | lcd_call | lcd_if | lcd_peel ].

Lemma lcdOk_acceptStablePot value (s : State) : lcdOk s -> lcdOk (acceptStablePot value s).
Proof. intros H. unfold acceptStablePot, delay, millis. cbv zeta. lcd_calls. Qed.

Lemma lcdOk_updatePot raw (s : State) : lcdOk s -> lcdOk (updatePot raw s).
Proof.
  intros H. unfold updatePot, millis. cbv zeta.
  repeat first [ lcd_base | apply lcdOk_acceptStablePot | lcd_if | lcd_peel ].
Qed.

Lemma lcdOk_checkToneNB (s : State) : lcdOk s -> lcdOk (checkToneNB s).
Proof. intros H. unfold checkToneNB, millis. cbv zeta. lcd_calls. Qed.

Lemma lcdOk_checkMelody (s : State) : lcdOk s -> lcdOk (checkMelody s).
Proof. intros H. unfold checkMelody, millis. cbv zeta. lcd_calls. Qed.

Lemma lcdOk_idleCheck (s : State) : lcdOk s -> lcdOk (idleCheck s).
Proof. intros H. unfold idleCheck, goToSleep, millis. cbv zeta. lcd_calls. Qed.

Lemma lcdOk_loop_timer now (s : State) : lcdOk s -> lcdOk (loop_timer now s).
Proof. intros H. unfold loop_timer, delay, millis. cbv zeta. lcd_calls. Qed.

Lemma lcdOk_loop_winCheck (s : State) : lcdOk s -> lcdOk (loop_winCheck s).
Proof. intros H. unfold loop_winCheck, millis. cbv zeta. lcd_calls. Qed.

Lemma lcdOk_handleButton_window now (s : State) :
  lcdOk s -> lcdOk (handleButton_window now s).
Proof. intros H. unfold handleButton_window. cbv zeta. lcd_calls. Qed.

Lemma lcdOk_handleButton_edges now r rnd (s : State) :
  lcdOk s -> lcdOk (fst (handleButton_edges now r rnd s)).
Proof.
  intros H. unfold handleButton_edges. cbv zeta.
  repeat split_if; cbn [fst]; lcd_calls.
Qed.

Lemma lcdOk_handleButton r rnd (s : State) : lcdOk s -> lcdOk (handleButton r rnd s).
Proof.
  intros H. rewrite handleButton_unfold.
  destruct (snd (handleButton_edges (millis s) r rnd s)).
  - apply lcdOk_handleButton_edges, H.
  - apply lcdOk_handleButton_window, lcdOk_handleButton_edges, H.
Qed.

Lemma lcdOk_loop i (s : State) : lcdOk s -> lcdOk (loop i s).
Proof.
  intros H. rewrite loop_unfold.
  apply lcdOk_loop_winCheck, lcdOk_loop_timer, lcdOk_idleCheck, lcdOk_checkMelody,
    lcdOk_checkToneNB, lcdOk_updatePot, lcdOk_handleButton.
  unfold atPoll. lcd_peel. exact H.
Qed.

Lemma lcdOk_setup rnd : lcdOk (setup rnd boot).
Proof.
  unfold setup, pickNewTarget, millis. cbv zeta.
  assert (H : lcdOk boot) by (split; [split; reflexivity | exact I]).
  lcd_calls.
Qed.

(** X2.  The display cache does its job throughout: in every run from
    power-on the two cached lines are the latest redraw sent to the LCD, and
    no redraw repeats the one before it.  Printing the same two lines twice
    redraws at most once, and printing what the cache holds redraws nothing. *)
Theorem lcd_never_redrawn_with_same_content :
  (forall inputs rnd,
     let s := run inputs (setup rnd boot) in
     noRepeat (lcdFrames s) /\
     match lcdFrames s with
     | [] => lcdLine0 s = "" /\ lcdLine1 s = ""
     | f :: _ => f = (lcdLine0 s, lcdLine1 s)
     end) /\
  (forall l0 l1 (s : State),
     lcdPrintIfChanged l0 l1 (lcdPrintIfChanged l0 l1 s) = lcdPrintIfChanged l0 l1 s) /\
  (forall (s : State), lcdPrintIfChanged (lcdLine0 s) (lcdLine1 s) s = s).
Proof.
  split; [ | split].
  - intros inputs rnd.
    assert (H : forall (s : State), lcdOk s -> lcdOk (run inputs s)).
    { induction inputs as [ | i inputs IH]; intros s Hs; [exact Hs | ].
      rewrite run_cons. apply IH, lcdOk_loop, Hs. }
    destruct (H (setup rnd boot) (lcdOk_setup rnd)) as (Hc & Hn).
    cbv zeta. split; assumption.
  - intros l0 l1 s.
    destruct (lcdPrintIfChanged_lines l0 l1 s) as (E0 & E1).
    unfold lcdPrintIfChanged at 1. rewrite E0, E1, !String.eqb_refl. reflexivity.
  - intros s. unfold lcdPrintIfChanged. rewrite !String.eqb_refl. reflexivity.
Qed.

(** ** Stable readings of the potentiometer *)







(** ** The tone player *)

Lemma startToneNB_on f d (s : State) :
  0 < f ->
  startToneNB f d s = set_toneEndAt (uadd (millis s) d) (set_toneOnFreq f (tone f s)).
Proof.
  intros Hf. unfold startToneNB. rewrite (proj2 (Z.leb_gt _ _) Hf). reflexivity.
Qed.

(** X4.  A tone started with a positive frequency sounds until its end time
    and is then silenced once: [checkToneNB] leaves it alone at every clock
    value below the end time, and at every clock value from the end time on
    it silences the buzzer and clears the tone variables, after which it does
    nothing more.  Starting another tone while one sounds simply replaces it
    (nothing is queued), and a frequency that is not positive starts
    nothing. *)
Theorem tone_sounds_until_its_end_time (f d : Z) (s : State) :
  0 < f -> uadd (millis s) d <> 0 ->
  let s1 := startToneNB f d s in
  (buzzer s1 = f /\ toneOnFreq s1 = f /\ toneEndAt s1 = uadd (millis s) d) /\
  (forall t, t < toneEndAt s1 -> checkToneNB (set_clock t s1) = set_clock t s1) /\
  (forall t, toneEndAt s1 <= t ->
     let s2 := checkToneNB (set_clock t s1) in
     buzzer s2 = 0 /\ toneOnFreq s2 = 0 /\ toneEndAt s2 = 0 /\ checkToneNB s2 = s2) /\
  (forall f2 d2, 0 < f2 -> startToneNB f2 d2 s1 = startToneNB f2 d2 s) /\
  (forall f2 d2, f2 <= 0 -> startToneNB f2 d2 s1 = s1).
Proof.
  intros Hf He s1. subst s1. rewrite (startToneNB_on f d s Hf). state_cbn.
  split; [auto | ].
  split; [ | split; [ | split]].
  - intros t Ht. unfold checkToneNB, millis in *. state_cbn.
    rewrite (proj2 (Z.leb_gt _ _) Ht), andb_false_r. reflexivity.
  - intros t Ht. unfold checkToneNB, millis in *. state_cbn.
    rewrite (proj2 (Z.leb_le _ _) Ht), (proj2 (Z.eqb_neq _ _) He).
    cbn [negb andb]. state_cbn. repeat split; reflexivity.
  - intros f2 d2 Hf2. rewrite !startToneNB_on by assumption.
    unfold millis. state_cbn. reflexivity.
  - intros f2 d2 Hf2. unfold startToneNB at 1.
    rewrite (proj2 (Z.leb_le _ _) Hf2). reflexivity.
Qed.

Lemma tone_sounds_until_its_end_time_witness :
  let s := atPoll 1000 (setup 300 boot) in
  0 < 160 /\ uadd (millis s) 250 <> 0 /\
  buzzer (startToneNB 160 250 s) = 160 /\
  buzzer (checkToneNB (set_clock 1249 (startToneNB 160 250 s))) = 160 /\
  buzzer (checkToneNB (set_clock 1250 (startToneNB 160 250 s))) = 0.
Proof.
  intros s.
  assert (Hf : 0 < 160) by lia.
  assert (He : uadd (millis s) 250 <> 0) by (vm_compute; discriminate).
  destruct (tone_sounds_until_its_end_time 160 250 s Hf He) as ((Hb & _) & Hk & Hs & _).
  split; [exact Hf | ]. split; [exact He | ]. split; [exact Hb | ]. split.
  - rewrite Hk by (vm_compute; reflexivity). vm_compute. reflexivity.
  - apply (Hs 1250). vm_compute. discriminate.
Defined.

(** X5.  The end time 0 doubles as "no tone".  A tone whose end time
    [millis() + dur] wraps to exactly 0 is therefore never silenced by
    [checkToneNB], at any clock value: it sounds until another tone replaces
    it or the win block calls [noTone]. *)
Theorem tone_with_end_time_zero_is_never_stopped (f d : Z) (s : State) :
  0 < f -> uadd (millis s) d = 0 ->
  forall t,
    checkToneNB (set_clock t (startToneNB f d s)) = set_clock t (startToneNB f d s) /\
    buzzer (checkToneNB (set_clock t (startToneNB f d s))) = f.
Proof.
  intros Hf He t. rewrite (startToneNB_on f d s Hf).
  unfold checkToneNB, millis in *. state_cbn. rewrite He. cbn [Z.eqb negb andb].
  state_cbn. split; reflexivity.
Qed.

Lemma tone_with_end_time_zero_is_never_stopped_witness :
  let s := set_clock (ULONG - 250) (setup 300 boot) in
  0 < 160 /\ uadd (millis s) 250 = 0 /\
  buzzer (checkToneNB (set_clock 5000 (startToneNB 160 250 s))) = 160.
Proof.
  intros s.
  assert (Hf : 0 < 160) by lia.
  assert (He : uadd (millis s) 250 = 0) by (vm_compute; reflexivity).
  split; [exact Hf | ]. split; [exact He | ].
  apply (tone_with_end_time_zero_is_never_stopped 160 250 s Hf He 5000).
Defined.

(** ** The win melody *)



(** ** Values the variables stay within *)

(** Turn the tests a case split recorded into inequalities. *)
Ltac tests_to_props :=
  repeat match goal with
    | H : (_ && _) = true |- _ => apply andb_prop in H; destruct H
    | H : (_ || _) = false |- _ => apply orb_false_elim in H; destruct H
    | H : (_ <=? _) = true |- _ => apply Z.leb_le in H
    | H : (_ <=? _) = false |- _ => apply Z.leb_gt in H
    | H : (_ <? _) = true |- _ => apply Z.ltb_lt in H
    | H : (_ <? _) = false |- _ => apply Z.ltb_ge in H
    | H : (_ =? _) = true |- _ => apply Z.eqb_eq in H
    | H : (_ =? _) = false |- _ => apply Z.eqb_neq in H
    | H : negb _ = true |- _ => apply negb_true_iff in H
    | H : negb _ = false |- _ => apply negb_false_iff in H
    end.

Lemma constrain_level L :
  1 <= constrain L 1 5 <= 5 /\
  3 <= (if 0 <? triesAllowed (lvl (constrain L 1 5))
        then triesAllowed (lvl (constrain L 1 5)) else 9999).
Proof.
  unfold constrain.
  destruct (Z.ltb_spec L 1); [cbn; lia | ].
  destruct (Z.gtb_spec L 5); [cbn; lia | ].
  assert (L = 1 \/ L = 2 \/ L = 3 \/ L = 4 \/ L = 5) as Hl by lia.
  destruct Hl as [-> | [-> | [-> | [-> | ->]]]]; cbn; lia.
Qed.

Lemma gameSane_stopToWelcome (s : State) : gameSane s -> gameSane (stopToWelcome s).
Proof.
  unfold gameSane. rewrite stopToWelcome_game.
  cbn [selectedLevel unlockedLevel currentScreen triesLeft]. intuition discriminate.
Qed.

Lemma gameSane_wakeFromSleep (s : State) : gameSane s -> gameSane (wakeFromSleep s).
Proof.
  unfold gameSane. rewrite wakeFromSleep_game.
  cbn [selectedLevel unlockedLevel currentScreen triesLeft]. intuition discriminate.
Qed.

Lemma gameSane_startLevel L rnd (s : State) : gameSane s -> gameSane (startLevel L rnd s).
Proof.
  unfold gameSane. rewrite startLevel_game.
  cbn [selectedLevel unlockedLevel currentScreen triesLeft].
  destruct (constrain_level L) as (Hc & Ht). intuition lia.
Qed.

Lemma gameSane_same (s s' : State) : game s' = game s -> gameSane s -> gameSane s'.
Proof. unfold gameSane. intros ->. auto. Qed.

Lemma gameSane_lastActivity v (s : State) : gameSane s -> gameSane (set_lastActivity v s).
Proof. unfold gameSane. state_cbn. auto. Qed.

Lemma gameSane_acceptStablePot value (s : State) :
  gameSane s -> currentScreen s = 2 -> gameSane (acceptStablePot value s).
Proof.
  unfold gameSane. rewrite acceptStablePot_game. intros H Hscr.
  repeat split_if; tests_to_props;
    cbn [selectedLevel unlockedLevel currentScreen triesLeft]; intuition lia.
Qed.

Lemma gameSane_updatePot raw (s : State) : gameSane s -> gameSane (updatePot raw s).
Proof.
  intros H. unfold updatePot, millis. cbv zeta.
  assert (Hj : gameSane (if 3 <? Z.abs (raw - lastPotRaw s)
                         then set_lastPotRaw raw
                                (set_potStable false (set_potChangedAt (clock s) s))
                         else s)).
  { destruct (3 <? Z.abs (raw - lastPotRaw s)); [ | exact H].
    apply (gameSane_same s); [reflexivity | exact H]. }
  set (j := if 3 <? Z.abs (raw - lastPotRaw s) then _ else s) in *. clearbody j.
  destruct (negb (potStable j) && (POT_STABLE_MS <=? usub (clock s) (potChangedAt j)));
    [ | exact Hj].
  set (a := set_lastActivity (clock s) _).
  assert (Ha : gameSane a).
  { subst a. apply gameSane_lastActivity.
    apply (gameSane_same j); [reflexivity | exact Hj]. }
  clearbody a.
  destruct (Z.eqb_spec (currentScreen a) 2) as [E | E]; [ | exact Ha].
  apply gameSane_acceptStablePot; assumption.
Qed.

Lemma gameSane_handleButton_window now (s : State) :
  gameSane s -> gameSane (handleButton_window now s).
Proof.
  intros H. destruct (windowExpired now s) eqn:We.
  - destruct (handleButton_window_fires now s We) as (G & _).
    unfold gameSane in *. rewrite G.
    cbn [selectedLevel unlockedLevel currentScreen triesLeft]. intuition lia.
  - rewrite (handleButton_window_idle now s We). exact H.
Qed.

Lemma gameSane_handleButton_edges now r rnd (s : State) :
  gameSane s -> gameSane (fst (handleButton_edges now r rnd s)).
Proof.
  intros H. unfold handleButton_edges. cbv zeta.
  repeat split_if; cbn [fst];
    repeat first
      [ exact H
      | apply gameSane_startLevel | apply gameSane_stopToWelcome
      | apply gameSane_wakeFromSleep
      | match goal with
        | |- gameSane (?g ?x) =>
            lazymatch type of x with State => idtac end;
            apply (gameSane_same x (g x));
            [ solve [state_simpl; reflexivity] | ]
        end ].
Qed.

Lemma gameSane_handleButton r rnd (s : State) : gameSane s -> gameSane (handleButton r rnd s).
Proof.
  intros H. rewrite handleButton_unfold.
  destruct (snd (handleButton_edges (millis s) r rnd s)).
  - apply gameSane_handleButton_edges, H.
  - apply gameSane_handleButton_window, gameSane_handleButton_edges, H.
Qed.

Lemma gameSane_idleCheck (s : State) : gameSane s -> gameSane (idleCheck s).
Proof.
  intros H. unfold idleCheck, goToSleep. cbv zeta.
  split_if; [ | exact H].
  unfold gameSane in *. state_cbn. intuition discriminate.
Qed.

Lemma gameSane_loop_timer now (s : State) : gameSane s -> gameSane (loop_timer now s).
Proof.
  intros H. unfold loop_timer, delay. cbv zeta.
  destruct (currentScreen s =? 2); [ | exact H].
  split_if.
  - apply gameSane_stopToWelcome.
    apply (gameSane_same s); [state_simpl; reflexivity | exact H].
  - apply (gameSane_same s); [state_simpl; reflexivity | exact H].
Qed.

Lemma gameSane_loop_winCheck (s : State) : gameSane s -> gameSane (loop_winCheck s).
Proof.
  unfold gameSane. rewrite loop_winCheck_game. intros H.
  repeat split_if; tests_to_props;
    cbn [selectedLevel unlockedLevel currentScreen triesLeft]; intuition lia.
Qed.

Lemma gameSane_loop i (s : State) : gameSane s -> gameSane (loop i s).
Proof.
  intros H. rewrite loop_unfold.
  apply gameSane_loop_winCheck, gameSane_loop_timer, gameSane_idleCheck.
  apply (gameSane_same _ _ (proj1 (checkMelody_stage _))).
  apply (gameSane_same _ _ (proj1 (checkToneNB_stage _))).
  apply gameSane_updatePot, gameSane_handleButton.
  apply (gameSane_same s); [apply atPoll_frame | exact H].
Qed.

Lemma gameSane_run inputs rnd : gameSane (run inputs (setup rnd boot)).
Proof.
  assert (H : forall (s : State), gameSane s -> gameSane (run inputs s)).
  { induction inputs as [ | i inputs IH]; intros s Hs; [exact Hs | ].
    rewrite run_cons. apply IH, gameSane_loop, Hs. }
  apply H. unfold gameSane. rewrite setup_game.
  cbn [selectedLevel unlockedLevel currentScreen triesLeft]. intuition (lia || discriminate).
Qed.

(** X7.  From power-on, whatever the inputs, the selected level and the
    unlocked level stay within 1..5, so that every read of [lvl] is inside
    the table and on one of the five configured levels, and the screen is one
    of welcome, level-select, in-game and sleep. *)
Theorem levels_and_screen_stay_in_range inputs rnd :
  let s := run inputs (setup rnd boot) in
  1 <= selectedLevel s <= 5 /\ 1 <= unlockedLevel s <= 5 /\
  In (currentScreen s) [0; 1; 2; 4] /\
  In (lvl (selectedLevel s))
     [mkLevel 0 60 0; mkLevel 20000 42 0; mkLevel 15000 36 0; mkLevel 15000 16 5;
      mkLevel 13000 16 3].
Proof.
  destruct (gameSane_run inputs rnd) as (Hs & Hu & Hscr & _).
  cbv zeta. split; [exact Hs | ]. split; [exact Hu | ]. split.
  - cbn [In]. intuition.
  - set (L := selectedLevel _) in *.
    assert (L = 1 \/ L = 2 \/ L = 3 \/ L = 4 \/ L = 5) as Hl by lia.
    destruct Hl as [-> | [-> | [-> | [-> | ->]]]]; cbn; auto 6.
Qed.

(** X8.  From power-on, whatever the inputs, the try counter never goes
    below zero, and while the screen is the game screen at least one try is
    left: a round is over as soon as its last try is spent. *)
Theorem tries_never_negative inputs rnd :
  let s := run inputs (setup rnd boot) in
  0 <= triesLeft s /\ (currentScreen s = 2 -> 1 <= triesLeft s).
Proof.
  destruct (gameSane_run inputs rnd) as (_ & _ & _ & H0 & H1).
  cbv zeta. split; assumption.
Qed.

Lemma tries_never_negative_witness :
  let s := run enterLevel1 (setup 300 boot) in
  currentScreen s = 2 /\ 1 <= triesLeft s.
Proof.
  intros s.
  assert (Hs : currentScreen s = 2) by (vm_compute; reflexivity).
  destruct (tries_never_negative enterLevel1 300) as (_ & H).
  split; [exact Hs | exact (H Hs)].
Defined.

(** X9.  Progress is never lost: an iteration of [loop] leaves the unlocked
    level as it is or raises it by one, so over any run the unlocked level
    never decreases, and it rises by at most one per iteration. *)
Theorem unlocked_level_never_decreases :
  (forall i (s : State),
     unlockedLevel s <= unlockedLevel (loop i s) <= unlockedLevel s + 1) /\
  (forall inputs (s : State),
     unlockedLevel s <= unlockedLevel (run inputs s)
     <= unlockedLevel s + Z.of_nat (List.length inputs)).
Proof.
  assert (H1 : forall i (s : State),
             unlockedLevel s <= unlockedLevel (loop i s) <= unlockedLevel s + 1).
  { intros i s. destruct (loop_stage i s) as ([E | (E & _)] & _); lia. }
  split; [exact H1 | ].
  induction inputs as [ | i inputs IH]; intros s.
  - cbn [List.length Z.of_nat]. change (run [] s) with s. lia.
  - rewrite run_cons.
    specialize (IH (loop i s)). specialize (H1 i s).
    cbn [List.length]. lia.
Qed.

(** ** The button *)

Lemma edgeConfirmed_dec r (s : State) : {edgeConfirmed r s} + {~ edgeConfirmed r s}.
Proof.
  unfold edgeConfirmed.
  destruct (Z.eq_dec (btnLast s) r); [ | right; tauto].
  destruct (Z_lt_dec 20 (usub (millis s) (btnChangedAt s))); [ | right; tauto].
  destruct (Z.eq_dec r (btnState s)); [right; tauto | left; tauto].
Qed.

(** X10.  Debounce and hold threshold.  A call of [handleButton] that sees
    neither a confirmed press nor a confirmed release after at least 800 ms
    (so: a reading that differs from the one of the previous poll, or that
    has held for 20 ms or less, or that agrees with the debounced state, or
    a release after less than 800 ms) is only the click-window check, made
    on a state that differs from the given one in the debounce variables
    [btnState], [btnLast] and [btnChangedAt] at most.  Such a call never
    enters a level and never counts a click. *)
Theorem only_presses_and_long_releases_act (r rnd : Z) (s : State) :
  ~ pressConfirmed r s ->
  (releaseConfirmed r s -> pressDur s < LONG_PRESS_MS) ->
  exists m : State,
    handleButton r rnd s = handleButton_window (millis s) m /\
    game m = game s /\ pot m = pot s /\ snd_ m = snd_ s /\ hw m = hw s /\
    clickCount m = clickCount s /\ lastClickTime m = lastClickTime s /\
    btnDownAt m = btnDownAt s /\
    (currentScreen (handleButton r rnd s) = currentScreen s \/
     currentScreen (handleButton r rnd s) = 1) /\
    (clickCount (handleButton r rnd s) = clickCount s \/
     clickCount (handleButton r rnd s) = 0).
Proof.
  intros Hnp Hshort.
  assert (Hm : exists m : State,
             handleButton_edges (millis s) r rnd s = (m, false) /\
             game m = game s /\ pot m = pot s /\ snd_ m = snd_ s /\ hw m = hw s /\
             clickCount m = clickCount s /\ lastClickTime m = lastClickTime s /\
             btnDownAt m = btnDownAt s).
  { destruct (edgeConfirmed_dec r s) as [He | He].
    - assert (Hr : releaseConfirmed r s).
      { split; [exact He | ]. intros E. apply Hnp. split; assumption. }
      specialize (Hshort Hr). exists (set_btnState r s).
      rewrite (handleButton_edges_release r rnd s Hr). cbv zeta.
      rewrite (proj2 (Z.leb_gt _ _) Hshort). repeat split.
    - destruct (handleButton_edges_quiet r rnd s He)
        as (m & E & G & P & S & H & C & T & _ & D).
      exists m. repeat split; assumption. }
  destruct Hm as (m & E & G & P & S & H & C & T & D).
  exists m. rewrite handleButton_unfold, E. cbn [fst snd].
  repeat (split; [first [reflexivity | assumption] | ]).
  destruct (windowExpired (millis s) m) eqn:We.
  - destruct (handleButton_window_fires (millis s) m We) as (G' & B' & _).
    rewrite G', B'. cbn [currentScreen clickCount]. auto.
  - rewrite (handleButton_window_idle _ _ We), G, C. auto.
Qed.

Lemma only_presses_and_long_releases_act_witness :
  let s := atPoll 20 (run (hold 512 300) (setup 300 boot)) in
  let t := atPoll 21 (run [mkInput 10 LOW 512 300; mkInput 21 LOW 512 300;
                           mkInput 350 LOW 512 300; mkInput 328 LOW 512 300;
                           mkInput 100 HIGH 512 300] (setup 300 boot)) in
  (~ pressConfirmed HIGH s /\ ~ releaseConfirmed HIGH s /\
   currentScreen s = 1 /\ currentScreen (handleButton HIGH 300 s) = 1) /\
  (releaseConfirmed HIGH t /\ pressDur t = 799 /\
   currentScreen t = 1 /\ selectedLevel t <= unlockedLevel t /\
   currentScreen (handleButton HIGH 300 t) = 1).
Proof.
  intros s t.
  assert (Hs : ~ edgeConfirmed HIGH s).
  { intros (_ & H & _). vm_compute in H. discriminate. }
  assert (Hps : ~ pressConfirmed HIGH s) by (intros (H & _); exact (Hs H)).
  assert (Hrs : ~ releaseConfirmed HIGH s) by (intros (H & _); exact (Hs H)).
  assert (Hpt : ~ pressConfirmed HIGH t) by (intros (_ & H); discriminate).
  assert (Hrt : releaseConfirmed HIGH t) by (repeat split; vm_compute; congruence).
  assert (Hdt : pressDur t = 799) by (vm_compute; reflexivity).
  destruct (only_presses_and_long_releases_act HIGH 300 s Hps)
    as (m & _ & _ & _ & _ & _ & _ & _ & _ & Hscr & _); [intros H; contradiction | ].
  destruct (only_presses_and_long_releases_act HIGH 300 t Hpt)
    as (m' & _ & _ & _ & _ & _ & _ & _ & _ & Hscr' & _);
    [intros _; rewrite Hdt; vm_compute; reflexivity | ].
  assert (Ss : currentScreen s = 1) by (vm_compute; reflexivity).
  assert (St : currentScreen t = 1) by (vm_compute; reflexivity).
  split.
  - split; [exact Hps | ]. split; [exact Hrs | ]. split; [exact Ss | ].
    destruct Hscr as [H | H]; rewrite H; [exact Ss | reflexivity].
  - split; [exact Hrt | ]. split; [exact Hdt | ]. split; [exact St | ].
    split; [vm_compute; discriminate | ].
    destruct Hscr' as [H | H]; rewrite H; [exact St | reflexivity].
Defined.


(** [handleButton] at a confirmed press on the welcome or level-select
    screen. *)
Lemma handleButton_counts_press r rnd (s : State) :
  pressConfirmed r s -> currentScreen s = 0 \/ currentScreen s = 1 ->
  handleButton r rnd s =
    lcdPrintIfChanged "Selecting..." ("Clicks:" +++ String_of (clickCount s + 1))
      (set_lastClickTime (millis s)
         (set_clickCount (clickCount s + 1)
            (set_btnDownAt (millis s) (set_btnState r s)))).
Proof.
  intros Hp Hscr.
  rewrite handleButton_unfold, (handleButton_edges_press r rnd s Hp). cbv zeta.
  assert (E4 : (currentScreen s =? 4) = false) by (destruct Hscr as [-> | ->]; reflexivity).
  assert (E01 : (currentScreen s =? 0) || (currentScreen s =? 1) = true)
    by (destruct Hscr as [-> | ->]; reflexivity).
  rewrite E4, E01. cbn [fst snd].
  apply handleButton_window_idle.
  unfold windowExpired, millis. state_simpl. rewrite usub_diag.
  rewrite andb_false_r. reflexivity.
Qed.


(** X11.  Every confirmed press on the welcome or level-select screen is
    counted exactly once: the click count goes up by one, the click window
    restarts at the time of the press, the count is not resolved in the same
    call, the screen and the selected level stay, and the LCD shows the new
    count. *)
Theorem press_is_counted_once (r rnd : Z) (s : State) :
  pressConfirmed r s -> currentScreen s = 0 \/ currentScreen s = 1 ->
  let s' := handleButton r rnd s in
  clickCount s' = clickCount s + 1 /\
  lastClickTime s' = millis s /\ btnDownAt s' = millis s /\ btnState s' = LOW /\
  game s' = game s /\
  lcdLine0 s' = "Selecting..." /\
  lcdLine1 s' = "Clicks:" +++ String_of (clickCount s + 1).
Proof.
  intros Hp Hscr s'. subst s'. rewrite (handleButton_counts_press r rnd s Hp Hscr).
  destruct Hp as (_ & Hlow).
  state_simpl. repeat split; try reflexivity; try exact Hlow;
    apply lcdPrintIfChanged_lines.
Qed.

Lemma press_is_counted_once_witness :
  let s := atPoll 21 (run (clicks 2 512 300 ++ [mkInput 10 LOW 512 300])
                        (setup 300 boot)) in
  pressConfirmed LOW s /\ currentScreen s = 0 /\ clickCount s = 2 /\
  clickCount (handleButton LOW 300 s) = 3 /\
  lcdLine1 (handleButton LOW 300 s) = "Clicks:3".
Proof.
  intros s.
  assert (Hp : pressConfirmed LOW s) by (repeat split; vm_compute; congruence).
  assert (Hs : currentScreen s = 0) by (vm_compute; reflexivity).
  assert (Hc : clickCount s = 2) by (vm_compute; reflexivity).
  destruct (press_is_counted_once LOW 300 s Hp (or_introl Hs))
    as (C & _ & _ & _ & _ & _ & L).
  split; [exact Hp | ]. split; [exact Hs | ]. split; [exact Hc | ].
  split; [rewrite C, Hc; reflexivity | rewrite L, Hc; reflexivity].
Defined.

(** On the game screen no branch of the first half of [handleButton] acts,
    and the call goes on to the click-window check. *)
Lemma handleButton_edges_inGame (r rnd : Z) (s : State) :
  currentScreen s = 2 ->
  exists m : State,
    handleButton_edges (millis s) r rnd s = (m, false) /\
    game m = game s /\ pot m = pot s /\ snd_ m = snd_ s /\ hw m = hw s /\
    clickCount m = clickCount s /\ lastClickTime m = lastClickTime s.
Proof.
  intros Hscr. destruct (edgeConfirmed_dec r s) as [He | He].
  - destruct (Z.eq_dec r LOW) as [El | El].
    + rewrite (handleButton_edges_press r rnd s (conj He El)). cbv zeta.
      rewrite Hscr. cbn [Z.eqb orb Pos.eqb].
      eexists; split; [reflexivity | ]. repeat split.
    + rewrite (handleButton_edges_release r rnd s (conj He El)). cbv zeta.
      rewrite Hscr. cbn [Z.eqb Pos.eqb].
      destruct (LONG_PRESS_MS <=? pressDur s);
        (eexists; split; [reflexivity | ]; repeat split).
  - destruct (handleButton_edges_quiet r rnd s He)
      as (m & E & G & P & S & H & C & T & _).
    exists m. repeat split; assumption.
Qed.

Lemma handleButton_inGame_game (r rnd : Z) (s : State) :
  currentScreen s = 2 -> game (handleButton r rnd s) = game s.
Proof.
  intros Hscr. rewrite handleButton_unfold.
  destruct (handleButton_edges_inGame r rnd s Hscr) as (m & E & G & _).
  rewrite E. cbn [fst snd].
  rewrite handleButton_window_idle; [exact G | ].
  unfold windowExpired. rewrite G, Hscr. reflexivity.
Qed.

(** X12.  The button does nothing during a round: on the game screen a call
    of [handleButton] changes the debounce variables and the time of the
    last press at most.  The round, the click count, the sound and
    everything shown stay as they are, whatever the reading of the pin: a
    round cannot be left or restarted with the button. *)
Theorem button_does_nothing_during_a_round (r rnd : Z) (s : State) :
  currentScreen s = 2 ->
  let s' := handleButton r rnd s in
  game s' = game s /\ pot s' = pot s /\ snd_ s' = snd_ s /\ hw s' = hw s /\
  clickCount s' = clickCount s /\ lastClickTime s' = lastClickTime s.
Proof.
  intros Hscr s'. subst s'. rewrite handleButton_unfold.
  destruct (handleButton_edges_inGame r rnd s Hscr) as (m & E & G & P & S & H & C & T).
  rewrite E. cbn [fst snd].
  rewrite handleButton_window_idle; [repeat split; assumption | ].
  unfold windowExpired. rewrite G, Hscr. reflexivity.
Qed.

Lemma button_does_nothing_during_a_round_witness :
  let s := atPoll 900 (run (enterLevel1 ++ [mkInput 10 LOW 512 300; mkInput 21 LOW 512 300;
                                             mkInput 10 HIGH 512 300]) (setup 300 boot)) in
  currentScreen s = 2 /\ releaseConfirmed HIGH s /\ LONG_PRESS_MS <= pressDur s /\
  game (handleButton HIGH 300 s) = game s.
Proof.
  intros s.
  assert (Hs : currentScreen s = 2) by (vm_compute; reflexivity).
  destruct (button_does_nothing_during_a_round HIGH 300 s Hs) as (G & _).
  split; [exact Hs | ]. split; [repeat split; vm_compute; congruence | ].
  split; [vm_compute; discriminate | exact G].
Defined.



(** ** Sleep *)

Lemma checkToneNB_lcd (s : State) :
  lcdOn (checkToneNB s) = lcdOn s /\ lcdFrames (checkToneNB s) = lcdFrames s.
Proof. unfold checkToneNB. split_if; state_simpl; auto. Qed.

Lemma checkMelody_lcd (s : State) :
  lcdOn (checkMelody s) = lcdOn s /\ lcdFrames (checkMelody s) = lcdFrames s /\
  winAnimActive (checkMelody s) = winAnimActive s.
Proof.
  unfold checkMelody, millis. cbv zeta.
  repeat split_if; state_simpl; auto.
Qed.

Lemma updatePot_not_inGame_hw raw (s : State) :
  currentScreen s <> 2 -> hw (updatePot raw s) = hw s.
Proof.
  intros Hs. apply Z.eqb_neq in Hs. unfold updatePot, millis. cbv zeta.
  destruct (3 <? Z.abs (raw - lastPotRaw s)); state_simpl;
    (split_if; state_simpl; [rewrite Hs | ]; reflexivity).
Qed.

(** [handleButton] in the sleep state without a confirmed press. *)
Lemma handleButton_asleep r rnd (s : State) :
  currentScreen s = 4 -> ~ pressConfirmed r s ->
  game (handleButton r rnd s) = game s /\ snd_ (handleButton r rnd s) = snd_ s /\
  hw (handleButton r rnd s) = hw s.
Proof.
  intros Hscr Hnp. rewrite handleButton_unfold.
  assert (Hm : exists m : State,
             handleButton_edges (millis s) r rnd s = (m, false) /\
             game m = game s /\ snd_ m = snd_ s /\ hw m = hw s).
  { destruct (edgeConfirmed_dec r s) as [He | He].
    - assert (Hr : releaseConfirmed r s).
      { split; [exact He | ]. intros E. apply Hnp. split; assumption. }
      rewrite (handleButton_edges_release r rnd s Hr). cbv zeta.
      rewrite Hscr. cbn [Z.eqb Pos.eqb].
      destruct (LONG_PRESS_MS <=? pressDur s);
        (eexists; split; [reflexivity | ]; repeat split).
    - destruct (handleButton_edges_quiet r rnd s He) as (m & E & G & _ & S & H & _).
      exists m. repeat split; assumption. }
  destruct Hm as (m & E & G & S & H).
  rewrite E. cbn [fst snd].
  rewrite handleButton_window_idle; [repeat split; assumption | ].
  unfold windowExpired. rewrite G, Hscr. reflexivity.
Qed.

(** X14.  Only the button wakes the device.  An iteration of [loop] that
    starts in the sleep state with no win window open and sees no confirmed
    press ends in the sleep state, with the LCD still off and nothing drawn,
    whatever the potentiometer does (a reading that becomes stable refreshes
    the activity time, and the device sleeps on). *)
Theorem asleep_until_a_press (i : Input) (s : State) :
  currentScreen s = 4 -> winAnimActive s = false ->
  ~ pressConfirmed (in_btn i) (atPoll (in_dt i) s) ->
  let s' := loop i s in
  currentScreen s' = 4 /\ lcdOn s' = lcdOn s /\ lcdFrames s' = lcdFrames s /\
  selectedLevel s' = selectedLevel s /\ unlockedLevel s' = unlockedLevel s.
Proof.
  intros Hscr Hwin Hnp. cbv zeta. rewrite loop_unfold.
  set (s0 := atPoll (in_dt i) s) in *.
  assert (G0 : game s0 = game s) by apply atPoll_frame.
  assert (S0 : snd_ s0 = snd_ s) by apply atPoll_frame.
  assert (L0 : lcdOn s0 = lcdOn s /\ lcdFrames s0 = lcdFrames s)
    by (subst s0; unfold atPoll; state_cbn; auto).
  assert (Hscr0 : currentScreen s0 = 4) by (rewrite G0; exact Hscr).
  destruct (handleButton_asleep (in_btn i) (in_rnd i) s0 Hscr0 Hnp) as (G1 & S1 & H1).
  set (s1 := handleButton (in_btn i) (in_rnd i) s0) in *. clearbody s1.
  assert (N1 : currentScreen s1 <> 2) by (rewrite G1, Hscr0; discriminate).
  destruct (updatePot_not_inGame (in_pot i) s1 N1) as (E2 & U2 & C2 & _ & _ & S2).
  pose proof (updatePot_not_inGame_hw (in_pot i) s1 N1) as H2.
  set (s2 := updatePot (in_pot i) s1) in *. clearbody s2.
  destruct (checkToneNB_stage s2) as (G3 & _ & W3 & _).
  destruct (checkToneNB_lcd s2) as (O3 & F3).
  set (s3 := checkToneNB s2) in *. clearbody s3.
  destruct (checkMelody_stage s3) as (G4 & _).
  destruct (checkMelody_lcd s3) as (O4 & F4 & W4).
  set (s4 := checkMelody s3) in *. clearbody s4.
  assert (Hscr4 : currentScreen s4 = 4) by (rewrite G4, G3, C2, G1; exact Hscr0).
  assert (I4 : idleCheck s4 = s4).
  { unfold idleCheck. rewrite Hscr4. cbn [Z.eqb Pos.eqb negb].
    rewrite andb_false_r. reflexivity. }
  assert (T4 : loop_timer (millis s0) s4 = s4)
    by (unfold loop_timer; rewrite Hscr4; reflexivity).
  assert (W : winAnimActive s4 = false)
    by (rewrite W4, W3, S2, S1, S0; exact Hwin).
  assert (K4 : loop_winCheck s4 = s4) by (unfold loop_winCheck; rewrite W; reflexivity).
  rewrite I4, T4, K4.
  destruct L0 as (L0a & L0b).
  split; [exact Hscr4 | ].
  split; [rewrite O4, O3, H2, H1; exact L0a | ].
  split; [rewrite F4, F3, H2, H1; exact L0b | ].
  split; [rewrite G4, G3, E2, G1, G0; reflexivity | ].
  rewrite G4, G3, U2, G1, G0. reflexivity.
Qed.

Lemma asleep_until_a_press_witness :
  let s := run (enterLevel1 ++ [mkInput 36000 HIGH 512 300]) (setup 300 boot) in
  let i := mkInput 600 HIGH 900 300 in
  currentScreen s = 4 /\ winAnimActive s = false /\
  ~ pressConfirmed (in_btn i) (atPoll (in_dt i) s) /\
  currentScreen (loop i s) = 4 /\ lcdOn (loop i s) = false.
Proof.
  intros s i.
  assert (Hs : currentScreen s = 4) by (vm_compute; reflexivity).
  assert (Hw : winAnimActive s = false) by (vm_compute; reflexivity).
  assert (Hp : ~ pressConfirmed (in_btn i) (atPoll (in_dt i) s))
    by (intros (_ & H); discriminate).
  destruct (asleep_until_a_press i s Hs Hw Hp) as (A & B & _).
  split; [exact Hs | ]. split; [exact Hw | ]. split; [exact Hp | ].
  split; [exact A | ]. rewrite B. vm_compute. reflexivity.
Defined.

(** ** The melody index *)

Lemma startToneNB_melodyIndex f d s : melodyIndex (startToneNB f d s) = melodyIndex s.
Proof. apply (startToneNB_frame f d s). Qed.
Lemma triggerLoseTone_melodyIndex st s : melodyIndex (triggerLoseTone st s) = melodyIndex s.
Proof.
  destruct (triggerLoseTone_is_startToneNB st s) as (f & d & ->).
  apply startToneNB_melodyIndex.
Qed.
Lemma triggerLoseTone_melodyPlaying st s :
  melodyPlaying (triggerLoseTone st s) = melodyPlaying s.
Proof.
  destruct (triggerLoseTone_is_startToneNB st s) as (f & d & ->).
  apply startToneNB_melodyPlaying.
Qed.

Create Rewrite HintDb sndframe.

#[global] Hint Rewrite
  startToneNB_melodyIndex startToneNB_melodyPlaying
  triggerLoseTone_melodyIndex triggerLoseTone_melodyPlaying
  : sndframe.

Ltac melody_simpl :=
  repeat (progress (state_cbn; autorewrite with frame; autorewrite with sndframe)).

Lemma melodySane_same (s s' : State) :
  melodyIndex s' = melodyIndex s -> melodyPlaying s' = melodyPlaying s ->
  melodySane s -> melodySane s'.
Proof. unfold melodySane. intros -> ->. auto. Qed.

Lemma melodySane_acceptStablePot value (s : State) :
  melodySane s -> melodySane (acceptStablePot value s).
Proof.
  intros H. unfold acceptStablePot, delay, millis. cbv zeta.
  repeat match goal with
         | |- melodySane (if ?c then _ else _) => destruct c
         end;
    try (apply (melodySane_same s); [melody_simpl; reflexivity .. | exact H]).
  unfold melodySane. melody_simpl. split; [lia | intros _; lia].
Qed.

Lemma melodySane_updatePot raw (s : State) : melodySane s -> melodySane (updatePot raw s).
Proof.
  intros H. unfold updatePot, millis. cbv zeta.
  assert (Hj : melodySane (if 3 <? Z.abs (raw - lastPotRaw s)
                           then set_lastPotRaw raw
                                  (set_potStable false (set_potChangedAt (clock s) s))
                           else s)).
  { destruct (3 <? Z.abs (raw - lastPotRaw s)); [ | exact H].
    apply (melodySane_same s); [reflexivity .. | exact H]. }
  set (j := if 3 <? Z.abs (raw - lastPotRaw s) then _ else s) in *. clearbody j.
  destruct (negb (potStable j) && (POT_STABLE_MS <=? usub (clock s) (potChangedAt j)));
    [ | exact Hj].
  set (a := set_lastActivity (clock s) _).
  assert (Ha : melodySane a)
    by (subst a; apply (melodySane_same j); [reflexivity .. | exact Hj]).
  clearbody a.
  destruct (currentScreen a =? 2); [ | exact Ha].
  apply melodySane_acceptStablePot; assumption.
Qed.

Lemma melodySane_checkToneNB (s : State) : melodySane s -> melodySane (checkToneNB s).
Proof.
  intros H. unfold checkToneNB. split_if; [ | exact H].
  apply (melodySane_same s); [melody_simpl; reflexivity .. | exact H].
Qed.

Lemma melodySane_checkMelody (s : State) : melodySane s -> melodySane (checkMelody s).
Proof.
  intros (Hi & Hp). unfold checkMelody, millis. cbv zeta.
  destruct (melodyPlaying s) eqn:Ep; cbn [negb]; [ | split; [exact Hi | congruence]].
  specialize (Hp eq_refl).
  assert (Hc : winCount = 4) by reflexivity.
  unfold melodySane.
  repeat split_if; melody_simpl; tests_to_props;
    repeat match goal with
           | H : context [melodyIndex _] |- _ => revert H; melody_simpl; intros H
           end;
    (split; [lia | intros; lia || congruence]).
Qed.

Lemma handleButton_snd r rnd (s : State) : snd_ (handleButton r rnd s) = snd_ s.
Proof.
  rewrite handleButton_unfold.
  assert (E : snd_ (fst (handleButton_edges (millis s) r rnd s)) = snd_ s).
  { unfold handleButton_edges. cbv zeta. repeat split_if; state_simpl; reflexivity. }
  destruct (snd (handleButton_edges (millis s) r rnd s)); [exact E | ].
  destruct (windowExpired (millis s) (fst (handleButton_edges (millis s) r rnd s))) eqn:We.
  - destruct (handleButton_window_fires _ _ We) as (_ & _ & _ & S & _).
    rewrite S. exact E.
  - rewrite (handleButton_window_idle _ _ We). exact E.
Qed.

Lemma melodySane_loop i (s : State) : melodySane s -> melodySane (loop i s).
Proof.
  intros H. rewrite loop_unfold.
  set (s0 := atPoll (in_dt i) s).
  assert (H0 : melodySane s0)
    by (apply (melodySane_same s); [reflexivity .. | exact H]).
  clearbody s0.
  assert (H1 : melodySane (handleButton (in_btn i) (in_rnd i) s0))
    by (apply (melodySane_same s0); [rewrite handleButton_snd; reflexivity .. | exact H0]).
  set (s1 := handleButton (in_btn i) (in_rnd i) s0) in *. clearbody s1.
  pose proof (melodySane_checkMelody _
                (melodySane_checkToneNB _ (melodySane_updatePot (in_pot i) s1 H1))) as H4.
  set (s4 := checkMelody _) in *. clearbody s4.
  assert (H5 : melodySane (idleCheck s4)).
  { unfold idleCheck, goToSleep. split_if; [ | exact H4].
    apply (melodySane_same s4); [melody_simpl; reflexivity .. | exact H4]. }
  set (s5 := idleCheck s4) in *. clearbody s5.
  assert (H6 : melodySane (loop_timer (millis s0) s5)).
  { unfold loop_timer, delay. cbv zeta.
    repeat match goal with
           | |- melodySane (if ?c then _ else _) => destruct c
           end;
      try exact H5;
      (apply (melodySane_same s5); [melody_simpl; reflexivity .. | exact H5]). }
  set (s6 := loop_timer (millis s0) s5) in *. clearbody s6.
  unfold loop_winCheck. cbv zeta.
  destruct (winAnimActive s6 && (winAnimEnd s6 <=? millis s6)); [ | exact H6].
  destruct H6 as (Hi & _). unfold melodySane.
  split_if; melody_simpl; (split; [exact Hi | discriminate]).
Qed.

(** X15.  From power-on, whatever the inputs, the melody index stays within
    0..4 and is at most 3 while the melody plays; [checkMelody] keeps it so,
    so that the note it starts, read at the index it has just set, is always
    one of the four notes of [winNotes] and [winDur]. *)
Theorem melody_index_stays_in_bounds :
  (forall inputs rnd,
     let s := run inputs (setup rnd boot) in
     0 <= melodyIndex s <= 4 /\ (melodyPlaying s = true -> melodyIndex s <= 3)) /\
  (forall s : State,
     0 <= melodyIndex s <= 4 -> (melodyPlaying s = true -> melodyIndex s <= 3) ->
     0 <= melodyIndex (checkMelody s) <= 4 /\
     (melodyPlaying (checkMelody s) = true ->
        melodyIndex (checkMelody s) <= 3 /\
        In (at_ winNotes (melodyIndex (checkMelody s))) winNotes)).
Proof.
  split.
  - intros inputs rnd.
    assert (H : forall (s : State), melodySane s -> melodySane (run inputs s)).
    { induction inputs as [ | i inputs IH]; intros s Hs; [exact Hs | ].
      rewrite run_cons. apply IH, melodySane_loop, Hs. }
    apply H. unfold melodySane, setup, pickNewTarget, millis. melody_simpl.
    cbn. split; [lia | discriminate].
  - intros s Hi Hp.
    destruct (melodySane_checkMelody s (conj Hi Hp)) as (Hi' & Hp').
    split; [exact Hi' | ]. intros Play. specialize (Hp' Play). split; [exact Hp' | ].
    set (k := melodyIndex (checkMelody s)) in *.
    assert (k = 0 \/ k = 1 \/ k = 2 \/ k = 3) as Hk by lia.
    destruct Hk as [-> | [-> | [-> | ->]]]; cbn; auto.
Qed.

Lemma melody_index_stays_in_bounds_witness :
  let s := atPoll 1000 (run winOnEntry (setup 300 boot)) in
  0 <= melodyIndex s <= 4 /\ melodyPlaying s = true /\
  melodyPlaying (checkMelody s) = true /\ melodyIndex (checkMelody s) <= 3.
Proof.
  intros s.
  destruct melody_index_stays_in_bounds as (_ & H).
  assert (Hi : 0 <= melodyIndex s <= 4) by (split; vm_compute; discriminate).
  assert (Hp : melodyPlaying s = true -> melodyIndex s <= 3)
    by (intros _; vm_compute; discriminate).
  assert (Play : melodyPlaying (checkMelody s) = true) by (vm_compute; reflexivity).
  destruct (H s Hi Hp) as (_ & H3).
  split; [exact Hi | ]. split; [vm_compute; reflexivity | ].
  split; [exact Play | apply H3; exact Play].
Defined.

(** ** The round timer *)

Lemma acceptStablePot_round value (s : State) :
  let s' := acceptStablePot value s in
  selectedLevel s' = selectedLevel s /\ levelStartedAt s' = levelStartedAt s /\
  (currentScreen s' = currentScreen s \/ currentScreen s' = 0).
Proof.
  cbv zeta. pose proof (acceptStablePot_game value s) as G.
  state_cbn. rewrite G. repeat split_if; state_cbn; auto.
Qed.

Lemma updatePot_round raw (s : State) :
  let s' := updatePot raw s in
  selectedLevel s' = selectedLevel s /\ levelStartedAt s' = levelStartedAt s /\
  (currentScreen s' = currentScreen s \/ currentScreen s' = 0).
Proof.
  unfold updatePot, millis. cbv zeta.
  set (j := if 3 <? Z.abs (raw - lastPotRaw s) then _ else s).
  assert (Hj : game j = game s) by (subst j; split_if; reflexivity).
  clearbody j.
  destruct (negb (potStable j) && (POT_STABLE_MS <=? usub (clock s) (potChangedAt j)));
    [ | rewrite Hj; auto].
  set (a := set_lastActivity (clock s) _).
  assert (Ha : selectedLevel a = selectedLevel s /\ levelStartedAt a = levelStartedAt s /\
               currentScreen a = currentScreen s)
    by (subst a; state_cbn; rewrite Hj; auto).
  clearbody a. destruct Ha as (H1 & H2 & H3).
  destruct (currentScreen a =? 2).
  - destruct (acceptStablePot_round (stableValue a) a) as (A1 & A2 & A3).
    rewrite A1, A2, H1, H2, <- H3. auto.
  - auto.
Qed.

Lemma loop_timer_expired now (s : State) :
  currentScreen s = 2 ->
  0 < timerMs (lvl (selectedLevel s)) ->
  timerMs (lvl (selectedLevel s)) <= usub now (levelStartedAt s) ->
  loop_timer now s =
    stopToWelcome
      (delay 700 (triggerLoseTone 0 (lcdPrintIfChanged "Time up!" "Returning..." s))).
Proof.
  intros Hs H0 H1. unfold loop_timer. cbv zeta. rewrite Hs. cbn [Z.eqb Pos.eqb].
  destruct (Z.ltb_spec 0 (timerMs (lvl (selectedLevel s)))); [ | lia].
  destruct (Z.leb_spec (timerMs (lvl (selectedLevel s))) (usub now (levelStartedAt s)));
    [ | lia].
  reflexivity.
Qed.

Lemma loop_timer_running now (s : State) :
  currentScreen s = 2 ->
  ~ (0 < timerMs (lvl (selectedLevel s)) /\
     timerMs (lvl (selectedLevel s)) <= usub now (levelStartedAt s)) ->
  exists l0, loop_timer now s = lcdPrintIfChanged l0 (lcdLine1 s) s.
Proof.
  intros Hs H. unfold loop_timer. cbv zeta. rewrite Hs. cbn [Z.eqb Pos.eqb].
  destruct (Z.ltb_spec 0 (timerMs (lvl (selectedLevel s))));
    destruct (Z.leb_spec (timerMs (lvl (selectedLevel s))) (usub now (levelStartedAt s)));
    cbn [andb]; try (exfalso; apply H; split; assumption); eexists; reflexivity.
Qed.

(** X16.  The timer block of [loop], in a round.  When the level has a time
    limit and the time since the level started has reached it, the round
    ends: the screen is welcome, the lose tone of 160 Hz is started with its
    end 250 ms ahead, and the block returns 700 ms later with that tone
    still on; the level and the unlocked level are kept.  Otherwise the
    block only redraws the first line of the LCD: the round, the clock, the
    sound and the second line are untouched.  Level 1 has no limit and is
    always in the second case. *)
Theorem round_ends_when_time_is_up (now : Z) (s : State) :
  currentScreen s = 2 ->
  let tm := timerMs (lvl (selectedLevel s)) in
  let s' := loop_timer now s in
  (0 < tm /\ tm <= usub now (levelStartedAt s) ->
     currentScreen s' = 0 /\
     clock s' = uadd (clock s) 700 /\ lastActivity s' = uadd (clock s) 700 /\
     toneOnFreq s' = 160 /\ buzzer s' = 160 /\ toneEndAt s' = uadd (clock s) 250 /\
     selectedLevel s' = selectedLevel s /\ unlockedLevel s' = unlockedLevel s /\
     lcdLine0 s' = "Play PotMatch :)" /\ lcdLine1 s' = "Press to select") /\
  (~ (0 < tm /\ tm <= usub now (levelStartedAt s)) ->
     game s' = game s /\ clock s' = clock s /\ snd_ s' = snd_ s /\
     buzzer s' = buzzer s /\ lcdLine1 s' = lcdLine1 s) /\
  (selectedLevel s = 1 -> ~ (0 < tm /\ tm <= usub now (levelStartedAt s))).
Proof.
  intros Hs tm s'. subst tm s'. split; [ | split].
  - intros (H0 & H1). rewrite (loop_timer_expired now s Hs H0 H1).
    set (p := lcdPrintIfChanged "Time up!" "Returning..." s).
    assert (Hp : game p = game s /\ clock p = clock s)
      by (subst p; split; [apply lcdPrintIfChanged_game | apply lcdPrintIfChanged_clock]).
    clearbody p. destruct Hp as (Gp & Cp).
    set (d := delay 700 (triggerLoseTone 0 p)).
    assert (D : game d = game s /\ clock d = uadd (clock s) 700 /\
                toneOnFreq d = 160 /\ toneEndAt d = uadd (clock s) 250 /\ buzzer d = 160).
    { subst d. unfold triggerLoseTone. rewrite (startToneNB_on 160 250 p) by lia.
      unfold delay, tone, millis. state_cbn. rewrite Gp, Cp. repeat split. }
    clearbody d. destruct D as (Gd & Cd & Fd & Ed & Bd).
    pose proof (stopToWelcome_game d) as G. pose proof (stopToWelcome_snd d) as S.
    pose proof (stopToWelcome_clock d) as C.
    assert (B : buzzer (stopToWelcome d) = buzzer d /\
                lcdLine0 (stopToWelcome d) = "Play PotMatch :)" /\
                lcdLine1 (stopToWelcome d) = "Press to select").
    { unfold stopToWelcome. cbv zeta.
      destruct (lcdPrintIfChanged_frame "Play PotMatch :)" "Press to select"
                  (set_currentScreen 0 d)) as (_ & _ & _ & _ & _ & _ & B & _).
      destruct (lcdPrintIfChanged_lines "Play PotMatch :)" "Press to select"
                  (set_currentScreen 0 d)) as (L0 & L1).
      state_cbn. rewrite B, L0, L1. repeat split. }
    destruct B as (B & L0 & L1).
    set (w := stopToWelcome d) in *. clearbody w.
    state_cbn. rewrite G, S, C, B, L0, L1. state_cbn.
    rewrite Cd, Bd. revert Fd Ed. state_cbn. intros -> ->. rewrite Gd.
    repeat split.
  - intros H. destruct (loop_timer_running now s Hs H) as (l0 & ->).
    destruct (lcdPrintIfChanged_frame l0 (lcdLine1 s) s)
      as (G & _ & _ & S & C & _ & B & _).
    destruct (lcdPrintIfChanged_lines l0 (lcdLine1 s) s) as (_ & L1).
    repeat split; assumption.
  - intros -> (H0 & _). cbn in H0. lia.
Qed.

Lemma round_ends_when_time_is_up_witness :
  let s := atPoll 21000 (run enterLevel2 (setup 300 boot)) in
  currentScreen s = 2 /\ selectedLevel s = 2 /\
  currentScreen (loop_timer (millis s) s) = 0 /\
  clock (loop_timer (millis s) s) = uadd (clock s) 700.
Proof.
  intros s.
  assert (Hs : currentScreen s = 2) by (vm_compute; reflexivity).
  destruct (round_ends_when_time_is_up (millis s) s Hs) as (H & _).
  assert (Hx : 0 < timerMs (lvl (selectedLevel s)) /\
               timerMs (lvl (selectedLevel s)) <= usub (millis s) (levelStartedAt s))
    by (split; vm_compute; congruence).
  destruct (H Hx) as (A & B & _).
  split; [exact Hs | ]. split; [vm_compute; reflexivity | ]. split; assumption.
Defined.

(** X17.  A round on a level with a time limit does not outlive the limit:
    an iteration of [loop] that begins (at its reading of [millis]) with the
    limit reached ends off the game screen, on welcome or asleep, whatever
    the button and the potentiometer do in that iteration, also when the
    round has just been won. *)
Theorem timed_round_does_not_outlive_its_limit (i : Input) (s : State) :
  currentScreen s = 2 ->
  0 < timerMs (lvl (selectedLevel s)) ->
  timerMs (lvl (selectedLevel s)) <= usub (uadd (clock s) (in_dt i)) (levelStartedAt s) ->
  currentScreen (loop i s) = 0 \/ currentScreen (loop i s) = 4.
Proof.
  intros Hs H0 H1. rewrite loop_unfold.
  set (s0 := atPoll (in_dt i) s).
  assert (N : millis s0 = uadd (clock s) (in_dt i)) by reflexivity.
  assert (G0 : game s0 = game s) by reflexivity.
  rewrite N. clearbody s0. clear N.
  assert (G1 : game (handleButton (in_btn i) (in_rnd i) s0) = game s0)
    by (apply handleButton_inGame_game; rewrite G0; exact Hs).
  set (s1 := handleButton (in_btn i) (in_rnd i) s0) in *. clearbody s1.
  destruct (updatePot_round (in_pot i) s1) as (L2 & T2 & C2).
  set (s2 := updatePot (in_pot i) s1) in *. clearbody s2.
  destruct (checkToneNB_stage s2) as (G3 & _).
  destruct (checkMelody_stage (checkToneNB s2)) as (G4 & _).
  set (s4 := checkMelody (checkToneNB s2)) in *. clearbody s4.
  assert (R : selectedLevel s4 = selectedLevel s /\ levelStartedAt s4 = levelStartedAt s /\
              (currentScreen s4 = 2 \/ currentScreen s4 = 0)).
  { state_cbn. rewrite G4, G3. revert L2 T2 C2. state_cbn. rewrite G1, G0.
    intros -> -> C2. rewrite Hs in C2. auto. }
  clear G0 G1 L2 T2 C2 G3 G4. destruct R as (L4 & T4 & C4).
  assert (R : selectedLevel (idleCheck s4) = selectedLevel s /\
              levelStartedAt (idleCheck s4) = levelStartedAt s /\
              (currentScreen (idleCheck s4) = 2 \/ currentScreen (idleCheck s4) = 0 \/
               currentScreen (idleCheck s4) = 4)).
  { unfold idleCheck, goToSleep. split_if; state_cbn.
    - auto.
    - destruct C4; auto. }
  set (s5 := idleCheck s4) in *. clearbody s5. destruct R as (L5 & T5 & C5).
  assert (R : currentScreen (loop_timer (uadd (clock s) (in_dt i)) s5) = 0 \/
              currentScreen (loop_timer (uadd (clock s) (in_dt i)) s5) = 4).
  { destruct C5 as [C5 | C5].
    - rewrite loop_timer_expired; [ | exact C5 | rewrite L5; exact H0 | rewrite L5, T5; exact H1].
      left. rewrite stopToWelcome_game. reflexivity.
    - unfold loop_timer. destruct C5 as [C5 | C5]; rewrite C5; cbn [Z.eqb Pos.eqb]; auto. }
  set (s6 := loop_timer _ s5) in *. clearbody s6.
  pose proof (loop_winCheck_game s6) as G.
  destruct (winAnimActive s6 && (winAnimEnd s6 <=? millis s6)).
  - left. state_cbn. rewrite G. reflexivity.
  - state_cbn. rewrite G. exact R.
Qed.

Lemma timed_round_does_not_outlive_its_limit_witness :
  let s := run enterLevel2 (setup 300 boot) in
  let i := mkInput 21000 HIGH 512 300 in
  currentScreen s = 2 /\ selectedLevel s = 2 /\ currentScreen (loop i s) = 0.
Proof.
  intros s i.
  assert (Hs : currentScreen s = 2) by (vm_compute; reflexivity).
  assert (H0 : 0 < timerMs (lvl (selectedLevel s))) by (vm_compute; reflexivity).
  assert (H1 : timerMs (lvl (selectedLevel s)) <=
               usub (uadd (clock s) (in_dt i)) (levelStartedAt s))
    by (vm_compute; discriminate).
  split; [exact Hs | ]. split; [vm_compute; reflexivity | ].
  destruct (timed_round_does_not_outlive_its_limit i s Hs H0 H1) as [H | H];
    [exact H | exfalso; revert H; vm_compute; discriminate].
Defined.

(** ** The LED bar *)

Lemma allLeds_leds v (s : State) :
  List.length (leds s) = 6%nat -> leds (allLeds v s) = [v; v; v; v; v; v].
Proof.
  intros H. unfold allLeds. cbn [seq fold_left]. unfold ledWrite. state_cbn.
  destruct (leds s) as [ | a [ | b [ | c [ | d [ | e [ | f [ | g l]]]]]]];
    try discriminate H.
  reflexivity.
Qed.

Lemma lcdPrintIfChanged_leds l0 l1 (s : State) : leds (lcdPrintIfChanged l0 l1 s) = leds s.
Proof. apply (lcdPrintIfChanged_frame l0 l1 s). Qed.

Lemma startToneNB_leds f d (s : State) : leds (startToneNB f d s) = leds s.
Proof. unfold startToneNB, tone. split_if; reflexivity. Qed.

Lemma triggerLoseTone_leds st (s : State) : leds (triggerLoseTone st s) = leds s.
Proof.
  destruct (triggerLoseTone_is_startToneNB st s) as (f & d & ->).
  apply startToneNB_leds.
Qed.

Lemma stopToWelcome_leds (s : State) : leds (stopToWelcome s) = leds s.
Proof.
  unfold stopToWelcome. cbv zeta. state_cbn. rewrite lcdPrintIfChanged_leds. reflexivity.
Qed.

Lemma acceptStablePot_leds value (s : State) :
  leds (acceptStablePot value s) = leds (setLEDsForState (bandOf value s) s).
Proof.
  unfold acceptStablePot, bandOf, delay. cbv zeta.
  repeat match goal with
         | |- context [hw (if ?c then _ else _)] => destruct c
         end;
    repeat (state_cbn;
            rewrite ?stopToWelcome_leds, ?triggerLoseTone_leds, ?startToneNB_leds,
                    ?lcdPrintIfChanged_leds);
    reflexivity.
Qed.

(** X18.  After every accepted reading the six LEDs show the band of that
    reading and nothing else, whatever they showed before: bands 0, 1, 2
    light 3, 2, 1 of the red LEDs (band 2 the middle one), bands 3, 4, 5
    light 1, 2, 3 of the green LEDs, and never a red and a green LED
    together.  This also holds when the reading ends the round: the call
    that returns to the welcome screen leaves the pattern of the last band
    on. *)
Theorem leds_show_the_band_of_the_reading (value : Z) (s : State) :
  List.length (leds s) = 6%nat ->
  let band := bandOf value s in
  let l := leds (acceptStablePot value s) in
  0 <= band <= 5 /\
  l = match band with
      | 0 => [true; true; true; false; false; false]
      | 1 => [true; true; false; false; false; false]
      | 2 => [false; true; false; false; false; false]
      | 3 => [false; false; false; true; false; false]
      | 4 => [false; false; false; true; true; false]
      | _ => [false; false; false; true; true; true]
      end /\
  Z.of_nat (litCount l) = (if band <=? 2 then 3 - band else band - 2) /\
  (litCount (firstn 3 l) = 0%nat \/ litCount (skipn 3 l) = 0%nat).
Proof.
  intros H band l. subst l. rewrite acceptStablePot_leds. fold band.
  assert (R : 0 <= band <= 5) by apply diffToState_range.
  clearbody band. split; [exact R | ].
  assert (E : leds (allLeds false s) = [false; false; false; false; false; false])
    by (apply allLeds_leds; exact H).
  assert (C : band = 0 \/ band = 1 \/ band = 2 \/ band = 3 \/ band = 4 \/ band = 5) by lia.
  unfold setLEDsForState, ledWrite. cbv zeta.
  destruct C as [-> | [-> | [-> | [-> | [-> | ->]]]]];
    state_cbn; rewrite E; cbn; auto.
Qed.

Lemma leds_show_the_band_of_the_reading_witness :
  let s := run enterLevel2 (setup 300 boot) in
  List.length (leds s) = 6%nat /\ bandOf 340 s = 5 /\
  leds (acceptStablePot 340 s) = [false; false; false; true; true; true].
Proof.
  intros s.
  assert (H : List.length (leds s) = 6%nat) by (vm_compute; reflexivity).
  destruct (leds_show_the_band_of_the_reading 340 s H) as (_ & L & _).
  assert (B : bandOf 340 s = 5) by (vm_compute; reflexivity).
  rewrite B in L. split; [exact H | ]. split; [exact B | exact L].
Defined.

(** * Long presses and wins in runs polled densely *)

(** ** The click count at a long press *)

Lemma usub_small a b : 0 <= b <= a -> a < ULONG -> usub a b = a - b.
Proof. intros H1 H2. unfold usub. apply Z.mod_small. lia. Qed.

Lemma uadd_small a b : 0 <= a + b < ULONG -> uadd a b = a + b.
Proof. intros H. unfold uadd. apply Z.mod_small. exact H. Qed.

Lemma afterButton_refl (s : State) : afterButton s s.
Proof. unfold afterButton. auto. Qed.

Lemma afterButton_same (s s' : State) :
  btn s' = btn s -> clock s' = clock s -> currentScreen s' = currentScreen s ->
  afterButton s s'.
Proof. unfold afterButton. intros -> -> ->. auto. Qed.

Lemma acceptStablePot_clock value (s : State) :
  clock (acceptStablePot value s) = clock s \/
  (clock (acceptStablePot value s) = uadd (clock s) 700 /\
   currentScreen (acceptStablePot value s) = 0).
Proof.
  unfold acceptStablePot, delay, millis. cbv zeta.
  repeat match goal with
         | |- context [hw (if ?c then _ else _)] => destruct c
         end;
    try (left; state_simpl; reflexivity).
  right. split.
  - rewrite stopToWelcome_clock. state_simpl. reflexivity.
  - state_cbn. rewrite stopToWelcome_game. reflexivity.
Qed.

Lemma afterButton_updatePot raw (s : State) : afterButton s (updatePot raw s).
Proof.
  destruct (updatePot_round raw s) as (_ & _ & Hscr).
  assert (Hb : btn (updatePot raw s) = btn s /\
               (clock (updatePot raw s) = clock s \/
                clock (updatePot raw s) = uadd (clock s) 700)).
  { unfold updatePot, millis. cbv zeta.
    set (j := if 3 <? Z.abs (raw - lastPotRaw s) then _ else s).
    assert (Hj : btn j = btn s /\ clock j = clock s) by (subst j; split_if; auto).
    clearbody j. destruct Hj as (Bj & Cj).
    destruct (negb (potStable j) && (POT_STABLE_MS <=? usub (clock s) (potChangedAt j)));
      [ | auto].
    set (a := set_lastActivity (clock s) _).
    assert (Ha : btn a = btn s /\ clock a = clock s) by (subst a; auto).
    clearbody a. destruct Ha as (Ba & Ca).
    destruct (currentScreen a =? 2); [ | auto].
    rewrite acceptStablePot_btn, Ba. split; [reflexivity | ].
    destruct (acceptStablePot_clock (stableValue a) a) as [E | (E & _)];
      rewrite E, Ca; auto. }
  destruct Hb as (Hb & Hc). split; [exact Hb | ]. split; [exact Hc | ].
  intros H1.
  assert (S1 : currentScreen s = 1) by (destruct Hscr as [E | E]; congruence).
  split; [exact S1 | ].
  apply (updatePot_not_inGame raw s). rewrite S1. discriminate.
Qed.

Lemma afterButton_checkToneNB (s : State) : afterButton s (checkToneNB s).
Proof.
  destruct (checkToneNB_stage s) as (G & C & _).
  apply afterButton_same; [ | exact C | state_cbn; rewrite G; reflexivity].
  unfold checkToneNB, noTone. split_if; reflexivity.
Qed.

Lemma afterButton_checkMelody (s : State) : afterButton s (checkMelody s).
Proof.
  destruct (checkMelody_stage s) as (G & C).
  apply afterButton_same; [ | exact C | state_cbn; rewrite G; reflexivity].
  unfold checkMelody, noTone, millis. cbv zeta.
  repeat first
    [ match goal with
      | |- context [btn (if ?c then _ else _)] => destruct c
      end
    | progress state_simpl ];
    reflexivity.
Qed.

Lemma afterButton_idleCheck (s : State) : afterButton s (idleCheck s).
Proof.
  unfold idleCheck, goToSleep. cbv zeta. split_if; [ | apply afterButton_refl].
  unfold afterButton. state_cbn. split; [reflexivity | ]. split; [auto | ].
  discriminate.
Qed.

Lemma afterButton_loop_timer now (s : State) : afterButton s (loop_timer now s).
Proof.
  destruct (Z.eq_dec (currentScreen s) 2) as [Hs | Hs].
  - destruct (Z_lt_le_dec 0 (timerMs (lvl (selectedLevel s)))) as [H0 | H0];
      [destruct (Z_le_gt_dec (timerMs (lvl (selectedLevel s)))
                   (usub now (levelStartedAt s))) as [H1 | H1] | ].
    + rewrite (loop_timer_expired now s Hs H0 H1).
      unfold afterButton. rewrite stopToWelcome_btn, stopToWelcome_clock.
      state_cbn. rewrite stopToWelcome_game. unfold delay. state_simpl.
      split; [reflexivity | ]. split; [auto | ]. discriminate.
    + destruct (loop_timer_running now s Hs) as (l0 & ->); [lia | ].
      apply afterButton_same;
        [apply lcdPrintIfChanged_btn | apply lcdPrintIfChanged_clock
        | state_cbn; rewrite lcdPrintIfChanged_game; reflexivity].
    + destruct (loop_timer_running now s Hs) as (l0 & ->); [lia | ].
      apply afterButton_same;
        [apply lcdPrintIfChanged_btn | apply lcdPrintIfChanged_clock
        | state_cbn; rewrite lcdPrintIfChanged_game; reflexivity].
  - unfold loop_timer. rewrite (proj2 (Z.eqb_neq _ _) Hs). apply afterButton_refl.
Qed.

Lemma afterButton_loop_winCheck (s : State) : afterButton s (loop_winCheck s).
Proof.
  pose proof (loop_winCheck_game s) as G.
  unfold afterButton.
  assert (B : btn (loop_winCheck s) = btn s /\ clock (loop_winCheck s) = clock s).
  { unfold loop_winCheck, noTone. cbv zeta. split_if; [ | auto].
    rewrite stopToWelcome_btn, stopToWelcome_clock. split_if; auto. }
  destruct B as (B & C). split; [exact B | ]. split; [auto | ].
  state_cbn. rewrite G.
  destruct (winAnimActive s && (winAnimEnd s <=? millis s)); state_cbn;
    [discriminate | auto].
Qed.

Lemma loop_winCheck_clock (s : State) : clock (loop_winCheck s) = clock s.
Proof.
  unfold loop_winCheck, noTone. cbv zeta. split_if; [ | reflexivity].
  rewrite stopToWelcome_clock. split_if; reflexivity.
Qed.

(** The stages of [loop] that follow [handleButton], together. *)
Lemma afterButton_stages now raw (s : State) :
  0 <= clock s -> clock s + 1400 < ULONG ->
  let s' :=
    loop_winCheck (loop_timer now (idleCheck (checkMelody (checkToneNB (updatePot raw s)))))
  in
  btn s' = btn s /\ clock s <= clock s' <= clock s + 1400 /\
  (currentScreen s' = 1 -> currentScreen s = 1 /\ clock s' = clock s).
Proof.
  intros H0 Hw. cbv zeta.
  destruct (afterButton_updatePot raw s) as (B2 & C2 & S2).
  set (s2 := updatePot raw s) in *. clearbody s2.
  destruct (afterButton_checkToneNB s2) as (B3 & _ & S3).
  destruct (checkToneNB_stage s2) as (_ & C3 & _).
  set (s3 := checkToneNB s2) in *. clearbody s3.
  destruct (afterButton_checkMelody s3) as (B4 & _ & S4).
  destruct (checkMelody_stage s3) as (_ & C4).
  set (s4 := checkMelody s3) in *. clearbody s4.
  destruct (afterButton_idleCheck s4) as (B5 & _ & S5).
  destruct (idleCheck_stage s4) as (_ & C5 & _).
  set (s5 := idleCheck s4) in *. clearbody s5.
  destruct (afterButton_loop_timer now s5) as (B6 & C6 & S6).
  set (s6 := loop_timer now s5) in *. clearbody s6.
  destruct (afterButton_loop_winCheck s6) as (B7 & _ & S7).
  pose proof (loop_winCheck_clock s6) as C7.
  set (s7 := loop_winCheck s6) in *. clearbody s7.
  split; [congruence | ]. split.
  - assert (E2 : clock s2 = clock s \/ clock s2 = clock s + 700)
      by (destruct C2 as [E | E]; [left; exact E | right; rewrite E; apply uadd_small; lia]).
    assert (E6 : clock s6 = clock s5 \/ clock s6 = clock s5 + 700).
    { destruct C6 as [E | E]; [left; exact E | right; rewrite E].
      apply uadd_small. lia. }
    lia.
  - intros H7. destruct (S7 H7) as (H6 & E7). destruct (S6 H6) as (H5 & E6).
    destruct (S5 H5) as (H4 & E5). destruct (S4 H4) as (H3 & E4).
    destruct (S3 H3) as (H2 & E3). destruct (S2 H2) as (H1 & E2).
    split; [exact H1 | congruence].
Qed.

(** The first half of [handleButton] keeps the recorded times in order; when
    it returns early, the screen is the welcome screen. *)
Lemma clicksOrdered_handleButton_edges r rnd (s : State) :
  clicksOrdered s -> clock s < ULONG ->
  let e := handleButton_edges (millis s) r rnd s in
  clicksOrdered (fst e) /\ clock (fst e) = clock s /\
  (snd e = true -> currentScreen (fst e) = 0).
Proof.
  unfold clicksOrdered, millis. intros H Hw.
  unfold handleButton_edges. cbv zeta.
  repeat split_if; cbn [fst snd]; state_simpl;
    (split; [lia | ]); (split; [reflexivity | ]);
    first [discriminate | intros _; reflexivity].
Qed.

(** After a call of [handleButton] the recorded times are in order and a
    click left pending on the level-select screen is at most 700 ms old. *)
Lemma clicksFresh_handleButton r rnd (s : State) :
  clicksOrdered s -> clock s < ULONG ->
  let s' := handleButton r rnd s in
  clicksOrdered s' /\ clock s' = clock s /\ clicksFresh s'.
Proof.
  intros H Hw. cbv zeta. rewrite handleButton_unfold.
  destruct (clicksOrdered_handleButton_edges r rnd s H Hw) as (Ho & Hc & Hd).
  set (m := fst (handleButton_edges (millis s) r rnd s)) in *.
  destruct (snd (handleButton_edges (millis s) r rnd s)).
  - split; [exact Ho | ]. split; [exact Hc | ].
    intros H1. rewrite (Hd eq_refl) in H1. discriminate.
  - clearbody m. unfold millis. rewrite <- Hc.
    destruct (windowExpired (clock m) m) eqn:We.
    + destruct (handleButton_window_fires (clock m) m We) as (_ & B & _ & _ & C & _).
      unfold clicksOrdered, clicksFresh in *. state_cbn. rewrite B, C. state_cbn.
      split; [lia | ]. split; [reflexivity | ]. intros _. left. reflexivity.
    + rewrite (handleButton_window_idle _ _ We).
      split; [exact Ho | ]. split; [reflexivity | ].
      intros H1. unfold windowExpired in We. rewrite H1 in We.
      cbn [Z.eqb Pos.eqb orb andb] in We.
      unfold clicksOrdered in Ho.
      rewrite usub_small in We by lia.
      destruct (Z.ltb_spec 0 (clickCount m)); [ | left; lia].
      destruct (Z.ltb_spec CLICK_WINDOW_MS (clock m - lastClickTime m));
        [discriminate | right; lia].
Qed.

(** One iteration of [loop], polled less than 100 ms after the previous
    one. *)
Lemma clicksFresh_loop i (s : State) :
  clicksOrdered s -> 0 <= in_dt i -> clock s + in_dt i + 1400 < ULONG ->
  clicksOrdered (loop i s) /\ clicksFresh (loop i s) /\
  clock s + in_dt i <= clock (loop i s) <= clock s + in_dt i + 1400.
Proof.
  intros H Hd Hw. rewrite loop_unfold.
  set (s0 := atPoll (in_dt i) s).
  assert (H0 : clicksOrdered s0 /\ clock s0 = clock s + in_dt i).
  { unfold clicksOrdered in *. subst s0. unfold atPoll. state_cbn.
    rewrite uadd_small by lia. split; lia. }
  destruct H0 as (H0 & C0). unfold millis. rewrite C0. clearbody s0.
  destruct (clicksFresh_handleButton (in_btn i) (in_rnd i) s0 H0) as (H1 & C1 & F1);
    [lia | ].
  set (s1 := handleButton (in_btn i) (in_rnd i) s0) in *. clearbody s1.
  destruct (afterButton_stages (clock s + in_dt i) (in_pot i) s1) as (B & C & S);
    [unfold clicksOrdered in H1; lia | lia | ].
  match goal with
  | |- context [loop_winCheck ?x] => set (s' := loop_winCheck x) in *
  end.
  clearbody s'.
  unfold clicksOrdered, clicksFresh in *. state_cbn. rewrite B.
  revert H1 F1. state_cbn. intros H1 F1.
  split; [lia | ]. split; [ | lia].
  intros Hs. destruct (S Hs) as (S1 & E). rewrite E. apply F1, S1.
Qed.

Lemma densePolls_cons i inputs :
  densePolls (i :: inputs) = true ->
  0 <= in_dt i < LONG_PRESS_MS - CLICK_WINDOW_MS /\ densePolls inputs = true.
Proof.
  unfold densePolls. cbn [forallb]. intros H.
  apply andb_prop in H. destruct H as (Hi & Hf).
  apply andb_prop in Hi. destruct Hi as (Hi1 & Hi2).
  apply Z.leb_le in Hi1. apply Z.ltb_lt in Hi2.
  split; [lia | exact Hf].
Qed.

Lemma densePolls_app inputs i :
  densePolls (inputs ++ [i]) = true ->
  densePolls inputs = true /\ 0 <= in_dt i < LONG_PRESS_MS - CLICK_WINDOW_MS.
Proof.
  unfold densePolls. rewrite forallb_app. cbn [forallb]. intros H.
  apply andb_prop in H. destruct H as (Hf & Hi).
  rewrite andb_true_r in Hi.
  apply andb_prop in Hi. destruct Hi as (Hi1 & Hi2).
  apply Z.leb_le in Hi1. apply Z.ltb_lt in Hi2.
  split; [exact Hf | lia].
Qed.

Lemma beforeWrap_app inputs i :
  forall s : State,
    beforeWrap (inputs ++ [i]) s = true ->
    beforeWrap inputs s = true /\ clock (run inputs s) + in_dt i + 1400 < ULONG.
Proof.
  induction inputs as [ | j inputs IH]; intros s H.
  - cbn [app beforeWrap] in H. apply andb_prop in H. destruct H as (H & _).
    apply Z.ltb_lt in H. split; [reflexivity | exact H].
  - rewrite run_cons. cbn [app beforeWrap] in H |- *.
    apply andb_prop in H. destruct H as (Hj & H).
    destruct (IH (loop j s) H) as (A & B).
    rewrite Hj, A. split; [reflexivity | exact B].
Qed.

(** In a run polled densely the recorded times stay in order, and on the
    level-select screen a pending click is never more than 700 ms old. *)
Lemma clicksFresh_run inputs :
  forall s : State,
    clicksOrdered s -> clicksFresh s ->
    densePolls inputs = true -> beforeWrap inputs s = true ->
    clicksOrdered (run inputs s) /\ clicksFresh (run inputs s).
Proof.
  induction inputs as [ | i inputs IH]; intros s Ho Hf Hd Hw.
  - split; [exact Ho | exact Hf].
  - rewrite run_cons.
    destruct (densePolls_cons i inputs Hd) as (Hi & Hd').
    cbn [beforeWrap] in Hw. apply andb_prop in Hw. destruct Hw as (Hw & Hw').
    apply Z.ltb_lt in Hw.
    destruct (clicksFresh_loop i s Ho) as (Ho' & Hf' & _); [lia | exact Hw | ].
    apply (IH (loop i s) Ho' Hf' Hd' Hw').
Qed.

Lemma clicksFresh_setup rnd :
  clicksOrdered (setup rnd boot) /\ clicksFresh (setup rnd boot) /\
  clock (setup rnd boot) = 0.
Proof.
  unfold clicksOrdered, clicksFresh. state_cbn. rewrite setup_game.
  unfold setup, pickNewTarget, millis. cbv zeta. state_simpl.
  cbn. repeat split; try lia; discriminate.
Qed.

(** C3.  The click count is zero whenever the click window has resolved it
    into a level selection, and after every long press that acts.  In a run
    from power-on polled less than 100 ms apart, before [millis()] wraps, a
    call of [handleButton] that confirms a release after at least 800 ms on
    the level-select or the welcome screen (the screens where a long press
    has an action) ends with the click count zero, and so does that
    iteration of [loop]: the press that began the hold was resolved by a
    poll more than 700 ms after it, or is resolved by the expiry test of the
    same call. *)
Theorem long_press_leaves_no_clicks (inputs : list Input) (i : Input) (rnd : Z) :
  densePolls (inputs ++ [i]) = true ->
  beforeWrap (inputs ++ [i]) (setup rnd boot) = true ->
  let s := atPoll (in_dt i) (run inputs (setup rnd boot)) in
  releaseConfirmed (in_btn i) s -> LONG_PRESS_MS <= pressDur s ->
  currentScreen s = 0 \/ currentScreen s = 1 ->
  clickCount (handleButton (in_btn i) (in_rnd i) s) = 0 /\
  clickCount (run (inputs ++ [i]) (setup rnd boot)) = 0 /\
  (forall now (m : State),
     windowExpired now m = true -> clickCount (handleButton_window now m) = 0).
Proof.
  intros Hd Hw s Hr Hp Hscr. rewrite run_app.
  change (run [i] (run inputs (setup rnd boot)))
    with (loop i (run inputs (setup rnd boot))).
  destruct (densePolls_app inputs i Hd) as (Hd' & Hi).
  destruct (beforeWrap_app inputs i _ Hw) as (Hw' & Hl).
  unfold LONG_PRESS_MS, CLICK_WINDOW_MS in Hi.
  destruct (clicksFresh_setup rnd) as (O0 & F0 & C0).
  destruct (clicksFresh_run inputs (setup rnd boot) O0 F0 Hd' Hw') as (Ho & Hf).
  set (p := run inputs (setup rnd boot)) in *.
  assert (Hs : clickCount s = clickCount p /\ lastClickTime s = lastClickTime p /\
               btnDownAt s = btnDownAt p /\ currentScreen s = currentScreen p /\
               clock s = clock p + in_dt i).
  { subst s. unfold atPoll. state_cbn. rewrite uadd_small; [auto 6 | ].
    unfold clicksOrdered in Ho. lia. }
  clearbody p. destruct Hs as (S1 & S2 & S3 & S4 & S5).
  unfold clicksOrdered in Ho. unfold clicksFresh in Hf.
  assert (Hdur : pressDur s = clock s - btnDownAt s)
    by (unfold pressDur, millis; apply usub_small; lia).
  assert (Hage : usub (millis s) (lastClickTime s) = clock s - lastClickTime s)
    by (unfold millis; apply usub_small; lia).
  assert (H1 : clickCount (handleButton (in_btn i) (in_rnd i) s) = 0).
  { destruct (handleButton_long_release_clicks (in_btn i) (in_rnd i) s Hr Hp)
      as (_ & Henter & Hstay); [lia | ].
    destruct (Z.eq_dec (currentScreen s) 1) as [E1 | E1].
    - destruct (Z_le_gt_dec (selectedLevel s) (unlockedLevel s)) as [Hu | Hu].
      + destruct (Henter E1 Hu) as (_ & ->).
        destruct Hf as [Hz | Hz]; [congruence | lia | ].
        unfold LONG_PRESS_MS, CLICK_WINDOW_MS in *. lia.
      + apply Hstay; [right; split; [exact E1 | lia] | ].
        rewrite Hage. unfold LONG_PRESS_MS, CLICK_WINDOW_MS in *. lia.
    - apply Hstay; [left; lia | ].
      rewrite Hage. unfold LONG_PRESS_MS, CLICK_WINDOW_MS in *. lia. }
  split; [exact H1 | ]. split.
  - rewrite loop_unfold. fold s.
    destruct (afterButton_stages (millis s) (in_pot i)
                (handleButton (in_btn i) (in_rnd i) s)) as (B & _).
    + destruct (clicksFresh_handleButton (in_btn i) (in_rnd i) s) as (_ & C & _);
        [unfold clicksOrdered; lia | lia | ].
      rewrite C. lia.
    + destruct (clicksFresh_handleButton (in_btn i) (in_rnd i) s) as (_ & C & _);
        [unfold clicksOrdered; lia | lia | ].
      rewrite C. lia.
    + cbv zeta in B. state_cbn. rewrite B. exact H1.
  - intros now m We.
    destruct (handleButton_window_fires now m We) as (_ & B & _).
    state_cbn. rewrite B. reflexivity.
Qed.

Lemma long_press_leaves_no_clicks_witness :
  let inputs := (pollsEvery 90 10 LOW 512 300 ++ pollsEvery 3 10 HIGH 512 300)%list in
  let i := mkInput 10 HIGH 512 300 in
  let s := atPoll (in_dt i) (run inputs (setup 300 boot)) in
  densePolls (inputs ++ [i]) = true /\
  beforeWrap (inputs ++ [i]) (setup 300 boot) = true /\
  releaseConfirmed HIGH s /\ LONG_PRESS_MS <= pressDur s /\ currentScreen s = 1 /\
  currentScreen (handleButton HIGH 300 s) = 2 /\
  clickCount (handleButton HIGH 300 s) = 0.
Proof.
  intros inputs i s.
  assert (Hd : densePolls (inputs ++ [i]) = true) by (vm_compute; reflexivity).
  assert (Hw : beforeWrap (inputs ++ [i]) (setup 300 boot) = true)
    by (vm_compute; reflexivity).
  assert (Hr : releaseConfirmed (in_btn i) s) by (repeat split; vm_compute; congruence).
  assert (Hp : LONG_PRESS_MS <= pressDur s) by (vm_compute; discriminate).
  assert (Hs : currentScreen s = 1) by (vm_compute; reflexivity).
  destruct (long_press_leaves_no_clicks inputs i 300 Hd Hw Hr Hp (or_intror Hs))
    as (H & _).
  split; [exact Hd | ]. split; [exact Hw | ]. split; [exact Hr | ]. split; [exact Hp | ].
  split; [exact Hs | ]. split; [vm_compute; reflexivity | exact H].
Defined.

(** ** A win on the frontier that unlocks nothing *)

(** C6 (the code departs from it).  A run from power-on polled every 10 ms.
    The round on level 2 is won while level 2 is the highest level unlocked.
    The screen is still the game screen, so the timer of the round ends the
    round on the welcome screen with the win window open; there one click is
    counted and resolved into level 1.  When the win window elapses, the win
    block compares the level selected by then, 1, with the unlocked level 2:
    the win on the frontier unlocks nothing. *)
Theorem win_on_frontier_unlocks_nothing :
  let inputs := (winLevel2Dense ++ clickInWinWindow)%list in
  let last := mkInput 10 HIGH 300 300 in
  let won := run winLevel2Dense (setup 300 boot) in
  let before := run clickInWinWindow won in
  let after := loop last before in
  densePolls (inputs ++ [last]) = true /\
  (currentScreen won = 2 /\ selectedLevel won = 2 /\ unlockedLevel won = 2 /\
   winAnimActive won = true /\ lcdLine1 won = "Correct! YAY YAY YAYYY Unlocked") /\
  (winAnimActive before = true /\ millis before < winAnimEnd before /\
   firstn 4 (lcdFrames before) =
     [("Select Level: 1", "Long press to enter"); ("Selecting...", "Clicks:1");
      ("Play PotMatch :)", "Press to select"); ("Time up!", "Returning...")] /\
   selectedLevel before = 1 /\ unlockedLevel before = 2) /\
  (winAnimActive after = false /\ currentScreen after = 0 /\
   selectedLevel after = 1 /\ unlockedLevel after = 2).
Proof.
  intros inputs last won before after. vm_compute. repeat split.
Qed.
